(** * useOmron: a shallow embedding of [src/hooks/useOmron.ts]

    The hook decodes Omron manufacturer advertising data and GATT health
    measurements, and drives the Record Access Control Point (RACP) of a
    connected device.  The development follows the source file top to
    bottom: the JavaScript primitives it relies on ([Js], [Buffer]), the
    decoders, then the hook's state with one transition per callback.

    Conventions.
    - A JavaScript number that the code treats as an integer (bytes, flag
      words, offsets) is a [Z]; a number that takes part in floating
      arithmetic is a binary64 [float], the type JavaScript numbers have.
    - [Math.pow] is left to the engine by the language, so the engine is
      a parameter ([Engine]) of [readSFloat] and of everything that reaches
      it; a statement holds on every engine unless it names one.
    - An exception is a value [Throw e] of [Result]; [try]/[catch] is a
      match on it.
    - A call made to the BLE transport is appended to the [trace] of the
      hook state; what the transport answers is carried by the objects the
      transport hands out (their methods are record fields).
    - A callback acts on the current state: the closures the hook returns
      are taken from its latest render.
    - Every scan result carries a device object of its own, as the
      transport builds one per result; [Object.assign(device, parsed)]
      therefore touches no entry already in the registry. *)

From Stdlib Require Import ZArith List String Ascii Bool Lia.
From Stdlib Require Import Floats Uint63.
From Stdlib.Strings Require Import Byte.
Import ListNotations.

Local Open Scope string_scope.
Local Open Scope list_scope.
Local Open Scope Z_scope.

(** ** JavaScript primitives *)

Module Js.

(** Exceptions the code can meet: the range error of a [Buffer] read past
    the end, and an error reported by the BLE transport. *)
Inductive Error : Type :=
| RangeError
| BleError (message : string).

Inductive Result (A : Type) : Type :=
| Ok (a : A)
| Throw (e : Error).
Arguments Ok {A} a.
Arguments Throw {A} e.

Definition bind {A B : Type} (m : Result A) (k : A -> Result B) : Result B :=
  match m with
  | Ok a => k a
  | Throw e => Throw e
  end.

(** [try { m } catch (e) { h e }] *)
Definition try_catch {A : Type} (m : Result A) (h : Error -> A) : A :=
  match m with
  | Ok a => a
  | Throw e => h e
  end.

Definition is_ok {A : Type} (m : Result A) : bool :=
  match m with Ok _ => true | Throw _ => false end.

(** Truthiness of a number used as a condition. *)
Definition truthy (n : Z) : bool := negb (n =? 0).

(** [String.prototype.toUpperCase] on the ASCII range, which is all a
    UUID string holds. *)
Definition upper_ascii (c : ascii) : ascii :=
  let n := nat_of_ascii c in
  if (97 <=? n)%nat && (n <=? 122)%nat then ascii_of_nat (n - 32) else c.

Fixpoint toUpperCase (s : string) : string :=
  match s with
  | EmptyString => EmptyString
  | String c s' => String (upper_ascii c) (toUpperCase s')
  end.

(** [String.prototype.includes]: [needle] occurs in [s] as a substring. *)
Fixpoint includes (s needle : string) : bool :=
  String.prefix needle s
  || match s with
     | EmptyString => false
     | String _ s' => includes s' needle
     end.

(** An integer that a double holds exactly, as that double. *)
Definition number_of_Z (z : Z) : float :=
  if z <? 0
  then PrimFloat.opp (PrimFloat.of_uint63 (Uint63.of_Z (- z)))
  else PrimFloat.of_uint63 (Uint63.of_Z z).

(** [Math.pow].  The language fixes the result where an argument is
    special (a NaN exponent gives NaN, a zero exponent gives 1) and leaves
    it "implementation-approximated" everywhere else: two engines may
    return different doubles for the same arguments.  The approximation is
    therefore a parameter, the engine the hook runs on.  Of the special
    cases only the two on the exponent are written out: the hook calls
    [Math.pow] with base 10 and a finite exponent. *)
Class Engine : Type := {
  Math_pow_approximation : float -> float -> float
}.

Definition Math_pow {engine : Engine} (base exponent : float) : float :=
  if PrimFloat.is_nan exponent then PrimFloat.nan
  else if PrimFloat.eqb exponent 0%float then 1%float
  else Math_pow_approximation base exponent.

End Js.

Import Js.

Notation "x <- m ;; k" := (Js.bind m (fun x => k))
  (at level 61, m at next level, right associativity).

(** ** The [buffer] package, as far as the hook uses it *)

Module Buffer.

Definition t : Type := list byte.

Definition length (buffer : t) : Z := Z.of_nat (List.length buffer).

(** A byte as the number it holds. *)
Definition byteZ (b : byte) : Z := Z.of_N (Byte.to_N b).

(** The element at index [i], for [0 <= i < length]. *)
Definition get (buffer : t) (i : Z) : Z :=
  byteZ (nth (Z.to_nat i) buffer x00).

(** Every read first checks that [ext] bytes are there from [offset] on. *)
Definition checkOffset (offset ext : Z) (buffer : t) : Result unit :=
  if (offset <? 0) || (length buffer <? offset + ext)
  then Throw RangeError
  else Ok tt.

Definition readUInt8 (buffer : t) (offset : Z) : Result Z :=
  _ <- checkOffset offset 1 buffer ;;
  Ok (get buffer offset).

Definition readUInt16LE (buffer : t) (offset : Z) : Result Z :=
  _ <- checkOffset offset 2 buffer ;;
  Ok (Z.lor (get buffer offset) (Z.shiftl (get buffer (offset + 1)) 8)).

(** The binary32 value of a 32-bit word, as the double that equals it. *)
Definition float_of_bits32 (w : Z) : float :=
  let s := Z.testbit w 31 in
  let e := Z.land (Z.shiftr w 23) 255 in
  let m := Z.land w 8388607 in
  let sign (f : float) := if s then PrimFloat.opp f else f in
  if e =? 255 then
    if m =? 0 then sign PrimFloat.infinity else PrimFloat.nan
  else if e =? 0 then
    sign (Z.ldexp (number_of_Z m) (-149))
  else
    sign (Z.ldexp (number_of_Z (8388608 + m)) (e - 150)).

Definition readFloatLE (buffer : t) (offset : Z) : Result float :=
  _ <- checkOffset offset 4 buffer ;;
  Ok (float_of_bits32
        (Z.lor (Z.lor (get buffer offset) (Z.shiftl (get buffer (offset + 1)) 8))
               (Z.lor (Z.shiftl (get buffer (offset + 2)) 16)
                      (Z.shiftl (get buffer (offset + 3)) 24)))).

(** [Buffer.alloc(n)] and [writeUInt8(value, offset)]. *)
Definition alloc (n : nat) : t := repeat x00 n.

Definition byte_of_Z (z : Z) : byte :=
  match Byte.of_N (Z.to_N (z mod 256)) with
  | Some b => b
  | None => x00
  end.

Fixpoint set (buffer : t) (i : nat) (b : byte) : t :=
  match buffer, i with
  | [], _ => []
  | _ :: rest, O => b :: rest
  | x :: rest, S i' => x :: set rest i' b
  end.

Definition writeUInt8 (buffer : t) (value offset : Z) : Result t :=
  _ <- checkOffset offset 1 buffer ;;
  Ok (set buffer (Z.to_nat offset) (byte_of_Z value)).

(** *** Base64, the encoding in which the transport hands bytes over

    [Buffer.from(s, 'base64')] is lenient: the input ends at the first
    [=], characters outside the alphabet (URL-safe [-] and [_] included)
    are dropped, fewer than two characters decode to nothing, and a
    trailing group of two or three characters yields one or two bytes. *)

Definition sextet_of_char (c : ascii) : option Z :=
  let n := Z.of_N (N_of_ascii c) in
  if (65 <=? n) && (n <=? 90) then Some (n - 65)
  else if (97 <=? n) && (n <=? 122) then Some (n - 71)
  else if (48 <=? n) && (n <=? 57) then Some (n + 4)
  else if (n =? 43) || (n =? 45) then Some 62
  else if (n =? 47) || (n =? 95) then Some 63
  else None.

Definition char_of_sextet (v : Z) : ascii :=
  ascii_of_N (Z.to_N
    (if v <? 26 then v + 65
     else if v <? 52 then v + 71
     else if v <? 62 then v - 4
     else if v =? 62 then 43
     else 47)).

(** The sextets of the cleaned input: up to the first [=], invalid
    characters dropped. *)
Fixpoint base64clean (s : string) : list Z :=
  match s with
  | EmptyString => []
  | String c s' =>
      if Ascii.eqb c "="%char then []
      else match sextet_of_char c with
           | Some v => v :: base64clean s'
           | None => base64clean s'
           end
  end.

Fixpoint toByteArray (sextets : list Z) : t :=
  match sextets with
  | v0 :: v1 :: v2 :: v3 :: rest =>
      let tmp := Z.lor (Z.lor (Z.shiftl v0 18) (Z.shiftl v1 12))
                       (Z.lor (Z.shiftl v2 6) v3) in
      byte_of_Z (Z.land (Z.shiftr tmp 16) 255)
      :: byte_of_Z (Z.land (Z.shiftr tmp 8) 255)
      :: byte_of_Z (Z.land tmp 255)
      :: toByteArray rest
  | [v0; v1; v2] =>
      let tmp := Z.lor (Z.lor (Z.shiftl v0 10) (Z.shiftl v1 4)) (Z.shiftr v2 2) in
      [byte_of_Z (Z.land (Z.shiftr tmp 8) 255); byte_of_Z (Z.land tmp 255)]
  | [v0; v1] =>
      [byte_of_Z (Z.land (Z.lor (Z.shiftl v0 2) (Z.shiftr v1 4)) 255)]
  | _ => []
  end.

Definition from_base64 (s : string) : t := toByteArray (base64clean s).

(** [buffer.toString('base64')]: padded, standard alphabet. *)
Fixpoint toString_base64 (buffer : t) : string :=
  match buffer with
  | b0 :: b1 :: b2 :: rest =>
      let tmp := Z.lor (Z.lor (Z.shiftl (byteZ b0) 16) (Z.shiftl (byteZ b1) 8)) (byteZ b2) in
      String (char_of_sextet (Z.land (Z.shiftr tmp 18) 63))
        (String (char_of_sextet (Z.land (Z.shiftr tmp 12) 63))
          (String (char_of_sextet (Z.land (Z.shiftr tmp 6) 63))
            (String (char_of_sextet (Z.land tmp 63))
              (toString_base64 rest))))
  | [b0; b1] =>
      let tmp := Z.lor (Z.shiftl (byteZ b0) 8) (byteZ b1) in
      String (char_of_sextet (Z.shiftr tmp 10))
        (String (char_of_sextet (Z.land (Z.shiftr tmp 4) 63))
          (String (char_of_sextet (Z.land (Z.shiftl tmp 2) 63)) "="))
  | [b0] =>
      String (char_of_sextet (Z.shiftr (byteZ b0) 2))
        (String (char_of_sextet (Z.land (Z.shiftl (byteZ b0) 4) 63)) "==")
  | [] => ""
  end.

End Buffer.


(** ** Constants (lines 6-26) *)

Definition OMRON_COMPANY_ID : Z := 0x020e.

Module CHARACTERISTICS.
Definition BLOOD_PRESSURE_MEASUREMENT : string := "2A35".
Definition WEIGHT_MEASUREMENT : string := "2A9D".
Definition BODY_COMPOSITION_MEASUREMENT : string := "2A9C".
Definition TEMPERATURE_MEASUREMENT : string := "2A1C".
Definition RECORD_ACCESS_CONTROL_POINT : string := "2A52".
Definition OMRON_PLX_SPOT_CHECK : string := "6E4000F1-B5A3-F393-EFA9-E50E24DCCA9E".
End CHARACTERISTICS.

Module RACP_OPCODES.
Definition REPORT_STORED_RECORDS : Z := 0x01.
Definition REPORT_NUMBER_OF_STORED_RECORDS : Z := 0x04.
Definition NUMBER_OF_STORED_RECORDS_RESPONSE : Z := 0x05.
Definition RESPONSE_CODE : Z := 0x06.
End RACP_OPCODES.

Module RACP_OPERATORS.
Definition ALL_RECORDS : Z := 0x01.
End RACP_OPERATORS.

(** ** Exported types (lines 28-92) *)

Record OmronUserInfo : Type := {
  index : Z;
  lastSequenceNumber : Z;
  numberOfRecords : Z
}.

Record OmronAdvertisingInfo : Type := {
  pairable : bool;
  timeNotConfigured : bool;
  numberOfUsers : Z;
  users : list OmronUserInfo
}.

(** A [Date] is kept as the call that built it: [new Date(y, m, d, h, mi, s)]
    with the arguments as passed, or [new Date()] with the clock it read. *)
Inductive Date : Type :=
| DateOf (year monthIndex day hours minutes seconds : Z)
| DateNow (clock : Z).

(** The string literal types of the [unit] fields; [degC] is the degree
    sign followed by C. *)
Inductive MeasurementUnit : Type := mmHg | kg | degC.

Record BloodPressureMeasurement : Type := {
  systolic : float;
  diastolic : float;
  meanArterialPressure : float;
  pulse : option float;
  bp_timestamp : Date;
  bp_unit : MeasurementUnit
}.

Record WeightMeasurement : Type := {
  weight : float;
  weight_timestamp : Date;
  weight_unit : MeasurementUnit
}.

Record TemperatureMeasurement : Type := {
  temperature : float;
  temperature_timestamp : Date;
  temperature_unit : MeasurementUnit
}.

Record BodyCompositionMeasurement : Type := {
  bc_timestamp : Date;
  bodyFatPercentage : option float;
  muscleMass : option float
}.

(** The union is tagged by its [type] field; the tag is the constructor. *)
Inductive OmronMeasurement : Type :=
| blood_pressure (m : BloodPressureMeasurement)
| weight_ (m : WeightMeasurement)
| temperature_ (m : TemperatureMeasurement)
| body_composition (m : BodyCompositionMeasurement).

Record UseOmronBluetoothOptions : Type := {
  autoScanOnBluetoothOn : bool;
  scanTimeoutMs : Z;
  requestMtu : Z;
  logLimit : Z
}.

Definition DEFAULT_OPTIONS : UseOmronBluetoothOptions := {|
  autoScanOnBluetoothOn := true;
  scanTimeoutMs := 10000;
  requestMtu := 150;
  logLimit := 20
|}.

(** ** Decoders *)

(** *** Advertising data (body of the [try] at lines 135-161)

    The result is [Ok None] for the early [return null] on a foreign
    company id or type, [Ok (Some info)] for a decoded payload and
    [Throw e] where a read leaves the buffer. *)

Fixpoint readUsers (buffer : Buffer.t) (count : nat) (i offset : Z)
  : Result (list OmronUserInfo) :=
  match count with
  | O => Ok []
  | S count' =>
      lastSequenceNumber <- Buffer.readUInt16LE buffer offset ;;
      numberOfRecords <- Buffer.readUInt8 buffer (offset + 2) ;;
      rest <- readUsers buffer count' (i + 1) (offset + 3) ;;
      Ok ({| index := i + 1;
             lastSequenceNumber := lastSequenceNumber;
             numberOfRecords := numberOfRecords |} :: rest)
  end.

Definition parseOmronManufacturerData_try (buffer : Buffer.t)
  : Result (option OmronAdvertisingInfo) :=
  companyId <- Buffer.readUInt16LE buffer 0 ;;
  type <- Buffer.readUInt8 buffer 2 ;;
  if negb (companyId =? OMRON_COMPANY_ID) || negb (type =? 0x01) then Ok None
  else
    flags <- Buffer.readUInt8 buffer 3 ;;
    let pairable := negb (Z.land flags 8 =? 0) in          (* 0b1000 *)
    let timeNotConfigured := negb (Z.land flags 4 =? 0) in (* 0b0100 *)
    let numberOfUsers := Z.land flags 3 + 1 in             (* 0b0011 *)
    users <- readUsers buffer (Z.to_nat numberOfUsers) 0 4 ;;
    Ok (Some {| pairable := pairable;
                timeNotConfigured := timeNotConfigured;
                numberOfUsers := numberOfUsers;
                users := users |}).

(** *** SFLOAT (lines 185-195)

    The closure reads at the enclosing function's [offset] and advances
    it; here the offset goes in and the advanced offset comes out. *)

Definition readSFloat {engine : Engine} (buffer : Buffer.t) (offset : Z)
  : Result (float * Z) :=
  raw <- Buffer.readUInt16LE buffer offset ;;
  let offset := offset + 2 in
  let mantissa := Z.land raw 0x0fff in
  let exponent := Z.shiftr raw 12 in
  let signedMantissa := if mantissa >=? 0x0800 then mantissa - 0x1000 else mantissa in
  let signedExponent := if exponent >=? 0x08 then exponent - 0x10 else exponent in
  Ok (PrimFloat.mul (number_of_Z signedMantissa)
                    (Math_pow 10%float (number_of_Z signedExponent)), offset).

(** The seven-byte date-time block, written out three times in the source
    (lines 203-211, 241-248, 269-276). *)
Definition readDateTime (buffer : Buffer.t) (offset : Z) : Result Date :=
  year <- Buffer.readUInt16LE buffer offset ;;
  month <- Buffer.readUInt8 buffer (offset + 2) ;;
  day <- Buffer.readUInt8 buffer (offset + 3) ;;
  hour <- Buffer.readUInt8 buffer (offset + 4) ;;
  minute <- Buffer.readUInt8 buffer (offset + 5) ;;
  second <- Buffer.readUInt8 buffer (offset + 6) ;;
  Ok (DateOf year (month - 1) day hour minute second).

(** [timestamp || new Date()]: a [Date] object is always truthy. *)
Definition orNow (timestamp : option Date) (now : Z) : Date :=
  match timestamp with
  | Some d => d
  | None => DateNow now
  end.

(** *** Blood pressure (lines 181-228) *)

Definition parseBloodPressureData {engine : Engine} (buffer : Buffer.t) (now : Z)
  : Result BloodPressureMeasurement :=
  flags <- Buffer.readUInt8 buffer 0 ;;
  let offset := 1 in
  r1 <- readSFloat buffer offset ;;
  let '(systolic, offset) := r1 in
  r2 <- readSFloat buffer offset ;;
  let '(diastolic, offset) := r2 in
  r3 <- readSFloat buffer offset ;;
  let '(meanArterialPressure, offset) := r3 in
  r4 <- (if truthy (Z.land flags 0x02)
         then d <- readDateTime buffer offset ;; Ok (Some d, offset + 7)
         else Ok (None, offset)) ;;
  let '(timestamp, offset) := r4 in
  pulse <- (if truthy (Z.land flags 0x04)
            then r <- readSFloat buffer offset ;; Ok (Some (fst r))
            else Ok None) ;;
  Ok {| systolic := systolic;
        diastolic := diastolic;
        meanArterialPressure := meanArterialPressure;
        pulse := pulse;
        bp_timestamp := orNow timestamp now;
        bp_unit := mmHg |}.

(** *** Weight (lines 230-257); the literal is the double nearest 0.005. *)

Definition parseWeightData (buffer : Buffer.t) (now : Z) : Result WeightMeasurement :=
  flags <- Buffer.readUInt8 buffer 0 ;;
  let offset := 1 in
  weightRaw <- Buffer.readUInt16LE buffer offset ;;
  let offset := offset + 2 in
  let weight := PrimFloat.mul (number_of_Z weightRaw) 0x1.47ae147ae147bp-8%float in
  timestamp <- (if truthy (Z.land flags 0x02)
                then d <- readDateTime buffer offset ;; Ok (Some d)
                else Ok None) ;;
  Ok {| weight := weight;
        weight_timestamp := orNow timestamp now;
        weight_unit := kg |}.

(** *** Temperature (lines 259-289) *)

Definition parseTemperatureData (buffer : Buffer.t) (now : Z)
  : Result TemperatureMeasurement :=
  flags <- Buffer.readUInt8 buffer 0 ;;
  let offset := 1 in
  tempRaw <- Buffer.readFloatLE buffer offset ;;
  let offset := offset + 4 in
  timestamp <- (if truthy (Z.land flags 0x02)
                then d <- readDateTime buffer offset ;; Ok (Some d)
                else Ok None) ;;
  let tempCelsius :=
    if truthy (Z.land flags 0x01) then tempRaw
    else PrimFloat.div (PrimFloat.mul (PrimFloat.sub tempRaw 32%float) 5%float) 9%float in
  Ok {| temperature := tempCelsius;
        temperature_timestamp := orNow timestamp now;
        temperature_unit := degC |}.

(** *** Body composition (lines 291-311) *)

Definition parseBodyCompositionData (buffer : Buffer.t) (now : Z)
  : Result BodyCompositionMeasurement :=
  flags <- Buffer.readUInt16LE buffer 0 ;;
  let offset := 2 in
  r1 <- (if truthy (Z.land flags 0x02)
         then v <- Buffer.readUInt16LE buffer offset ;;
              Ok (Some (PrimFloat.div (number_of_Z v) 10%float), offset + 2)
         else Ok (None, offset)) ;;
  let '(bodyFatPercentage, offset) := r1 in
  muscleMass <- (if truthy (Z.land flags 0x20)
                 then v <- Buffer.readUInt16LE buffer offset ;;
                      Ok (Some (PrimFloat.div (number_of_Z v) 10%float))
                 else Ok None) ;;
  Ok {| bc_timestamp := DateNow now;
        bodyFatPercentage := bodyFatPercentage;
        muscleMass := muscleMass |}.

(** *** Dispatch on the characteristic (body of the [try] at lines 316-335) *)

Definition parseMeasurementData_try {engine : Engine}
  (characteristicUUID : string) (buffer : Buffer.t) (now : Z)
  : Result (option OmronMeasurement) :=
  let uuid := toUpperCase characteristicUUID in
  if includes uuid CHARACTERISTICS.BLOOD_PRESSURE_MEASUREMENT then
    m <- parseBloodPressureData buffer now ;; Ok (Some (blood_pressure m))
  else if includes uuid CHARACTERISTICS.WEIGHT_MEASUREMENT then
    m <- parseWeightData buffer now ;; Ok (Some (weight_ m))
  else if includes uuid CHARACTERISTICS.TEMPERATURE_MEASUREMENT then
    m <- parseTemperatureData buffer now ;; Ok (Some (temperature_ m))
  else if includes uuid CHARACTERISTICS.BODY_COMPOSITION_MEASUREMENT then
    m <- parseBodyCompositionData buffer now ;; Ok (Some (body_composition m))
  else Ok None.

(** *** The subscription filter (lines 170-179) *)

Definition isMeasurementCharacteristic (uuid : string) : bool :=
  let measurementUUIDs :=
    [ CHARACTERISTICS.BLOOD_PRESSURE_MEASUREMENT;
      CHARACTERISTICS.WEIGHT_MEASUREMENT;
      CHARACTERISTICS.BODY_COMPOSITION_MEASUREMENT;
      CHARACTERISTICS.TEMPERATURE_MEASUREMENT;
      CHARACTERISTICS.OMRON_PLX_SPOT_CHECK ] in
  existsb (fun muuid => includes (toUpperCase uuid) (toUpperCase muuid)) measurementUUIDs.

(** ** The BLE transport, as the hook sees it

    Objects handed out by [react-native-ble-plx] are records of what their
    methods answer.  A method that is awaited answers with what its promise
    settles to: [Ok] when it resolves, [Throw] when it rejects. *)

Record Subscription : Type := {
  subId : nat;
  remove : Result unit
}.

Record Characteristic : Type := {
  uuid : string;
  monitor : Result Subscription;
  writeWithResponse : string -> Result unit
}.

Record Service : Type := {
  characteristics : Result (list Characteristic)
}.

Record Device : Type := {
  id : string;
  name : option string;
  manufacturerData : option string;
  services : Result (list Service);
  discoverAllServicesAndCharacteristics : Result unit
}.

Record BleManager : Type := {
  connectToDevice_ : string -> Z -> Result Device;
  cancelDeviceConnection : string -> Result unit;
  onStateChange : Subscription
}.

(** [OmronDiscoveredDevice = Device & OmronAdvertisingInfo], built by
    [Object.assign(device, parsed)] on the device object of one scan
    callback. *)
Record OmronDiscoveredDevice : Type := {
  device_of : Device;
  info_of : OmronAdvertisingInfo
}.

(** Calls that reach the transport (or a timer), in the order made. *)
Inductive BleCall : Type :=
| CallStopDeviceScan
| CallStartDeviceScan
| CallClearTimeout
| CallSetTimeout (ms : Z)
| CallConnectToDevice (deviceId : string) (requestMTU : Z)
| CallCancelDeviceConnection (deviceId : string)
| CallDiscoverAll (deviceId : string)
| CallMonitor (characteristicUUID : string)
| CallWriteWithResponse (characteristicUUID : string) (base64 : string)
| CallRemove (subscription : nat)
| CallDestroy.

(** One constructor per [addLog] call site; the clock prefix of an entry
    is left out. *)
Inductive LogMessage : Type :=
| LogParseError (e : Error)
| LogStartingScan
| LogScanError (e : Error)
| LogFoundDevice (deviceName : string)
| LogScanStopped
| LogNotificationError (e : Error)
| LogReceivedMeasurement (data : OmronMeasurement)
| LogNotificationsEnabled (characteristicUUID : string)
| LogSetupNotificationFailed (e : Error)
| LogRequestedAllRecords
| LogRequestRecordsFailed (e : Error)
| LogDeviceHasRecords (numberOfRecords : Z)
| LogRACPResponse (requestOpCode responseValue : Z)
| LogRACPResponseError (e : Error)
| LogRACPNotFound
| LogRACPError (e : Error)
| LogRequestedNumberOfRecords
| LogRACPRequestFailed (e : Error)
| LogSetupFailed (e : Error)
| LogConnecting (deviceName : option string)
| LogConnected (deviceName : option string)
| LogServicesDiscovered
| LogConnectionFailed (e : Error)
| LogDisconnected.

(** ** The hook's state: the five [useState] cells, the three refs, and
    the transport calls made so far. *)

Record HookState : Type := {
  devices : list OmronDiscoveredDevice;
  connectedDevice : option Device;
  connectionState : string;
  measurementData : list OmronMeasurement;
  logs : list LogMessage;
  managerRef : option BleManager;
  scanTimeoutRef : bool;
  subscriptionsRef : list Subscription;
  trace : list BleCall
}.

Definition setDevices (v : list OmronDiscoveredDevice) (st : HookState) : HookState :=
  {| devices := v; connectedDevice := connectedDevice st;
     connectionState := connectionState st; measurementData := measurementData st;
     logs := logs st; managerRef := managerRef st; scanTimeoutRef := scanTimeoutRef st;
     subscriptionsRef := subscriptionsRef st; trace := trace st |}.

Definition setConnectedDevice (v : option Device) (st : HookState) : HookState :=
  {| devices := devices st; connectedDevice := v;
     connectionState := connectionState st; measurementData := measurementData st;
     logs := logs st; managerRef := managerRef st; scanTimeoutRef := scanTimeoutRef st;
     subscriptionsRef := subscriptionsRef st; trace := trace st |}.

Definition setConnectionState (v : string) (st : HookState) : HookState :=
  {| devices := devices st; connectedDevice := connectedDevice st;
     connectionState := v; measurementData := measurementData st;
     logs := logs st; managerRef := managerRef st; scanTimeoutRef := scanTimeoutRef st;
     subscriptionsRef := subscriptionsRef st; trace := trace st |}.

Definition setMeasurementData (v : list OmronMeasurement) (st : HookState) : HookState :=
  {| devices := devices st; connectedDevice := connectedDevice st;
     connectionState := connectionState st; measurementData := v;
     logs := logs st; managerRef := managerRef st; scanTimeoutRef := scanTimeoutRef st;
     subscriptionsRef := subscriptionsRef st; trace := trace st |}.

Definition setLogs (v : list LogMessage) (st : HookState) : HookState :=
  {| devices := devices st; connectedDevice := connectedDevice st;
     connectionState := connectionState st; measurementData := measurementData st;
     logs := v; managerRef := managerRef st; scanTimeoutRef := scanTimeoutRef st;
     subscriptionsRef := subscriptionsRef st; trace := trace st |}.

Definition setManagerRef (v : option BleManager) (st : HookState) : HookState :=
  {| devices := devices st; connectedDevice := connectedDevice st;
     connectionState := connectionState st; measurementData := measurementData st;
     logs := logs st; managerRef := v; scanTimeoutRef := scanTimeoutRef st;
     subscriptionsRef := subscriptionsRef st; trace := trace st |}.

Definition setScanTimeoutRef (v : bool) (st : HookState) : HookState :=
  {| devices := devices st; connectedDevice := connectedDevice st;
     connectionState := connectionState st; measurementData := measurementData st;
     logs := logs st; managerRef := managerRef st; scanTimeoutRef := v;
     subscriptionsRef := subscriptionsRef st; trace := trace st |}.

Definition setSubscriptionsRef (v : list Subscription) (st : HookState) : HookState :=
  {| devices := devices st; connectedDevice := connectedDevice st;
     connectionState := connectionState st; measurementData := measurementData st;
     logs := logs st; managerRef := managerRef st; scanTimeoutRef := scanTimeoutRef st;
     subscriptionsRef := v; trace := trace st |}.

(** Record a call made to the transport. *)
Definition call (c : BleCall) (st : HookState) : HookState :=
  {| devices := devices st; connectedDevice := connectedDevice st;
     connectionState := connectionState st; measurementData := measurementData st;
     logs := logs st; managerRef := managerRef st; scanTimeoutRef := scanTimeoutRef st;
     subscriptionsRef := subscriptionsRef st; trace := trace st ++ [c] |}.

(** The state after the first render and its effect (lines 97-109 and
    592-606): a manager exists and the subscription to the adapter's state
    is the one entry of [subscriptionsRef]. *)
Definition mount (manager : BleManager) : HookState :=
  {| devices := []; connectedDevice := None;
     connectionState := "Disconnected"; measurementData := [];
     logs := []; managerRef := Some manager; scanTimeoutRef := false;
     subscriptionsRef := [onStateChange manager]; trace := [] |}.

(** ** The hook's callbacks (lines 111-590)

    Each callback is a transition of [HookState].  A callback that awaits
    runs here up to its end with what the awaited calls settle to, except
    [connectToDevice], which is also given in two halves around its first
    [await], so that the state in which a connection attempt is in flight
    can be reached and acted upon. *)

Section Hook.

Context {engine : Engine}.
Variable options : UseOmronBluetoothOptions.

(** [prev.slice(-k)]: the last [k] entries, and all of them for [k = 0]
    since [-0] is [0]. *)
Definition slice_from_end {A : Type} (k : Z) (l : list A) : list A :=
  if k =? 0 then l else skipn (List.length l - Z.to_nat k) l.

(** Lines 111-118. *)
Definition addLog (message : LogMessage) (st : HookState) : HookState :=
  setLogs (slice_from_end (Z.max (logLimit options - 1) 0) (logs st) ++ [message]) st.

(** Lines 132-168. *)
Definition parseOmronManufacturerData (base64Data : string) (st : HookState)
  : option OmronAdvertisingInfo * HookState :=
  match parseOmronManufacturerData_try (Buffer.from_base64 base64Data) with
  | Ok r => (r, st)
  | Throw err => (None, addLog (LogParseError err) st)
  end.

(** Lines 313-342. *)
Definition parseMeasurementData (characteristicUUID base64Value : string) (now : Z)
  (st : HookState) : option OmronMeasurement * HookState :=
  match parseMeasurementData_try characteristicUUID (Buffer.from_base64 base64Value) now with
  | Ok r => (r, st)
  | Throw error => (None, addLog (LogParseError error) st)
  end.

(** Lines 344-354. *)
Definition stopScan (st : HookState) : HookState :=
  match managerRef st with
  | None => st
  | Some manager =>
      let st := call CallStopDeviceScan st in
      if scanTimeoutRef st
      then setScanTimeoutRef false (call CallClearTimeout st)
      else st
  end.

(** A string used as a condition: [null] and the empty string are falsy. *)
Definition nonEmpty (s : option string) : option string :=
  match s with
  | Some EmptyString => None
  | other => other
  end.

(** The listener passed to [startDeviceScan] (lines 365-384). *)
Definition scanListener (error : option Error) (device : option Device)
  (st : HookState) : HookState :=
  match error with
  | Some e => addLog (LogScanError e) st
  | None =>
      match device with
      | None => st
      | Some device =>
          match nonEmpty (manufacturerData device) with
          | None => st
          | Some data =>
              let '(parsed, st) := parseOmronManufacturerData data st in
              match parsed with
              | None => st
              | Some parsed =>
                  let prev := devices st in
                  match find (fun d => String.eqb (id (device_of d)) (id device)) prev with
                  | Some exists_ => st
                  | None =>
                      let st := addLog (LogFoundDevice
                                  (match nonEmpty (name device) with
                                   | Some n => n
                                   | None => "Unknown"
                                   end)) st in
                      let enriched := {| device_of := device; info_of := parsed |} in
                      setDevices (prev ++ [enriched]) st
                  end
              end
          end
      end
  end.

(** Lines 356-390. *)
Definition scanDevices (st : HookState) : HookState :=
  match managerRef st with
  | None => st
  | Some manager =>
      let st := addLog LogStartingScan st in
      let st := setDevices [] st in
      let st := stopScan st in
      let st := call CallStartDeviceScan st in
      setScanTimeoutRef true (call (CallSetTimeout (scanTimeoutMs options)) st)
  end.

(** The timer callback of lines 386-389. *)
Definition scanTimeoutExpired (st : HookState) : HookState :=
  addLog LogScanStopped (stopScan st).

(** Lines 392-401: every subscription held is asked to remove itself, a
    failure is ignored, and the list is emptied. *)
Definition removeAllSubscriptions (st : HookState) : HookState :=
  let st :=
    fold_left
      (fun st sub =>
         let st := call (CallRemove (subId sub)) st in
         try_catch (_ <- remove sub ;; Ok st) (fun _ => st))
      (subscriptionsRef st) st in
  setSubscriptionsRef [] st.

(** The listener passed to [characteristic.monitor] (lines 406-419);
    [value] is [char?.value]. *)
Definition notificationListener (characteristic : Characteristic)
  (error : option Error) (value : option string) (now : Z)
  (st : HookState) : HookState :=
  match error with
  | Some e => addLog (LogNotificationError e) st
  | None =>
      match nonEmpty value with
      | None => st
      | Some value =>
          let '(data, st) := parseMeasurementData (uuid characteristic) value now st in
          match data with
          | Some data =>
              let st := addLog (LogReceivedMeasurement data) st in
              setMeasurementData (measurementData st ++ [data]) st
          | None => st
          end
      end
  end.

(** Lines 403-428. *)
Definition setupNotification (characteristic : Characteristic) (st : HookState) : HookState :=
  let st := call (CallMonitor (uuid characteristic)) st in
  match monitor characteristic with
  | Ok sub =>
      let st := setSubscriptionsRef (subscriptionsRef st ++ [sub]) st in
      addLog (LogNotificationsEnabled (uuid characteristic)) st
  | Throw error => addLog (LogSetupNotificationFailed error) st
  end.

(** The two-byte command buffers of lines 433-435 and 507-509. *)
Definition racpCommand (opCode operator : Z) : Result Buffer.t :=
  let command := Buffer.alloc 2 in
  command <- Buffer.writeUInt8 command opCode 0 ;;
  Buffer.writeUInt8 command operator 1.

(** Lines 430-444. *)
Definition requestAllStoredRecords (device : Device) (racpChar : Characteristic)
  (st : HookState) : HookState :=
  match racpCommand RACP_OPCODES.REPORT_STORED_RECORDS RACP_OPERATORS.ALL_RECORDS with
  | Throw error => addLog (LogRequestRecordsFailed error) st
  | Ok command =>
      let payload := Buffer.toString_base64 command in
      let st := call (CallWriteWithResponse (uuid racpChar) payload) st in
      match writeWithResponse racpChar payload with
      | Ok _ => addLog LogRequestedAllRecords st
      | Throw error => addLog (LogRequestRecordsFailed error) st
      end
  end.

(** Lines 446-475.  The reads of a case come before its first effect, so
    a read that throws leaves only the log entry of the [catch]. *)
Definition handleRACPResponse (device : Device) (base64Value : string)
  (racpChar : Characteristic) (st : HookState) : HookState :=
  let buffer := Buffer.from_base64 base64Value in
  match Buffer.readUInt8 buffer 0 with
  | Throw error => addLog (LogRACPResponseError error) st
  | Ok opCode =>
      if opCode =? RACP_OPCODES.NUMBER_OF_STORED_RECORDS_RESPONSE then
        match Buffer.readUInt16LE buffer 2 with
        | Throw error => addLog (LogRACPResponseError error) st
        | Ok numberOfRecords =>
            let st := addLog (LogDeviceHasRecords numberOfRecords) st in
            if numberOfRecords >? 0
            then requestAllStoredRecords device racpChar st
            else st
        end
      else if opCode =? RACP_OPCODES.RESPONSE_CODE then
        match (requestOpCode <- Buffer.readUInt8 buffer 2 ;;
               responseValue <- Buffer.readUInt8 buffer 3 ;;
               Ok (requestOpCode, responseValue)) with
        | Throw error => addLog (LogRACPResponseError error) st
        | Ok (requestOpCode, responseValue) =>
            addLog (LogRACPResponse requestOpCode responseValue) st
        end
      else st
  end.

(** The listener passed to [racpChar.monitor] (lines 495-504). *)
Definition racpListener (device : Device) (racpChar : Characteristic)
  (error : option Error) (value : option string) (st : HookState) : HookState :=
  match error with
  | Some e => addLog (LogRACPError e) st
  | None =>
      match nonEmpty value with
      | None => st
      | Some value => handleRACPResponse device value racpChar st
      end
  end.

(** The search loop of lines 483-488. *)
Fixpoint findRacpChar (services : list Service) : Result (option Characteristic) :=
  match services with
  | [] => Ok None
  | service :: rest =>
      characteristics <- characteristics service ;;
      match find (fun c => includes (toUpperCase (uuid c))
                                    CHARACTERISTICS.RECORD_ACCESS_CONTROL_POINT)
                 characteristics with
      | Some racpChar => Ok (Some racpChar)
      | None => findRacpChar rest
      end
  end.

(** Lines 477-518. *)
Definition requestStoredRecords (device : Device) (st : HookState) : HookState :=
  match (services <- services device ;; findRacpChar services) with
  | Throw error => addLog (LogRACPRequestFailed error) st
  | Ok None => addLog LogRACPNotFound st
  | Ok (Some racpChar) =>
      let st := call (CallMonitor (uuid racpChar)) st in
      match monitor racpChar with
      | Throw error => addLog (LogRACPRequestFailed error) st
      | Ok sub =>
          let st := setSubscriptionsRef (subscriptionsRef st ++ [sub]) st in
          match racpCommand RACP_OPCODES.REPORT_NUMBER_OF_STORED_RECORDS
                            RACP_OPERATORS.ALL_RECORDS with
          | Throw error => addLog (LogRACPRequestFailed error) st
          | Ok command =>
              let payload := Buffer.toString_base64 command in
              let st := call (CallWriteWithResponse (uuid racpChar) payload) st in
              match writeWithResponse racpChar payload with
              | Ok _ => addLog LogRequestedNumberOfRecords st
              | Throw error => addLog (LogRACPRequestFailed error) st
              end
          end
      end
  end.

(** The nested loops of lines 525-533; what was set up before a service
    fails to list its characteristics stays set up. *)
Fixpoint subscribeServices (services : list Service) (st : HookState)
  : Result unit * HookState :=
  match services with
  | [] => (Ok tt, st)
  | service :: rest =>
      match characteristics service with
      | Throw error => (Throw error, st)
      | Ok characteristics =>
          subscribeServices rest
            (fold_left
               (fun st char =>
                  if isMeasurementCharacteristic (uuid char)
                  then setupNotification char st
                  else st)
               characteristics st)
      end
  end.

(** Lines 520-541. *)
Definition setupDataTransfer (device : Device) (st : HookState) : HookState :=
  match services device with
  | Throw error => addLog (LogSetupFailed error) st
  | Ok services =>
      match subscribeServices services st with
      | (Throw error, st) => addLog (LogSetupFailed error) st
      | (Ok _, st) => requestStoredRecords device st
      end
  end.

(** Lines 545-556: [connectToDevice] up to its first [await]. *)
Definition connectToDevice_begin (device : Device) (st : HookState) : HookState :=
  match managerRef st with
  | None => st
  | Some manager =>
      let st := stopScan st in
      let st := removeAllSubscriptions st in
      let st := setMeasurementData [] st in
      let st := setConnectionState "Connecting..." st in
      let st := addLog (LogConnecting (name device)) st in
      call (CallConnectToDevice (id device) (requestMtu options)) st
  end.

(** The [catch] of lines 566-569. *)
Definition connectionFailed (error : Error) (st : HookState) : HookState :=
  setConnectionState "Connection Failed" (addLog (LogConnectionFailed error) st).

(** Lines 556-569: [connectToDevice] from the moment the promise of
    [manager.connectToDevice] settles. *)
Definition connectToDevice_settle (manager : BleManager) (device : Device)
  (st : HookState) : HookState :=
  match connectToDevice_ manager (id device) (requestMtu options) with
  | Throw error => connectionFailed error st
  | Ok connectedDev =>
      let st := setConnectedDevice (Some connectedDev) st in
      let st := setConnectionState "Connected" st in
      let st := addLog (LogConnected (name device)) st in
      let st := call (CallDiscoverAll (id connectedDev)) st in
      match discoverAllServicesAndCharacteristics connectedDev with
      | Throw error => connectionFailed error st
      | Ok _ =>
          let st := addLog LogServicesDiscovered st in
          setupDataTransfer connectedDev st
      end
  end.

(** Lines 543-572. *)
Definition connectToDevice (device : Device) (st : HookState) : HookState :=
  match managerRef st with
  | None => st
  | Some manager => connectToDevice_settle manager device (connectToDevice_begin device st)
  end.

(** Lines 574-590.  Nothing in the [try] block reads the answer of
    [cancelDeviceConnection]; the [finally] block runs on either answer. *)
Definition disconnect (st : HookState) : HookState :=
  match managerRef st, connectedDevice st with
  | Some manager, Some connected =>
      let st := removeAllSubscriptions st in
      let st := call (CallCancelDeviceConnection (id connected)) st in
      let st := try_catch (_ <- cancelDeviceConnection manager (id connected) ;; Ok st)
                          (fun _ => st) in
      let st := setConnectedDevice None st in
      let st := setConnectionState "Disconnected" st in
      addLog LogDisconnected st
  | _, _ => st
  end.

(** The listener passed to [manager.onStateChange] (lines 600-604). *)
Definition stateChangeListener (state : string) (st : HookState) : HookState :=
  if String.eqb state "PoweredOn" && autoScanOnBluetoothOn options
  then scanDevices st
  else st.

(** The effect's cleanup (lines 608-619). *)
Definition effectCleanup (st : HookState) : HookState :=
  let st := stopScan st in
  let st := removeAllSubscriptions st in
  match managerRef st with
  | None => st
  | Some _ => setManagerRef None (call CallDestroy st)
  end.

(** *** What can happen to a mounted hook *)

Inductive Event : Type :=
| EvScanDevices
| EvScanResult (error : option Error) (device : option Device)
| EvScanTimeout
| EvConnectBegin (device : Device)
| EvConnectSettle (manager : BleManager) (device : Device)
| EvNotification (characteristic : Characteristic) (error : option Error)
                 (value : option string) (now : Z)
| EvRacpIndication (device : Device) (racpChar : Characteristic)
                   (error : option Error) (value : option string)
| EvDisconnect
| EvAdapterState (state : string)
| EvCleanup.

Definition step (st : HookState) (ev : Event) : HookState :=
  match ev with
  | EvScanDevices => scanDevices st
  | EvScanResult error device => scanListener error device st
  | EvScanTimeout => scanTimeoutExpired st
  | EvConnectBegin device => connectToDevice_begin device st
  | EvConnectSettle manager device => connectToDevice_settle manager device st
  | EvNotification characteristic error value now =>
      notificationListener characteristic error value now st
  | EvRacpIndication device racpChar error value =>
      racpListener device racpChar error value st
  | EvDisconnect => disconnect st
  | EvAdapterState state => stateChangeListener state st
  | EvCleanup => effectCleanup st
  end.

Definition run (events : list Event) (st : HookState) : HookState :=
  fold_left step events st.

End Hook.

(** ** The demo screen's gate (src/unnamed/part_000, lines 274-282)

    The list of discovered devices, whose entries call [connectToDevice]
    when pressed, is rendered while no connected device is held. *)
Definition connectOffered (st : HookState) : bool :=
  negb (Nat.eqb (List.length (devices st)) 0)
  && match connectedDevice st with
     | None => true
     | Some _ => false
     end.

(** The ids held by the device registry. *)
Definition ids (st : HookState) : list string :=
  map (fun d => id (device_of d)) (devices st).

(** ** Definitions that follow the specification's words *)

(** A [width]-bit field read as a two's-complement signed integer. *)
Definition twos_complement (width x : Z) : Z :=
  if Z.testbit x (width - 1)
  then x mod 2 ^ width - 2 ^ width
  else x mod 2 ^ width.

(** SFLOAT: mantissa = low 12 bits, exponent = high 4 bits of the 16-bit
    word, both signed; value = mantissa times ten to the exponent. *)
Definition sfloat_mantissa (raw : Z) : Z := twos_complement 12 (raw mod 2 ^ 12).
Definition sfloat_exponent (raw : Z) : Z := twos_complement 4 (raw / 2 ^ 12).
Definition sfloat_value {engine : Engine} (raw : Z) : float :=
  PrimFloat.mul (number_of_Z (sfloat_mantissa raw))
                (Math_pow 10%float (number_of_Z (sfloat_exponent raw))).

(** The word whose mantissa and exponent fields are [m] and [e]. *)
Definition sfloat_word (m e : Z) : Z := (e mod 16) * 4096 + m mod 4096.

(** The values the mantissa field takes. *)
Definition sfloat_mantissas : list Z := map (fun i => Z.of_nat i - 2048) (seq 0 4096).

(** *** Doubles as exact numbers

    The library's [Prim2SF] reads a double as a NaN, an infinity, a signed
    zero, or a sign [s], a mantissa [m] and a binary exponent [e] that
    stand for the real number (-1)^s * m * 2^e.  [exact_value] gives that
    number as a fraction of integers, so that what a decoder returns is
    compared with the number the specification names in integer
    arithmetic, whatever the model takes a double to be. *)
Inductive Number : Type :=
| NotANumber
| Infinite (negative : bool)
| Zero (negative : bool)
| Fraction (numerator denominator : Z).

Definition exact_value (f : float) : Number :=
  match Prim2SF f with
  | S754_nan => NotANumber
  | S754_infinity s => Infinite s
  | S754_zero s => Zero s
  | S754_finite s m e =>
      let n := if s then Z.neg m else Z.pos m in
      if 0 <=? e then Fraction (n * 2 ^ e) 1 else Fraction n (2 ^ (- e))
  end.

(** [x] is the number [n / d], for a positive [d]. *)
Definition is_fraction (x : Number) (n d : Z) : bool :=
  match x with
  | Fraction a b => a * d =? n * b
  | Zero _ => n =? 0
  | _ => false
  end.

(** [x] is [n / d] up to a relative error of [2^-t]:
    [|x - n/d| <= |n/d| / 2^t]. *)
Definition near_fraction (t : Z) (x : Number) (n d : Z) : bool :=
  match x with
  | Fraction a b => Z.abs (a * d - n * b) * 2 ^ t <=? Z.abs (n * b)
  | Zero _ => n =? 0
  | _ => false
  end.

(** [x] and [y] are the same number: the same special value with the same
    sign, or equal fractions. *)
Definition same_number (x y : Number) : bool :=
  match x, y with
  | NotANumber, NotANumber => true
  | Infinite s, Infinite t => Bool.eqb s t
  | Zero s, Zero t => Bool.eqb s t
  | Fraction a b, Fraction c d => a * d =? c * b
  | _, _ => false
  end.

(** IEEE 754 binary32.  Of the 32 bits of the word, bit 31 is the sign,
    bits 30 to 23 are the biased exponent [E] and bits 22 to 0 the
    trailing significand [T].  With [E = 255] the word is an infinity for
    [T = 0] and a NaN otherwise; with [E = 0] it is the signed zero or the
    subnormal number [T * 2^-149]; otherwise it is the normal number
    [(1 + T / 2^23) * 2^(E - 127)], that is [(2^23 + T) * 2^E / 2^150]. *)
Definition binary32 (w : Z) : Number :=
  let negative := (w / 2 ^ 31) mod 2 =? 1 in
  let E := (w / 2 ^ 23) mod 2 ^ 8 in
  let T := w mod 2 ^ 23 in
  let signed (n : Z) := if negative then - n else n in
  if E =? 255 then
    if T =? 0 then Infinite negative else NotANumber
  else if E =? 0 then
    if T =? 0 then Zero negative else Fraction (signed T) (2 ^ 149)
  else Fraction (signed ((2 ^ 23 + T) * 2 ^ E)) (2 ^ 150).

(** *** Powers of ten

    For [0 <= e < 8] the power [10^e] is an integer that a double holds.
    For [-8 <= e < 0] no double holds it; the double nearest to it is the
    quotient of 1 by [10^-e], which the division rounds correctly. *)
Definition nearest_power_of_ten (e : Z) : float :=
  if e <? 0
  then PrimFloat.div 1%float (number_of_Z (10 ^ (- e)))
  else number_of_Z (10 ^ e).

(** A double, the one below it and the one above it. *)
Definition neighbours (c : float) : list float :=
  [c; PrimFloat.next_down c; PrimFloat.next_up c].

(** An engine whose [Math.pow] is in error by less than one unit in the
    last place returns the power of ten itself where a double holds it,
    and otherwise one of the two doubles that enclose it: the nearest
    double or a neighbour of it. *)
Definition accurate_powers_of_ten (engine : Engine) : Prop :=
  forall e : Z, -8 <= e < 8 ->
    In (Math_pow 10%float (number_of_Z e))
       (if e <? 0
        then neighbours (nearest_power_of_ten e)
        else [nearest_power_of_ten e]).

(** The advertising payload of section 4.1: company id 0x020E
    little-endian, profile type 0x01, the flags byte, then one slot of
    uint16-LE sequence number and uint8 record count per user. *)
Definition encodeFlags (info : OmronAdvertisingInfo) : Z :=
  (if pairable info then 8 else 0)
  + (if timeNotConfigured info then 4 else 0)
  + (numberOfUsers info - 1).

Definition encodeUser (u : OmronUserInfo) : Buffer.t :=
  [ Buffer.byte_of_Z (lastSequenceNumber u mod 256);
    Buffer.byte_of_Z (lastSequenceNumber u / 256);
    Buffer.byte_of_Z (numberOfRecords u) ].

Definition encodeAdvertising (info : OmronAdvertisingInfo) : Buffer.t :=
  ([x0e; x02; x01; Buffer.byte_of_Z (encodeFlags info)]
   ++ flat_map encodeUser (users info))%list.

(** The field ranges of section 3, with slots indexed from [i + 1] on. *)
Fixpoint validUsers (i : Z) (us : list OmronUserInfo) : bool :=
  match us with
  | [] => true
  | u :: rest =>
      (index u =? i + 1)
      && (0 <=? lastSequenceNumber u) && (lastSequenceNumber u <=? 65535)
      && (0 <=? numberOfRecords u) && (numberOfRecords u <=? 255)
      && validUsers (i + 1) rest
  end.

Definition validAdvertisingInfo (info : OmronAdvertisingInfo) : bool :=
  (1 <=? numberOfUsers info) && (numberOfUsers info <=? 4)
  && (Z.of_nat (List.length (users info)) =? numberOfUsers info)
  && validUsers 0 (users info).

(** The bytes of a header that names Omron, and the length a payload
    must have for the number of users its flags byte announces. *)
Definition omronHeader (buffer : Buffer.t) : bool :=
  (Buffer.get buffer 0 =? 0x0e) && (Buffer.get buffer 1 =? 0x02)
  && (Buffer.get buffer 2 =? 0x01).

Definition announcedLength (buffer : Buffer.t) : Z :=
  4 + 3 * (Buffer.get buffer 3 mod 4 + 1).

(** Little-endian words, as sums. *)
Definition le16 (buffer : Buffer.t) (offset : Z) : Z :=
  Buffer.get buffer offset + 256 * Buffer.get buffer (offset + 1).

Definition le32 (buffer : Buffer.t) (offset : Z) : Z :=
  Buffer.get buffer offset + 256 * Buffer.get buffer (offset + 1)
  + 65536 * Buffer.get buffer (offset + 2) + 16777216 * Buffer.get buffer (offset + 3).

(** ** Sample engines

    The decoder asks for ten to an integer power between -8 and 7, so
    that a sample engine is a table of sixteen doubles. *)

Module Engines.

Definition exponents : list Z := map (fun i => Z.of_nat i - 8) (seq 0 16).

Definition tabulated (table : Z -> float) : Engine :=
  {| Math_pow_approximation base exponent :=
       if PrimFloat.eqb base 10%float
       then match find (fun e => PrimFloat.eqb exponent (number_of_Z e)) exponents with
            | Some e => table e
            | None => PrimFloat.nan
            end
       else PrimFloat.nan |}.

(** Every power correctly rounded. *)
Definition correctly_rounded : Engine := tabulated nearest_power_of_ten.

(** The powers [10^-4] and [10^-5] one double below the nearest one:
    0.00009999999999999999 and 0.000009999999999999999, where the
    correctly rounded powers print as 0.0001 and 0.00001. *)
Definition below_at_4_and_5 : Engine :=
  tabulated (fun e => if (e =? -4) || (e =? -5)
                      then PrimFloat.next_down (nearest_power_of_ten e)
                      else nearest_power_of_ten e).

End Engines.

(** ** Sample objects, for evaluating the callbacks

    A blood-pressure monitor that advertises two users and exposes the
    blood-pressure, spot-check and control-point characteristics, and a
    manager that connects to it and whose [cancelDeviceConnection]
    rejects. *)

Module Sample.

Definition subscription (n : nat) : Subscription :=
  {| subId := n; remove := Ok tt |}.

Definition stuckSubscription (n : nat) : Subscription :=
  {| subId := n; remove := Throw (BleError "already removed") |}.

Definition bloodPressureChar : Characteristic :=
  {| uuid := "00002a35-0000-1000-8000-00805f9b34fb";
     monitor := Ok (subscription 1);
     writeWithResponse := fun _ => Ok tt |}.

Definition spotCheckChar : Characteristic :=
  {| uuid := "6e4000f1-b5a3-f393-efa9-e50e24dcca9e";
     monitor := Ok (stuckSubscription 2);
     writeWithResponse := fun _ => Ok tt |}.

Definition racpChar : Characteristic :=
  {| uuid := "00002a52-0000-1000-8000-00805f9b34fb";
     monitor := Ok (subscription 3);
     writeWithResponse := fun _ => Ok tt |}.

Definition service : Service :=
  {| characteristics := Ok [bloodPressureChar; spotCheckChar; racpChar] |}.

(** Flags 0x09: pairable, two users; slots (5, 3) and (2, 1). *)
Definition advertisement : Buffer.t :=
  [x0e; x02; x01; x09; x05; x00; x03; x02; x00; x01].

Definition info : OmronAdvertisingInfo :=
  {| pairable := true;
     timeNotConfigured := false;
     numberOfUsers := 2;
     users := [ {| index := 1; lastSequenceNumber := 5; numberOfRecords := 3 |};
                {| index := 2; lastSequenceNumber := 2; numberOfRecords := 1 |} ] |}.

Definition monitorA : Device :=
  {| id := "A0:11";
     name := Some "BLEsmart_A";
     manufacturerData := Some "DgIBCQUAAwIAAQ==";
     services := Ok [service];
     discoverAllServicesAndCharacteristics := Ok tt |}.

(** The same monitor sighted again, its first user now at sequence 6 with
    4 records. *)
Definition monitorA_later : Device :=
  {| id := "A0:11";
     name := Some "BLEsmart_A";
     manufacturerData := Some "DgIBCQYABAIAAQ==";
     services := Ok [service];
     discoverAllServicesAndCharacteristics := Ok tt |}.

Definition info_later : OmronAdvertisingInfo :=
  {| pairable := true;
     timeNotConfigured := false;
     numberOfUsers := 2;
     users := [ {| index := 1; lastSequenceNumber := 6; numberOfRecords := 4 |};
                {| index := 2; lastSequenceNumber := 2; numberOfRecords := 1 |} ] |}.

Definition monitorB : Device :=
  {| id := "B0:22";
     name := Some "BLEsmart_B";
     manufacturerData := Some "DgIBCQUAAwIAAQ==";
     services := Ok [service];
     discoverAllServicesAndCharacteristics := Ok tt |}.

(** An advertisement of another vendor (company id 0x004C). *)
Definition beacon : Device :=
  {| id := "C0:33";
     name := None;
     manufacturerData := Some "TAACFQ==";
     services := Ok [];
     discoverAllServicesAndCharacteristics := Ok tt |}.

Definition manager : BleManager :=
  {| connectToDevice_ := fun deviceId _ =>
       if String.eqb deviceId "A0:11" then Ok monitorA else Ok monitorB;
     cancelDeviceConnection := fun _ => Throw (BleError "Device is not connected");
     onStateChange := subscription 0 |}.

(** A blood-pressure payload: flags 0x06 (timestamp and pulse), 120/80,
    mean 93, 3 November 2024 09:00:00, pulse 72. *)
Definition bloodPressurePayload : Buffer.t :=
  [x06; x78; x00; x50; x00; x5d; x00; xe8; x07; x0b; x03; x09; x00; x00; x48; x00].

End Sample.

(** ** Definitions used to state further properties *)

(** The four strings [setConnectionState] is ever called with (lines 99,
    553, 559, 568, 587). *)
Definition knownConnectionStates : list string :=
  ["Disconnected"; "Connecting..."; "Connected"; "Connection Failed"].

(** The log holds at most [logLimit] entries, for a limit of two or more,
    and the connection state is one of the four known strings. *)
Definition hookInvariant (options : UseOmronBluetoothOptions) (st : HookState) : Prop :=
  (2 <= logLimit options -> Z.of_nat (List.length (logs st)) <= logLimit options)
  /\ In (connectionState st) knownConnectionStates.

(** One delivery to the listener of [characteristic.monitor]: the
    characteristic it was registered on, and the arguments of the call. *)
Record Notification : Type := {
  on_characteristic : Characteristic;
  with_error : option Error;
  with_value : option string;
  at_time : Z
}.

Definition deliver {engine : Engine} (options : UseOmronBluetoothOptions) (st : HookState)
  (n : Notification) : HookState :=
  notificationListener options (on_characteristic n) (with_error n) (with_value n)
    (at_time n) st.

(** The measurement a delivery carries, if it carries one: no error, a
    value that is not empty, and a payload that the decoder of the
    characteristic accepts. *)
Definition carried {engine : Engine} (n : Notification) : list OmronMeasurement :=
  match with_error n, nonEmpty (with_value n) with
  | None, Some value =>
      match parseMeasurementData_try (uuid (on_characteristic n))
              (Buffer.from_base64 value) (at_time n) with
      | Ok (Some data) => [data]
      | _ => []
      end
  | _, _ => []
  end.

(** The test of the search loop at line 486. *)
Definition isRacpCharacteristic (c : Characteristic) : bool :=
  includes (toUpperCase (uuid c)) CHARACTERISTICS.RECORD_ACCESS_CONTROL_POINT.

(** The characteristics the loops of [setupDataTransfer] get to see: those
    of the services in order, up to the first service that fails to list
    its characteristics. *)
Fixpoint reachedCharacteristics (services : list Service) : list Characteristic :=
  match services with
  | [] => []
  | service :: rest =>
      match characteristics service with
      | Ok cs => cs ++ reachedCharacteristics rest
      | Throw _ => []
      end
  end.

(** The subscriptions that [monitor] hands out for a list of
    characteristics, in order; none for a characteristic whose [monitor]
    throws. *)
Definition granted (cs : list Characteristic) : list Subscription :=
  flat_map (fun c => match monitor c with
                     | Ok sub => [sub]
                     | Throw _ => []
                     end) cs.

(** Two states that differ at most in the log, the subscriptions and the
    transport calls made. *)
Definition sameSession (st st' : HookState) : Prop :=
  devices st' = devices st
  /\ connectedDevice st' = connectedDevice st
  /\ connectionState st' = connectionState st
  /\ measurementData st' = measurementData st
  /\ managerRef st' = managerRef st
  /\ scanTimeoutRef st' = scanTimeoutRef st.

(** ** Sample objects that fail *)

Module Faulty.

(** A manager whose connection attempts are rejected. *)
Definition outOfRange : BleManager :=
  {| connectToDevice_ := fun _ _ => Throw (BleError "Device not found");
     cancelDeviceConnection := fun _ => Ok tt;
     onStateChange := Sample.subscription 0 |}.

(** A monitor that connects and then rejects discovery. *)
Definition undiscoverable : Device :=
  {| id := "D0:44";
     name := Some "BLEsmart_D";
     manufacturerData := Some "DgIBCQUAAwIAAQ==";
     services := Ok [Sample.service];
     discoverAllServicesAndCharacteristics := Throw (BleError "Device disconnected") |}.

(** A monitor that connects, is discovered, and then fails to list its
    services. *)
Definition unlisted : Device :=
  {| id := "E0:55";
     name := Some "BLEsmart_E";
     manufacturerData := Some "DgIBCQUAAwIAAQ==";
     services := Throw (BleError "Services not discovered");
     discoverAllServicesAndCharacteristics := Ok tt |}.

Definition manager : BleManager :=
  {| connectToDevice_ := fun deviceId _ =>
       if String.eqb deviceId "D0:44" then Ok undiscoverable else Ok unlisted;
     cancelDeviceConnection := fun _ => Ok tt;
     onStateChange := Sample.subscription 0 |}.

End Faulty.

(** An entry of the registry that holds the advertisement decoded from
    the data its own device advertised. *)
Definition decodedFromOwnAdvertisement (d : OmronDiscoveredDevice) : Prop :=
  exists data,
    nonEmpty (manufacturerData (device_of d)) = Some data
    /\ parseOmronManufacturerData_try (Buffer.from_base64 data) = Ok (Some (info_of d)).

(** * Properties *)

(** Quotients and remainders by constants are arithmetic for [lia]. *)
Ltac Zify.zify_post_hook ::= Z.to_euclidean_division_equations.

(** ** Bytes and words *)

Lemma byteZ_range (b : byte) : 0 <= Buffer.byteZ b < 256.
Proof.
  unfold Buffer.byteZ. pose proof (Byte.to_N_bounded b). lia.
Qed.

Lemma get_range (buffer : Buffer.t) (i : Z) : 0 <= Buffer.get buffer i < 256.
Proof. apply byteZ_range. Qed.

Lemma byte_of_Z_byteZ (b : byte) : Buffer.byte_of_Z (Buffer.byteZ b) = b.
Proof.
  unfold Buffer.byte_of_Z. pose proof (byteZ_range b) as Hb.
  rewrite Z.mod_small by exact Hb.
  unfold Buffer.byteZ. rewrite N2Z.id, Byte.of_to_N. reflexivity.
Qed.

Lemma byteZ_byte_of_Z (z : Z) : 0 <= z < 256 -> Buffer.byteZ (Buffer.byte_of_Z z) = z.
Proof.
  intros Hz. unfold Buffer.byte_of_Z. rewrite Z.mod_small by exact Hz.
  destruct (Byte.of_N (Z.to_N z)) as [b|] eqn:E.
  - apply Byte.to_of_N in E. unfold Buffer.byteZ. rewrite E. lia.
  - apply Byte.of_N_None_iff in E. lia.
Qed.

(** Two fields that do not overlap are joined by [Z.lor] as by a sum. *)
Lemma lor_shiftl_add (lo hi k : Z) :
  0 <= k -> 0 <= lo < 2 ^ k -> Z.lor lo (Z.shiftl hi k) = lo + hi * 2 ^ k.
Proof.
  intros Hk Hlo.
  assert (Hdisj : Z.land lo (Z.shiftl hi k) = 0).
  { apply Z.bits_inj'. intros n Hn.
    rewrite Z.land_spec, Z.bits_0.
    destruct (Z.lt_ge_cases n k) as [Hlt|Hge].
    - rewrite (Z.shiftl_spec_low hi k n Hlt). apply andb_false_r.
    - rewrite <- (Z.mod_small lo (2 ^ k)) by exact Hlo.
      rewrite (Z.mod_pow2_bits_high lo k n) by lia. reflexivity. }
  rewrite <- Z.lxor_lor, <- Z.add_nocarry_lxor by exact Hdisj.
  rewrite Z.shiftl_mul_pow2 by exact Hk. reflexivity.
Qed.

Lemma land_ones_mod (x k : Z) : 0 <= k -> Z.land x (2 ^ k - 1) = x mod 2 ^ k.
Proof.
  intros Hk. rewrite <- Z.land_ones by exact Hk.
  rewrite Z.ones_equiv. reflexivity.
Qed.

(** A flag test [flags & 2^k] is the test of bit [k]. *)
Lemma truthy_land_pow2 (flags k : Z) :
  0 <= k -> truthy (Z.land flags (2 ^ k)) = Z.testbit flags k.
Proof.
  intros Hk. unfold truthy.
  destruct (Z.testbit flags k) eqn:E.
  - destruct (Z.eqb_spec (Z.land flags (2 ^ k)) 0) as [H0|]; [|reflexivity].
    assert (Hb : Z.testbit (Z.land flags (2 ^ k)) k = true)
      by (rewrite Z.land_spec, E, Z.pow2_bits_true by exact Hk; reflexivity).
    rewrite H0, Z.bits_0 in Hb. discriminate.
  - replace (Z.land flags (2 ^ k)) with 0; [reflexivity|].
    symmetry. apply Z.bits_inj'. intros n Hn.
    rewrite Z.land_spec, Z.bits_0, Z.pow2_bits_eqb by exact Hk.
    destruct (Z.eqb_spec k n) as [->|]; [rewrite E|]; auto using andb_false_r.
Qed.

Lemma checkOffset_ok (buffer : Buffer.t) (offset ext : Z) :
  0 <= offset -> offset + ext <= Buffer.length buffer ->
  Buffer.checkOffset offset ext buffer = Ok tt.
Proof.
  intros H0 H1. unfold Buffer.checkOffset.
  destruct (Z.ltb_spec offset 0); [lia|].
  destruct (Z.ltb_spec (Buffer.length buffer) (offset + ext)); [lia|reflexivity].
Qed.

Lemma checkOffset_throw (buffer : Buffer.t) (offset ext : Z) :
  Buffer.length buffer < offset + ext ->
  Buffer.checkOffset offset ext buffer = Throw RangeError.
Proof.
  intros H1. unfold Buffer.checkOffset.
  destruct (Z.ltb_spec (Buffer.length buffer) (offset + ext)); [|lia].
  rewrite orb_true_r. reflexivity.
Qed.

Lemma readUInt8_ok (buffer : Buffer.t) (offset : Z) :
  0 <= offset -> offset + 1 <= Buffer.length buffer ->
  Buffer.readUInt8 buffer offset = Ok (Buffer.get buffer offset).
Proof.
  intros. unfold Buffer.readUInt8. rewrite checkOffset_ok by assumption. reflexivity.
Qed.

Lemma readUInt8_throw (buffer : Buffer.t) (offset : Z) :
  Buffer.length buffer < offset + 1 ->
  Buffer.readUInt8 buffer offset = Throw RangeError.
Proof.
  intros. unfold Buffer.readUInt8. rewrite checkOffset_throw by assumption. reflexivity.
Qed.

Lemma readUInt16LE_ok (buffer : Buffer.t) (offset : Z) :
  0 <= offset -> offset + 2 <= Buffer.length buffer ->
  Buffer.readUInt16LE buffer offset = Ok (le16 buffer offset).
Proof.
  intros. unfold Buffer.readUInt16LE, le16.
  rewrite checkOffset_ok by assumption. cbn [bind].
  rewrite (lor_shiftl_add _ _ 8) by (try lia; apply get_range).
  f_equal. lia.
Qed.

Lemma readUInt16LE_throw (buffer : Buffer.t) (offset : Z) :
  Buffer.length buffer < offset + 2 ->
  Buffer.readUInt16LE buffer offset = Throw RangeError.
Proof.
  intros. unfold Buffer.readUInt16LE. rewrite checkOffset_throw by assumption. reflexivity.
Qed.

(** A read either throws the range error or returns the word at hand. *)
Lemma readUInt16LE_inv (buffer : Buffer.t) (offset raw : Z) :
  Buffer.readUInt16LE buffer offset = Ok raw ->
  raw = le16 buffer offset /\ 0 <= offset /\ offset + 2 <= Buffer.length buffer.
Proof.
  intros H.
  destruct (Z.ltb_spec offset 0) as [Hneg|Hpos].
  - unfold Buffer.readUInt16LE, Buffer.checkOffset in H.
    rewrite (proj2 (Z.ltb_lt _ _) Hneg) in H. discriminate.
  - destruct (Z.ltb_spec (Buffer.length buffer) (offset + 2)).
    + rewrite readUInt16LE_throw in H by lia. discriminate.
    + rewrite readUInt16LE_ok in H by lia. injection H as H. lia.
Qed.

Lemma le16_range (buffer : Buffer.t) (offset : Z) : 0 <= le16 buffer offset < 65536.
Proof.
  unfold le16.
  pose proof (get_range buffer offset). pose proof (get_range buffer (offset + 1)). lia.
Qed.

(** ** SFLOAT *)

(** On a field of [width] bits the sign bit is set from [2^(width-1)] on. *)
Lemma twos_complement_field (width x : Z) :
  0 < width -> 0 <= x < 2 ^ width ->
  twos_complement width x = if x >=? 2 ^ (width - 1) then x - 2 ^ width else x.
Proof.
  intros Hw Hx. unfold twos_complement.
  rewrite Z.mod_small by exact Hx.
  assert (Hp : 2 ^ width = 2 * 2 ^ (width - 1)).
  { rewrite <- Z.pow_succ_r by lia. f_equal. lia. }
  assert (Hpos : 0 < 2 ^ (width - 1)) by (apply Z.pow_pos_nonneg; lia).
  pose proof (Z.testbit_spec' x (width - 1) ltac:(lia)) as Hb.
  destruct (Z.geb_spec x (2 ^ (width - 1))) as [Hge|Hlt].
  - assert (Hq : x / 2 ^ (width - 1) = 1)
      by (symmetry; apply Z.div_unique with (r := x - 2 ^ (width - 1)); lia).
    rewrite Hq in Hb. destruct (Z.testbit x (width - 1)); [reflexivity|discriminate].
  - rewrite Z.div_small in Hb by lia.
    destruct (Z.testbit x (width - 1)); [discriminate|reflexivity].
Qed.

Lemma sfloat_mantissa_code (raw : Z) :
  (if Z.land raw 0x0fff >=? 0x0800 then Z.land raw 0x0fff - 0x1000 else Z.land raw 0x0fff)
  = sfloat_mantissa raw.
Proof.
  unfold sfloat_mantissa.
  rewrite (twos_complement_field 12) by (try lia; apply Z.mod_pos_bound; lia).
  change 0x0fff with (2 ^ 12 - 1). rewrite land_ones_mod by lia. reflexivity.
Qed.

Lemma sfloat_exponent_code (raw : Z) :
  0 <= raw < 65536 ->
  (if Z.shiftr raw 12 >=? 0x08 then Z.shiftr raw 12 - 0x10 else Z.shiftr raw 12)
  = sfloat_exponent raw.
Proof.
  intros Hraw. unfold sfloat_exponent.
  rewrite Z.shiftr_div_pow2 by lia.
  rewrite (twos_complement_field 4)
    by (change (2 ^ 12) with 4096; change (2 ^ 4) with 16; lia).
  reflexivity.
Qed.

Lemma readSFloat_value {engine : Engine} (buffer : Buffer.t) (offset raw : Z) :
  Buffer.readUInt16LE buffer offset = Ok raw ->
  readSFloat buffer offset = Ok (sfloat_value raw, offset + 2).
Proof.
  intros H. unfold readSFloat. rewrite H. cbn [bind].
  apply readUInt16LE_inv in H as (-> & _ & _).
  rewrite sfloat_mantissa_code, sfloat_exponent_code by apply le16_range.
  reflexivity.
Qed.

Lemma sfloat_fields (raw : Z) :
  0 <= raw < 65536 ->
  -2048 <= sfloat_mantissa raw < 2048
  /\ -8 <= sfloat_exponent raw < 8
  /\ sfloat_word (sfloat_mantissa raw) (sfloat_exponent raw) = raw.
Proof.
  intros Hraw. unfold sfloat_mantissa, sfloat_exponent, sfloat_word.
  rewrite (twos_complement_field 12) by (try lia; apply Z.mod_pos_bound; lia).
  rewrite (twos_complement_field 4) by (change (2 ^ 12) with 4096; change (2 ^ 4) with 16; lia).
  change (2 ^ 12) with 4096. change (2 ^ 4) with 16.
  change (2 ^ (12 - 1)) with 2048. change (2 ^ (4 - 1)) with 8.
  destruct (Z.geb_spec (raw mod 4096) 2048), (Z.geb_spec (raw / 4096) 8); lia.
Qed.

(** *** The value, as an exact number

    The product the decoder returns is checked against the number
    mantissa times ten to the exponent for each of the 4096 mantissas, at
    each exponent and for each double that an accurate [Math.pow] can
    return there. *)

Lemma sfloat_mantissas_In (m : Z) : -2048 <= m < 2048 -> In m sfloat_mantissas.
Proof.
  intros Hm. unfold sfloat_mantissas. apply in_map_iff.
  exists (Z.to_nat (m + 2048)). split; [lia|]. apply in_seq. lia.
Qed.

(** With an exact power of ten the product is the integer
    mantissa times the power, exactly. *)
Lemma products_with_exact_powers :
  forallb (fun e =>
    forallb (fun m =>
      is_fraction (exact_value (PrimFloat.mul (number_of_Z m) (nearest_power_of_ten e)))
                  (m * 10 ^ e) 1)
      sfloat_mantissas)
    [0; 1; 2; 3; 4; 5; 6; 7] = true.
Proof. vm_compute. reflexivity. Qed.

(** With the nearest double to a negative power of ten, or a neighbour
    of it, the product is mantissa over ten to the opposite exponent up to
    a relative error of [2^-51]. *)
Lemma products_with_near_powers :
  forallb (fun e =>
    forallb (fun p =>
      forallb (fun m =>
        near_fraction 51 (exact_value (PrimFloat.mul (number_of_Z m) p)) m (10 ^ (- e)))
        sfloat_mantissas)
      (neighbours (nearest_power_of_ten e)))
    [-8; -7; -6; -5; -4; -3; -2; -1] = true.
Proof. vm_compute. reflexivity. Qed.

(** [Math.pow(10, 0)] is 1 on every engine, and the product with it is
    the mantissa. *)
Lemma sfloat_product_at_exponent_zero {engine : Engine} (m : Z) :
  -2048 <= m < 2048 ->
  is_fraction
    (exact_value (PrimFloat.mul (number_of_Z m) (Math_pow 10%float (number_of_Z 0)))) m 1
  = true.
Proof.
  intros Hm. change (Math_pow 10%float (number_of_Z 0)) with (nearest_power_of_ten 0).
  pose proof products_with_exact_powers as T.
  rewrite forallb_forall in T. specialize (T 0 ltac:(cbn; lia)).
  rewrite forallb_forall in T. specialize (T m (sfloat_mantissas_In m Hm)).
  cbn beta in T. rewrite Z.mul_1_r in T. exact T.
Qed.

Lemma sfloat_product_on_accurate_engine {engine : Engine} (m e : Z) :
  -2048 <= m < 2048 -> -8 <= e < 8 ->
  accurate_powers_of_ten engine ->
  let value := PrimFloat.mul (number_of_Z m) (Math_pow 10%float (number_of_Z e)) in
  if e <? 0
  then near_fraction 51 (exact_value value) m (10 ^ (- e)) = true
  else is_fraction (exact_value value) (m * 10 ^ e) 1 = true.
Proof.
  intros Hm He Haccurate. cbv zeta. specialize (Haccurate e He).
  destruct (Z.ltb_spec e 0) as [Hneg|Hpos].
  - pose proof products_with_near_powers as T.
    rewrite forallb_forall in T. specialize (T e ltac:(cbn; lia)).
    rewrite forallb_forall in T. specialize (T _ Haccurate).
    rewrite forallb_forall in T. exact (T m (sfloat_mantissas_In m Hm)).
  - destruct Haccurate as [<-|[]].
    pose proof products_with_exact_powers as T.
    rewrite forallb_forall in T. specialize (T e ltac:(cbn; lia)).
    rewrite forallb_forall in T. exact (T m (sfloat_mantissas_In m Hm)).
Qed.

(** The two sample engines are accurate. *)
Lemma correctly_rounded_is_accurate : accurate_powers_of_ten Engines.correctly_rounded.
Proof.
  intros e He.
  assert (Hcases : In e Engines.exponents) by (cbn; lia).
  cbn in Hcases.
  repeat (destruct Hcases as [<-|Hcases]; [vm_compute; auto|]).
  destruct Hcases.
Qed.

Lemma below_at_4_and_5_is_accurate : accurate_powers_of_ten Engines.below_at_4_and_5.
Proof.
  intros e He.
  assert (Hcases : In e Engines.exponents) by (cbn; lia).
  cbn in Hcases.
  repeat (destruct Hcases as [<-|Hcases]; [vm_compute; auto|]).
  destruct Hcases.
Qed.

(** The word 0x0960 on every engine: its exponent is zero. *)
Lemma readSFloat_0x0960 {engine : Engine} :
  readSFloat [x60; x09] 0 = Ok ((-1696)%float, 2).
Proof. reflexivity. Qed.

(** C1, as stated, at the word 0x0960: the decoder does not return 2400. *)
Lemma readSFloat_0x0960_is_not_2400 :
  Buffer.readUInt16LE [x60; x09] 0 = Ok 0x0960
  /\ readSFloat (engine := Engines.correctly_rounded) [x60; x09] 0 <> Ok (2400%float, 2).
Proof.
  split; [reflexivity|]. intros H.
  apply (f_equal (fun r => match r with
                           | Ok (v, _) => PrimFloat.ltb v 0%float
                           | Throw _ => false
                           end)) in H.
  vm_compute in H. discriminate.
Qed.

(** C1 (amended).  For every 16-bit little-endian word read at [offset],
    [readSFloat] returns mantissa times ten to the exponent, the mantissa
    being the low 12 bits and the exponent the high 4 bits, each read as a
    two's-complement signed integer, and advances the offset by two.  The
    value is the double product of the mantissa and the engine's
    [Math.pow(10, exponent)].  With exponent zero it is the mantissa, on
    every engine.  On an engine whose power is accurate it is exactly the
    integer mantissa times ten to the exponent when the exponent is not
    negative, and mantissa over ten to the opposite exponent up to a
    relative error of [2^-51] when it is; the two sample engines are
    accurate.  The word 0x0960 has the sign bit of its mantissa set and
    decodes to -1696; the word of mantissa 1200 and exponent -1, 0xF4B0,
    decodes to 120 where the engine's tenth is the nearest double. *)
Theorem readSFloat_decodes_signed_fields
  {engine : Engine} (buffer : Buffer.t) (offset raw : Z) :
  Buffer.readUInt16LE buffer offset = Ok raw ->
  let m := sfloat_mantissa raw in
  let e := sfloat_exponent raw in
  let value := PrimFloat.mul (number_of_Z m) (Math_pow 10%float (number_of_Z e)) in
  readSFloat buffer offset = Ok (value, offset + 2)
  /\ (-2048 <= m < 2048 /\ -8 <= e < 8 /\ sfloat_word m e = raw)
  /\ (e = 0 -> is_fraction (exact_value value) m 1 = true)
  /\ (accurate_powers_of_ten engine ->
      if e <? 0
      then near_fraction 51 (exact_value value) m (10 ^ (- e)) = true
      else is_fraction (exact_value value) (m * 10 ^ e) 1 = true)
  /\ (accurate_powers_of_ten Engines.correctly_rounded
      /\ accurate_powers_of_ten Engines.below_at_4_and_5)
  /\ readSFloat [x60; x09] 0 = Ok ((-1696)%float, 2)
  /\ (sfloat_word 1200 (-1) = 0xf4b0
      /\ (Math_pow 10%float (number_of_Z (-1)) = nearest_power_of_ten (-1) ->
          readSFloat [xb0; xf4] 0 = Ok (120%float, 2))).
Proof.
  intros H. cbv zeta.
  pose proof (readSFloat_value _ _ _ H) as Hvalue.
  apply readUInt16LE_inv in H as (-> & _ & _).
  destruct (sfloat_fields _ (le16_range buffer offset)) as (Hm & He & Hword).
  split; [exact Hvalue|]. split; [auto|]. split; [|split; [|split; [|split; [|split]]]].
  - intros ->. apply sfloat_product_at_exponent_zero, Hm.
  - intros Haccurate. apply sfloat_product_on_accurate_engine; assumption.
  - split; [exact correctly_rounded_is_accurate|exact below_at_4_and_5_is_accurate].
  - apply readSFloat_0x0960.
  - reflexivity.
  - intros Htenth.
    change (readSFloat [xb0; xf4] 0)
      with (Ok (PrimFloat.mul (number_of_Z 1200) (Math_pow 10%float (number_of_Z (-1))),
                2) : Result (float * Z)).
    rewrite Htenth. reflexivity.
Qed.

Lemma readSFloat_decodes_signed_fields_witness :
  Buffer.readUInt16LE [xb0; xf4] 0 = Ok 0xf4b0
  /\ accurate_powers_of_ten Engines.correctly_rounded
  /\ readSFloat (engine := Engines.correctly_rounded) [xb0; xf4] 0 = Ok (120%float, 2)
  /\ is_fraction (exact_value 120%float) 1200 10 = true
  /\ near_fraction 51 (exact_value 120%float) 1200 (10 ^ 1) = true.
Proof.
  destruct (readSFloat_decodes_signed_fields (engine := Engines.correctly_rounded)
              [xb0; xf4] 0 0xf4b0 eq_refl) as (Hread & _ & _ & Hnear & [Haccurate _] & _).
  split; [reflexivity|]. split; [exact Haccurate|].
  split; [exact Hread|]. split; [reflexivity|].
  exact (Hnear Haccurate).
Defined.

(** The word 0xB001, mantissa 1 and exponent -5, on the two sample
    engines: the value follows the engine's power, and is within the
    bound on both. *)
Example sfloat_0xb001_on_two_engines :
  readSFloat (engine := Engines.correctly_rounded) [x01; xb0] 0
  = Ok (0x1.4f8b588e368f1p-17%float, 2)
  /\ readSFloat (engine := Engines.below_at_4_and_5) [x01; xb0] 0
     = Ok (0x1.4f8b588e368f0p-17%float, 2)
  /\ near_fraction 51 (exact_value 0x1.4f8b588e368f1p-17%float) 1 (10 ^ 5) = true
  /\ near_fraction 51 (exact_value 0x1.4f8b588e368f0p-17%float) 1 (10 ^ 5) = true.
Proof. repeat split. Qed.

(** ** Base64: decoding undoes encoding *)

Lemma lor_disjoint_add (x lo k : Z) :
  0 <= k -> 0 <= lo < 2 ^ k -> x mod 2 ^ k = 0 -> Z.lor x lo = x + lo.
Proof.
  intros Hk Hlo Hx.
  assert (Hp : 0 < 2 ^ k) by (apply Z.pow_pos_nonneg; lia).
  rewrite (Z.div_mod x (2 ^ k)) at 1 by lia.
  rewrite Hx, Z.add_0_r, Z.mul_comm, <- Z.shiftl_mul_pow2 by exact Hk.
  rewrite Z.lor_comm, lor_shiftl_add, Z.mul_comm by assumption.
  pose proof (Z.div_mod x (2 ^ k) ltac:(lia)). lia.
Qed.

Lemma sextet_of_char_of_sextet (v : Z) :
  0 <= v < 64 ->
  Ascii.eqb (Buffer.char_of_sextet v) "="%char = false
  /\ Buffer.sextet_of_char (Buffer.char_of_sextet v) = Some v.
Proof.
  intros Hv.
  replace v with (Z.of_nat (Z.to_nat v)) by lia.
  assert (Hn : (Z.to_nat v < 64)%nat) by lia.
  revert Hn. generalize (Z.to_nat v) as n. intros n Hn.
  do 64 (destruct n as [|n]; [vm_compute; split; reflexivity|]).
  lia.
Qed.

Lemma base64clean_sextet (v : Z) (s : string) :
  0 <= v < 64 ->
  Buffer.base64clean (String (Buffer.char_of_sextet v) s) = v :: Buffer.base64clean s.
Proof.
  intros Hv. destruct (sextet_of_char_of_sextet v Hv) as [Heq Hs].
  cbn [Buffer.base64clean]. rewrite Heq, Hs. reflexivity.
Qed.

Lemma toByteArray_group (v0 v1 v2 v3 : Z) (rest : list Z) :
  Buffer.toByteArray (v0 :: v1 :: v2 :: v3 :: rest)
  = Buffer.byte_of_Z
      (Z.land (Z.shiftr (Z.lor (Z.lor (Z.shiftl v0 18) (Z.shiftl v1 12))
                               (Z.lor (Z.shiftl v2 6) v3)) 16) 255)
    :: Buffer.byte_of_Z
         (Z.land (Z.shiftr (Z.lor (Z.lor (Z.shiftl v0 18) (Z.shiftl v1 12))
                                  (Z.lor (Z.shiftl v2 6) v3)) 8) 255)
    :: Buffer.byte_of_Z
         (Z.land (Z.lor (Z.lor (Z.shiftl v0 18) (Z.shiftl v1 12))
                        (Z.lor (Z.shiftl v2 6) v3)) 255)
    :: Buffer.toByteArray rest.
Proof. reflexivity. Qed.

(** Shifts and masks by constants, as quotients and remainders. *)
Ltac bits_to_arith :=
  rewrite ?Z.shiftl_mul_pow2, ?Z.shiftr_div_pow2 by lia;
  change 63 with (2 ^ 6 - 1); change 255 with (2 ^ 8 - 1);
  rewrite ?land_ones_mod by lia;
  change (2 ^ 2) with 4; change (2 ^ 4) with 16; change (2 ^ 6) with 64;
  change (2 ^ 8) with 256; change (2 ^ 10) with 1024; change (2 ^ 12) with 4096;
  change (2 ^ 16) with 65536; change (2 ^ 18) with 262144.

(** Three bytes, cut into four sextets and joined again. *)
Lemma sextets_of_three_bytes (a b c : Z) :
  0 <= a < 256 -> 0 <= b < 256 -> 0 <= c < 256 ->
  let tmp := Z.lor (Z.lor (Z.shiftl a 16) (Z.shiftl b 8)) c in
  let v0 := Z.land (Z.shiftr tmp 18) 63 in
  let v1 := Z.land (Z.shiftr tmp 12) 63 in
  let v2 := Z.land (Z.shiftr tmp 6) 63 in
  let v3 := Z.land tmp 63 in
  let tmp' := Z.lor (Z.lor (Z.shiftl v0 18) (Z.shiftl v1 12)) (Z.lor (Z.shiftl v2 6) v3) in
  (0 <= v0 < 64 /\ 0 <= v1 < 64 /\ 0 <= v2 < 64 /\ 0 <= v3 < 64)
  /\ Z.land (Z.shiftr tmp' 16) 255 = a
  /\ Z.land (Z.shiftr tmp' 8) 255 = b
  /\ Z.land tmp' 255 = c.
Proof.
  intros Ha Hb Hc tmp.
  assert (Htmp : tmp = a * 65536 + b * 256 + c).
  { unfold tmp. bits_to_arith.
    rewrite (lor_disjoint_add (a * 65536) (b * 256) 16) by lia.
    rewrite (lor_disjoint_add _ c 8) by lia. reflexivity. }
  clearbody tmp. intros v0 v1 v2 v3.
  assert (H0 : v0 = tmp / 262144 mod 64) by (unfold v0; bits_to_arith; reflexivity).
  assert (H1 : v1 = tmp / 4096 mod 64) by (unfold v1; bits_to_arith; reflexivity).
  assert (H2 : v2 = tmp / 64 mod 64) by (unfold v2; bits_to_arith; reflexivity).
  assert (H3 : v3 = tmp mod 64) by (unfold v3; bits_to_arith; reflexivity).
  clearbody v0 v1 v2 v3. intros tmp'.
  assert (Hv : 0 <= v0 < 64 /\ 0 <= v1 < 64 /\ 0 <= v2 < 64 /\ 0 <= v3 < 64) by lia.
  assert (Htmp' : tmp' = tmp).
  { unfold tmp'. bits_to_arith.
    rewrite (lor_disjoint_add (v0 * 262144) (v1 * 4096) 18) by lia.
    rewrite (lor_disjoint_add (v2 * 64) v3 6) by lia.
    rewrite (lor_disjoint_add _ (v2 * 64 + v3) 12) by lia.
    lia. }
  rewrite Htmp'. split; [exact Hv|]. bits_to_arith. lia.
Qed.

Lemma sextets_of_two_bytes (a b : Z) :
  0 <= a < 256 -> 0 <= b < 256 ->
  let tmp := Z.lor (Z.shiftl a 8) b in
  let v0 := Z.shiftr tmp 10 in
  let v1 := Z.land (Z.shiftr tmp 4) 63 in
  let v2 := Z.land (Z.shiftl tmp 2) 63 in
  let tmp' := Z.lor (Z.lor (Z.shiftl v0 10) (Z.shiftl v1 4)) (Z.shiftr v2 2) in
  (0 <= v0 < 64 /\ 0 <= v1 < 64 /\ 0 <= v2 < 64)
  /\ Z.land (Z.shiftr tmp' 8) 255 = a
  /\ Z.land tmp' 255 = b.
Proof.
  intros Ha Hb tmp.
  assert (Htmp : tmp = a * 256 + b).
  { unfold tmp. bits_to_arith. rewrite (lor_disjoint_add _ b 8) by lia. reflexivity. }
  clearbody tmp. intros v0 v1 v2.
  assert (H0 : v0 = tmp / 1024) by (unfold v0; bits_to_arith; reflexivity).
  assert (H1 : v1 = tmp / 16 mod 64) by (unfold v1; bits_to_arith; reflexivity).
  assert (H2 : v2 = (tmp * 4) mod 64) by (unfold v2; bits_to_arith; reflexivity).
  clearbody v0 v1 v2. intros tmp'.
  assert (Hv : 0 <= v0 < 64 /\ 0 <= v1 < 64 /\ 0 <= v2 < 64) by lia.
  assert (Htmp' : tmp' = tmp).
  { unfold tmp'. bits_to_arith.
    rewrite (lor_disjoint_add (v0 * 1024) (v1 * 16) 10) by lia.
    rewrite (lor_disjoint_add _ (v2 / 4) 4) by lia.
    lia. }
  rewrite Htmp'. split; [exact Hv|]. bits_to_arith. lia.
Qed.

Lemma sextets_of_one_byte (a : Z) :
  0 <= a < 256 ->
  let v0 := Z.shiftr a 2 in
  let v1 := Z.land (Z.shiftl a 4) 63 in
  (0 <= v0 < 64 /\ 0 <= v1 < 64)
  /\ Z.land (Z.lor (Z.shiftl v0 2) (Z.shiftr v1 4)) 255 = a.
Proof.
  intros Ha v0 v1.
  assert (H0 : v0 = a / 4) by (unfold v0; bits_to_arith; reflexivity).
  assert (H1 : v1 = (a * 16) mod 64) by (unfold v1; bits_to_arith; reflexivity).
  clearbody v0 v1.
  split; [lia|]. bits_to_arith.
  rewrite (lor_disjoint_add _ (v1 / 16) 2) by lia. lia.
Qed.

Lemma from_base64_toString_bounded (n : nat) (buffer : Buffer.t) :
  (List.length buffer <= n)%nat ->
  Buffer.from_base64 (Buffer.toString_base64 buffer) = buffer.
Proof.
  unfold Buffer.from_base64. revert buffer.
  induction n as [|n IH]; intros buffer Hlen.
  - destruct buffer; [reflexivity|cbn in Hlen; lia].
  - destruct buffer as [|b0 [|b1 [|b2 rest]]].
    + reflexivity.
    + cbn [Buffer.toString_base64].
      destruct (sextets_of_one_byte _ (byteZ_range b0)) as ((Hv0 & Hv1) & Hb).
      rewrite !base64clean_sextet by assumption.
      cbn [Buffer.base64clean Ascii.eqb Bool.eqb Buffer.toByteArray].
      rewrite Hb, byte_of_Z_byteZ. reflexivity.
    + cbn [Buffer.toString_base64].
      destruct (sextets_of_two_bytes _ _ (byteZ_range b0) (byteZ_range b1))
        as ((Hv0 & Hv1 & Hv2) & Hb0 & Hb1).
      rewrite !base64clean_sextet by assumption.
      cbn [Buffer.base64clean Ascii.eqb Bool.eqb Buffer.toByteArray].
      rewrite Hb0, Hb1, !byte_of_Z_byteZ. reflexivity.
    + cbn [Buffer.toString_base64].
      destruct (sextets_of_three_bytes _ _ _ (byteZ_range b0) (byteZ_range b1) (byteZ_range b2))
        as ((Hv0 & Hv1 & Hv2 & Hv3) & Hb0 & Hb1 & Hb2).
      rewrite !base64clean_sextet by assumption.
      rewrite toByteArray_group, Hb0, Hb1, Hb2, !byte_of_Z_byteZ.
      rewrite IH by (cbn in Hlen; lia). reflexivity.
Qed.

(** What [toString('base64')] writes, [Buffer.from(_, 'base64')] reads back. *)
Lemma from_base64_toString (buffer : Buffer.t) :
  Buffer.from_base64 (Buffer.toString_base64 buffer) = buffer.
Proof. exact (from_base64_toString_bounded _ buffer (le_n _)). Qed.

(** ** Advertising data: decoding undoes encoding *)

Lemma length_cons (b : byte) (buffer : Buffer.t) :
  Buffer.length (b :: buffer) = 1 + Buffer.length buffer.
Proof. unfold Buffer.length. cbn [List.length]. lia. Qed.

Lemma length_app (pre post : Buffer.t) :
  Buffer.length (pre ++ post) = Buffer.length pre + Buffer.length post.
Proof. unfold Buffer.length. rewrite length_app. lia. Qed.

Lemma length_nonneg (buffer : Buffer.t) : 0 <= Buffer.length buffer.
Proof. unfold Buffer.length. lia. Qed.

Lemma get_app_r (pre post : Buffer.t) (k : Z) :
  0 <= k -> Buffer.get (pre ++ post) (Buffer.length pre + k) = Buffer.get post k.
Proof.
  intros Hk. unfold Buffer.get, Buffer.length.
  replace (Z.to_nat (Z.of_nat (List.length pre) + k))
    with (List.length pre + Z.to_nat k)%nat by lia.
  rewrite app_nth2_plus. reflexivity.
Qed.

Lemma get_at_0 (a : byte) (l : Buffer.t) : Buffer.get (a :: l) 0 = Buffer.byteZ a.
Proof. reflexivity. Qed.

Lemma get_at_1 (a b : byte) (l : Buffer.t) : Buffer.get (a :: b :: l) 1 = Buffer.byteZ b.
Proof. reflexivity. Qed.

Lemma get_at_2 (a b c : byte) (l : Buffer.t) :
  Buffer.get (a :: b :: c :: l) 2 = Buffer.byteZ c.
Proof. reflexivity. Qed.

Lemma get_at_3 (a b c d : byte) (l : Buffer.t) :
  Buffer.get (a :: b :: c :: d :: l) 3 = Buffer.byteZ d.
Proof. reflexivity. Qed.

Lemma readUsers_encode (us : list OmronUserInfo) :
  forall (pre post : Buffer.t) (i : Z),
    validUsers i us = true ->
    readUsers (pre ++ flat_map encodeUser us ++ post) (List.length us) i (Buffer.length pre)
    = Ok us.
Proof.
  induction us as [|u rest IH]; intros pre post i Hvalid; [reflexivity|].
  cbn [validUsers] in Hvalid.
  repeat (apply andb_prop in Hvalid; destruct Hvalid as [Hvalid ?]).
  cbn [flat_map List.length readUsers]. rewrite <- app_assoc.
  set (tail := flat_map encodeUser rest ++ post).
  set (buffer := pre ++ encodeUser u ++ tail).
  pose proof (length_nonneg pre) as Hpre.
  pose proof (length_nonneg tail) as Htail.
  assert (Hlen : Buffer.length buffer = Buffer.length pre + 3 + Buffer.length tail).
  { unfold buffer, encodeUser. cbn [app]. rewrite length_app, !length_cons. lia. }
  assert (Hseq : le16 buffer (Buffer.length pre) = lastSequenceNumber u).
  { unfold le16, buffer.
    rewrite <- (Z.add_0_r (Buffer.length pre)) at 1.
    rewrite !get_app_r by lia. unfold encodeUser. cbn [app].
    rewrite get_at_0, get_at_1, !byteZ_byte_of_Z by lia. lia. }
  assert (Hrec : Buffer.get buffer (Buffer.length pre + 2) = numberOfRecords u).
  { unfold buffer. rewrite get_app_r by lia. unfold encodeUser. cbn [app].
    rewrite get_at_2, byteZ_byte_of_Z by lia. reflexivity. }
  rewrite readUInt16LE_ok, readUInt8_ok by lia. cbn [bind].
  rewrite Hseq, Hrec.
  replace buffer with ((pre ++ encodeUser u) ++ flat_map encodeUser rest ++ post)
    by (unfold buffer, tail; rewrite <- app_assoc; reflexivity).
  replace (Buffer.length pre + 3) with (Buffer.length (pre ++ encodeUser u))
    by (rewrite length_app; reflexivity).
  rewrite IH by assumption. cbn [bind].
  destruct u as [idx seq recs]. cbn [index lastSequenceNumber numberOfRecords] in *.
  do 3 f_equal. lia.
Qed.

Lemma encodeFlags_fields (info : OmronAdvertisingInfo) :
  1 <= numberOfUsers info <= 4 ->
  0 <= encodeFlags info < 16
  /\ negb (Z.land (encodeFlags info) 8 =? 0) = pairable info
  /\ negb (Z.land (encodeFlags info) 4 =? 0) = timeNotConfigured info
  /\ Z.land (encodeFlags info) 3 + 1 = numberOfUsers info.
Proof.
  intros Hn. unfold encodeFlags.
  assert (Hcases : numberOfUsers info = 1 \/ numberOfUsers info = 2
                   \/ numberOfUsers info = 3 \/ numberOfUsers info = 4) by lia.
  destruct Hcases as [-> | [-> | [-> | ->]]];
    destruct (pairable info), (timeNotConfigured info);
    repeat split; (lia || reflexivity).
Qed.

Lemma parse_encodeAdvertising (info : OmronAdvertisingInfo) :
  validAdvertisingInfo info = true ->
  parseOmronManufacturerData_try (encodeAdvertising info) = Ok (Some info).
Proof.
  intros Hvalid. unfold validAdvertisingInfo in Hvalid.
  apply andb_prop in Hvalid as [Hvalid Husers].
  apply andb_prop in Hvalid as [Hvalid Hlen].
  apply andb_prop in Hvalid as [Hlo Hhi].
  apply Z.leb_le in Hlo, Hhi. apply Z.eqb_eq in Hlen.
  destruct (encodeFlags_fields info (conj Hlo Hhi)) as (Hflags & Hp & Ht & Hn).
  unfold parseOmronManufacturerData_try, encodeAdvertising. cbn [app].
  set (tail := flat_map encodeUser (users info)).
  set (buffer := x0e :: x02 :: x01 :: Buffer.byte_of_Z (encodeFlags info) :: tail).
  pose proof (length_nonneg tail) as Htail.
  assert (Hbuf : Buffer.length buffer = 4 + Buffer.length tail)
    by (unfold buffer; rewrite !length_cons; lia).
  rewrite readUInt16LE_ok, !readUInt8_ok by lia. cbn [bind].
  change (le16 buffer 0) with OMRON_COMPANY_ID.
  change (Buffer.get buffer 2) with 1.
  rewrite !Z.eqb_refl. change (negb true || negb true) with false. cbv iota.
  assert (Hget3 : Buffer.get buffer 3 = encodeFlags info)
    by (unfold buffer; rewrite get_at_3; apply byteZ_byte_of_Z; lia).
  rewrite !Hget3, Hp, Ht, Hn.
  replace (Z.to_nat (numberOfUsers info)) with (List.length (users info)) by lia.
  pose proof (readUsers_encode (users info)
                [x0e; x02; x01; Buffer.byte_of_Z (encodeFlags info)] [] 0 Husers) as Hread.
  rewrite app_nil_r in Hread.
  change (Buffer.length [x0e; x02; x01; Buffer.byte_of_Z (encodeFlags info)]) with 4 in Hread.
  cbn [app] in Hread. fold tail buffer in Hread.
  rewrite Hread. cbn [bind]. destruct info; reflexivity.
Qed.

(** C2.  A payload built from the flag fields and the user slots of a
    well-formed advertising record (one to four users, indexed 1 to
    [numberOfUsers] in layout order, sequence numbers in 0..65535, record
    counts in 0..255) decodes to exactly that record, both as bytes and
    through the base64 string in which the transport delivers it; decoding
    leaves the hook state as it was. *)
Theorem parseOmronManufacturerData_encode_roundtrip
  (options : UseOmronBluetoothOptions) (info : OmronAdvertisingInfo) (st : HookState) :
  validAdvertisingInfo info = true ->
  parseOmronManufacturerData_try (encodeAdvertising info) = Ok (Some info)
  /\ parseOmronManufacturerData options
       (Buffer.toString_base64 (encodeAdvertising info)) st = (Some info, st).
Proof.
  intros Hvalid. pose proof (parse_encodeAdvertising info Hvalid) as Hparse.
  split; [exact Hparse|].
  unfold parseOmronManufacturerData. rewrite from_base64_toString, Hparse. reflexivity.
Qed.

(** ** The RACP indication handler *)

Lemma racpCommand_bytes :
  racpCommand RACP_OPCODES.REPORT_STORED_RECORDS RACP_OPERATORS.ALL_RECORDS
  = Ok [x01; x01]
  /\ Buffer.toString_base64 [x01; x01] = "AQE="
  /\ Buffer.from_base64 "AQE=" = [x01; x01].
Proof. repeat split. Qed.

Lemma requestAllStoredRecords_effect
  (options : UseOmronBluetoothOptions) (device : Device) (racpChar : Characteristic)
  (st : HookState) :
  let st' := requestAllStoredRecords options device racpChar st in
  trace st' = trace st ++ [CallWriteWithResponse (uuid racpChar) "AQE="]
  /\ measurementData st' = measurementData st
  /\ subscriptionsRef st' = subscriptionsRef st
  /\ connectionState st' = connectionState st.
Proof.
  unfold requestAllStoredRecords.
  change (racpCommand _ _) with (Ok [x01; x01]). cbv beta iota zeta.
  change (Buffer.toString_base64 [x01; x01]) with "AQE=".
  destruct (writeWithResponse racpChar "AQE="); repeat split.
Qed.

(** C3.  On an indication whose opcode byte is 0x05, with the record
    count the uint16-LE word at offset 2: a count above zero makes the
    handler write once to the control point, the two bytes [0x01; 0x01]
    (REPORT_STORED_RECORDS, ALL_RECORDS) in base64, and leaves the
    accumulated measurements alone; a count of zero makes it write nothing
    and change nothing but the log, which records the zero count. *)
Theorem handleRACPResponse_number_of_stored_records
  (options : UseOmronBluetoothOptions) (device : Device) (base64Value : string)
  (racpChar : Characteristic) (st : HookState) :
  let buffer := Buffer.from_base64 base64Value in
  let count := le16 buffer 2 in
  let st' := handleRACPResponse options device base64Value racpChar st in
  Buffer.readUInt8 buffer 0 = Ok RACP_OPCODES.NUMBER_OF_STORED_RECORDS_RESPONSE ->
  4 <= Buffer.length buffer ->
  Buffer.readUInt16LE buffer 2 = Ok count
  /\ (0 < count ->
      trace st' = trace st ++ [CallWriteWithResponse (uuid racpChar) "AQE="]
      /\ Buffer.from_base64 "AQE="
         = [Buffer.byte_of_Z RACP_OPCODES.REPORT_STORED_RECORDS;
            Buffer.byte_of_Z RACP_OPERATORS.ALL_RECORDS]
      /\ measurementData st' = measurementData st)
  /\ (count = 0 ->
      st' = addLog options (LogDeviceHasRecords 0) st
      /\ trace st' = trace st
      /\ measurementData st' = measurementData st).
Proof.
  intros buffer count st' Hop Hlen.
  assert (Hcount : Buffer.readUInt16LE buffer 2 = Ok count)
    by (apply readUInt16LE_ok; lia).
  split; [exact Hcount|].
  unfold st', handleRACPResponse. fold buffer. cbv zeta.
  rewrite Hop, Hcount. cbv beta iota. rewrite Z.eqb_refl.
  split.
  - intros Hpos. rewrite (proj2 (Z.gtb_lt count 0)) by exact Hpos.
    destruct (requestAllStoredRecords_effect options device racpChar
                (addLog options (LogDeviceHasRecords count) st)) as (Ht & Hm & _).
    rewrite Ht, Hm. repeat split.
  - intros Hzero. rewrite Hzero. repeat split.
Qed.

(** ** Teardown and connection *)

(** What the loop of [removeAllSubscriptions] does to a state: one
    [remove] call per subscription, in order, whatever each call answers. *)
Lemma remove_loop (subs : list Subscription) :
  forall st : HookState,
    let st' :=
      fold_left
        (fun st sub =>
           let st := call (CallRemove (subId sub)) st in
           try_catch (_ <- remove sub ;; Ok st) (fun _ => st))
        subs st in
    trace st' = trace st ++ map (fun sub => CallRemove (subId sub)) subs
    /\ devices st' = devices st
    /\ connectedDevice st' = connectedDevice st
    /\ connectionState st' = connectionState st
    /\ measurementData st' = measurementData st
    /\ logs st' = logs st
    /\ managerRef st' = managerRef st
    /\ scanTimeoutRef st' = scanTimeoutRef st.
Proof.
  induction subs as [|sub rest IH]; intros st.
  - cbn. rewrite app_nil_r. repeat split.
  - cbn [fold_left map].
    assert (Hstep : try_catch (_ <- remove sub ;; Ok (call (CallRemove (subId sub)) st))
                              (fun _ => call (CallRemove (subId sub)) st)
                    = call (CallRemove (subId sub)) st)
      by (destruct (remove sub); reflexivity).
    cbv zeta in *. rewrite Hstep.
    destruct (IH (call (CallRemove (subId sub)) st)) as (Ht & Hrest).
    rewrite Ht. cbn [trace call]. rewrite <- app_assoc. split; [reflexivity|exact Hrest].
Qed.

Lemma removeAllSubscriptions_effect (st : HookState) :
  let st' := removeAllSubscriptions st in
  subscriptionsRef st' = []
  /\ trace st' = trace st ++ map (fun sub => CallRemove (subId sub)) (subscriptionsRef st)
  /\ devices st' = devices st
  /\ connectedDevice st' = connectedDevice st
  /\ connectionState st' = connectionState st
  /\ measurementData st' = measurementData st
  /\ logs st' = logs st
  /\ managerRef st' = managerRef st
  /\ scanTimeoutRef st' = scanTimeoutRef st.
Proof.
  unfold removeAllSubscriptions. cbv zeta.
  split; [reflexivity|]. exact (remove_loop (subscriptionsRef st) st).
Qed.

(** The hook's [disconnect] does not touch the accumulated measurements. *)
Lemma disconnect_measurementData (options : UseOmronBluetoothOptions) (st : HookState) :
  measurementData (disconnect options st) = measurementData st.
Proof.
  unfold disconnect.
  destruct (managerRef st) as [manager|]; [|reflexivity].
  destruct (connectedDevice st) as [connected|]; [|reflexivity].
  cbv zeta.
  destruct (cancelDeviceConnection manager (id connected)); cbn;
    apply (removeAllSubscriptions_effect st).
Qed.

(** C4 (amended).  With a manager and a connected device at hand,
    [disconnect] asks every held subscription to remove itself, empties
    the list, asks the transport to cancel the connection and then, whether
    that call resolves or rejects, drops the connected device and sets the
    state to Disconnected; a second [disconnect] changes nothing.  With no
    connected device at hand (before a connection attempt has resolved, or
    after a disconnect) it is a no-op. *)
Theorem disconnect_teardown (options : UseOmronBluetoothOptions) (st : HookState) :
  match managerRef st, connectedDevice st with
  | Some manager, Some connected =>
      let st' := disconnect options st in
      subscriptionsRef st' = []
      /\ trace st'
         = trace st ++ map (fun sub => CallRemove (subId sub)) (subscriptionsRef st)
                    ++ [CallCancelDeviceConnection (id connected)]
      /\ connectedDevice st' = None
      /\ connectionState st' = "Disconnected"
      /\ disconnect options st' = st'
  | _, _ => disconnect options st = st
  end.
Proof.
  unfold disconnect.
  destruct (managerRef st) as [manager|] eqn:Hm; [|reflexivity].
  destruct (connectedDevice st) as [connected|] eqn:Hc; [|reflexivity].
  cbv zeta.
  destruct (removeAllSubscriptions_effect st) as (Hs & Ht & _).
  assert (Hcancel :
    forall s : HookState,
      try_catch (_ <- cancelDeviceConnection manager (id connected) ;; Ok s) (fun _ => s) = s)
    by (intros s; destruct (cancelDeviceConnection manager (id connected)); reflexivity).
  rewrite Hcancel. cbn -[removeAllSubscriptions].
  rewrite Hs, Ht, <- app_assoc. repeat split.
  destruct (managerRef (removeAllSubscriptions st)); reflexivity.
Qed.

(** C4, as stated, during a connection attempt: [connectToDevice] has set
    the state to Connecting and awaits the transport; no connected device
    is held yet, so [disconnect] returns at its guard and the state stays
    Connecting. *)
Lemma disconnect_mid_connect_is_noop :
  let st := connectToDevice_begin DEFAULT_OPTIONS Sample.monitorA (mount Sample.manager) in
  connectionState st = "Connecting..."
  /\ disconnect DEFAULT_OPTIONS st = st
  /\ connectionState (disconnect DEFAULT_OPTIONS st) <> "Disconnected".
Proof.
  cbv zeta. split; [reflexivity|]. split; [vm_compute; reflexivity|].
  vm_compute. discriminate.
Qed.

Lemma disconnect_teardown_witness :
  let st := connectToDevice DEFAULT_OPTIONS Sample.monitorA (mount Sample.manager) in
  let st' := disconnect DEFAULT_OPTIONS st in
  cancelDeviceConnection Sample.manager "A0:11" = Throw (BleError "Device is not connected")
  /\ subscriptionsRef st' = []
  /\ connectionState st' = "Disconnected".
Proof.
  cbv zeta. split; [reflexivity|].
  pose proof (disconnect_teardown DEFAULT_OPTIONS
                (connectToDevice DEFAULT_OPTIONS Sample.monitorA (mount Sample.manager))) as H.
  cbv beta iota zeta delta [managerRef connectedDevice connectToDevice] in H.
  vm_compute in H. vm_compute. destruct H as (Hs & _ & _ & Hc & _). split; assumption.
Defined.

Lemma stopScan_effect (st : HookState) :
  let st' := stopScan st in
  subscriptionsRef st' = subscriptionsRef st
  /\ devices st' = devices st
  /\ connectedDevice st' = connectedDevice st
  /\ connectionState st' = connectionState st
  /\ measurementData st' = measurementData st
  /\ logs st' = logs st
  /\ managerRef st' = managerRef st
  /\ trace st'
     = trace st ++ match managerRef st with
                   | None => []
                   | Some _ => CallStopDeviceScan
                               :: (if scanTimeoutRef st then [CallClearTimeout] else [])
                   end.
Proof.
  unfold stopScan. destruct (managerRef st) eqn:Hm.
  - cbn. destruct (scanTimeoutRef st); cbn; rewrite ?Hm, <- ?app_assoc; repeat split.
  - cbn. rewrite Hm, app_nil_r. repeat split.
Qed.

(** C5, as stated, while a connection attempt is in flight: a second
    [connectToDevice] is not rejected; it reaches the transport. *)
Lemma connect_while_connecting_reaches_transport :
  let st := connectToDevice_begin DEFAULT_OPTIONS Sample.monitorA (mount Sample.manager) in
  let st' := connectToDevice_begin DEFAULT_OPTIONS Sample.monitorB st in
  connectionState st = "Connecting..."
  /\ connectionState st <> "Disconnected"
  /\ trace st' = trace st ++ [CallStopDeviceScan; CallConnectToDevice "B0:22" 150]
  /\ st' <> st.
Proof.
  cbv zeta. split; [reflexivity|]. split; [vm_compute; discriminate|].
  split; [reflexivity|].
  intros H. apply (f_equal (fun s => List.length (trace s))) in H.
  vm_compute in H. discriminate.
Qed.

(** C5 (amended).  [connectToDevice] does not look at the connection
    state.  Whenever a manager exists, and so also while an attempt or a
    session is in flight, a call stops the scan, removes every held
    subscription, clears the accumulated measurements, sets the state to
    Connecting and asks the transport to connect to the new device; the
    connected device held, which is what the demo screen consults before
    offering devices for connection, is left as it was. *)
Theorem connectToDevice_begin_unguarded
  (options : UseOmronBluetoothOptions) (device : Device) (st : HookState)
  (manager : BleManager) :
  managerRef st = Some manager ->
  let st' := connectToDevice_begin options device st in
  trace st'
  = trace st
    ++ CallStopDeviceScan :: (if scanTimeoutRef st then [CallClearTimeout] else [])
    ++ map (fun sub => CallRemove (subId sub)) (subscriptionsRef st)
    ++ [CallConnectToDevice (id device) (requestMtu options)]
  /\ subscriptionsRef st' = []
  /\ measurementData st' = []
  /\ connectionState st' = "Connecting..."
  /\ connectedDevice st' = connectedDevice st
  /\ connectOffered st' = connectOffered st.
Proof.
  intros Hm. unfold connectToDevice_begin. rewrite Hm. cbv zeta.
  destruct (stopScan_effect st) as (Hs1 & Hd1 & Hc1 & _ & _ & _ & _ & Ht1).
  destruct (removeAllSubscriptions_effect (stopScan st))
    as (Hs2 & Ht2 & Hd2 & Hc2 & _).
  rewrite Hm in Ht1.
  unfold connectOffered. cbn -[removeAllSubscriptions stopScan].
  rewrite Hs2, Ht2, Ht1, Hs1, Hd2, Hd1, Hc2, Hc1.
  rewrite <- !app_assoc. repeat split.
Qed.

Lemma connectToDevice_begin_unguarded_witness :
  let st := connectToDevice DEFAULT_OPTIONS Sample.monitorA (mount Sample.manager) in
  let st' := connectToDevice_begin DEFAULT_OPTIONS Sample.monitorB st in
  connectionState st = "Connected"
  /\ trace st' = trace st ++ [CallStopDeviceScan; CallRemove 1; CallRemove 2; CallRemove 3;
                              CallConnectToDevice "B0:22" 150]
  /\ connectionState st' = "Connecting...".
Proof.
  cbv zeta. split; [reflexivity|].
  destruct (connectToDevice_begin_unguarded DEFAULT_OPTIONS Sample.monitorB
              (connectToDevice DEFAULT_OPTIONS Sample.monitorA (mount Sample.manager))
              Sample.manager eq_refl) as (Ht & _ & _ & Hc & _).
  split; [rewrite Ht; reflexivity|exact Hc].
Defined.

(** ** The device registry *)

(** Case analysis on every answer a callback branches on. *)
Ltac branches :=
  repeat match goal with
         | |- context [match ?x with _ => _ end] => destruct x
         end.

Lemma setupNotification_devices (options : UseOmronBluetoothOptions)
  (characteristic : Characteristic) (st : HookState) :
  devices (setupNotification options characteristic st) = devices st.
Proof. unfold setupNotification. cbv zeta. branches; reflexivity. Qed.

Lemma notificationListener_devices {engine : Engine} (options : UseOmronBluetoothOptions)
  (characteristic : Characteristic) (error : option Error) (value : option string)
  (now : Z) (st : HookState) :
  devices (notificationListener options characteristic error value now st) = devices st.
Proof.
  unfold notificationListener, parseMeasurementData.
  destruct error; [reflexivity|].
  destruct (nonEmpty value) as [v|]; [|reflexivity].
  destruct (parseMeasurementData_try _ _ _) as [[data|]|]; reflexivity.
Qed.

Lemma handleRACPResponse_devices (options : UseOmronBluetoothOptions)
  (device : Device) (base64Value : string) (racpChar : Characteristic) (st : HookState) :
  devices (handleRACPResponse options device base64Value racpChar st) = devices st.
Proof.
  unfold handleRACPResponse, requestAllStoredRecords. cbv zeta.
  change (racpCommand _ _) with (Ok [x01; x01]). cbv beta iota.
  destruct (Buffer.readUInt8 _ 0) as [opCode|]; [|reflexivity].
  destruct (opCode =? _).
  - destruct (Buffer.readUInt16LE _ 2) as [n|]; [|reflexivity].
    destruct (n >? 0); [|reflexivity].
    destruct (writeWithResponse racpChar _); reflexivity.
  - destruct (opCode =? _); [|reflexivity].
    destruct (Buffer.readUInt8 _ 2); [|reflexivity].
    destruct (Buffer.readUInt8 _ 3); reflexivity.
Qed.

Lemma racpListener_devices (options : UseOmronBluetoothOptions)
  (device : Device) (racpChar : Characteristic) (error : option Error)
  (value : option string) (st : HookState) :
  devices (racpListener options device racpChar error value st) = devices st.
Proof.
  unfold racpListener. destruct error; [reflexivity|].
  destruct (nonEmpty value); [apply handleRACPResponse_devices|reflexivity].
Qed.

Lemma requestStoredRecords_devices (options : UseOmronBluetoothOptions)
  (device : Device) (st : HookState) :
  devices (requestStoredRecords options device st) = devices st.
Proof.
  unfold requestStoredRecords. cbv zeta.
  change (racpCommand _ _) with (Ok [x04; x01]). cbv beta iota.
  destruct (_ <- services device ;; _) as [[racpChar|]|]; try reflexivity.
  destruct (monitor racpChar); [|reflexivity].
  destruct (writeWithResponse racpChar _); reflexivity.
Qed.

Lemma subscribeServices_devices (options : UseOmronBluetoothOptions)
  (services : list Service) :
  forall st : HookState,
    devices (snd (subscribeServices options services st)) = devices st.
Proof.
  induction services as [|service rest IH]; intros st; [reflexivity|].
  cbn [subscribeServices].
  destruct (characteristics service) as [chars|]; [|reflexivity].
  rewrite IH. clear IH. revert st.
  induction chars as [|char chars IHc]; intros st; [reflexivity|].
  cbn [fold_left]. rewrite IHc.
  destruct (isMeasurementCharacteristic (uuid char));
    [apply setupNotification_devices|reflexivity].
Qed.

Lemma setupDataTransfer_devices (options : UseOmronBluetoothOptions)
  (device : Device) (st : HookState) :
  devices (setupDataTransfer options device st) = devices st.
Proof.
  unfold setupDataTransfer.
  destruct (services device) as [services|]; [|reflexivity].
  pose proof (subscribeServices_devices options services st) as H.
  destruct (subscribeServices options services st) as [[?|?] st']; cbn [snd] in H.
  - rewrite requestStoredRecords_devices. exact H.
  - exact H.
Qed.

Lemma connectToDevice_begin_devices (options : UseOmronBluetoothOptions)
  (device : Device) (st : HookState) :
  devices (connectToDevice_begin options device st) = devices st.
Proof.
  unfold connectToDevice_begin. destruct (managerRef st); [|reflexivity].
  cbn -[removeAllSubscriptions stopScan].
  destruct (removeAllSubscriptions_effect (stopScan st)) as (_ & _ & -> & _).
  apply (stopScan_effect st).
Qed.

Lemma connectToDevice_settle_devices (options : UseOmronBluetoothOptions)
  (manager : BleManager) (device : Device) (st : HookState) :
  devices (connectToDevice_settle options manager device st) = devices st.
Proof.
  unfold connectToDevice_settle. cbv zeta.
  destruct (connectToDevice_ manager _ _) as [connectedDev|]; [|reflexivity].
  destruct (discoverAllServicesAndCharacteristics connectedDev); [|reflexivity].
  rewrite setupDataTransfer_devices. reflexivity.
Qed.

Lemma disconnect_devices (options : UseOmronBluetoothOptions) (st : HookState) :
  devices (disconnect options st) = devices st.
Proof.
  unfold disconnect.
  destruct (managerRef st) as [manager|]; [|reflexivity].
  destruct (connectedDevice st) as [connected|]; [|reflexivity].
  cbv zeta.
  destruct (cancelDeviceConnection manager (id connected)); cbn;
    apply (removeAllSubscriptions_effect st).
Qed.

Lemma effectCleanup_devices (options : UseOmronBluetoothOptions) (st : HookState) :
  devices (effectCleanup st) = devices st.
Proof.
  unfold effectCleanup. cbv zeta.
  destruct (removeAllSubscriptions_effect (stopScan st)) as (_ & _ & Hd & _).
  destruct (managerRef _); cbn -[removeAllSubscriptions stopScan];
    rewrite Hd; apply (stopScan_effect st).
Qed.

Lemma scanDevices_devices (options : UseOmronBluetoothOptions) (st : HookState) :
  devices (scanDevices options st)
  = match managerRef st with
    | None => devices st
    | Some _ => []
    end.
Proof.
  unfold scanDevices. destruct (managerRef st) eqn:Hm; [|reflexivity].
  cbv zeta.
  match goal with |- context [stopScan ?s] => destruct (stopScan_effect s) as (_ & Hd & _) end.
  cbn -[stopScan]. rewrite Hd. reflexivity.
Qed.

Lemma find_id_none (deviceId : string) (registry : list OmronDiscoveredDevice) :
  find (fun d => String.eqb (id (device_of d)) deviceId) registry = None ->
  ~ In deviceId (map (fun d => id (device_of d)) registry).
Proof.
  intros Hfind Hin. apply in_map_iff in Hin as (d & Hid & Hd).
  pose proof (find_none _ _ Hfind d Hd) as Hneq. cbn in Hneq.
  rewrite Hid, String.eqb_refl in Hneq. discriminate.
Qed.

Lemma find_id_fresh (deviceId : string) (registry : list OmronDiscoveredDevice) :
  ~ In deviceId (map (fun d => id (device_of d)) registry) ->
  find (fun d => String.eqb (id (device_of d)) deviceId) registry = None.
Proof.
  intros Hfresh.
  destruct (find _ registry) as [d|] eqn:Hfind; [|reflexivity].
  apply find_some in Hfind as [Hd Heq]. apply String.eqb_eq in Heq.
  exfalso. apply Hfresh. apply in_map_iff. exists d. split; assumption.
Qed.

(** A scan result for an id the registry does not hold, with an
    advertisement that decodes, adds the device at the end. *)
Lemma scanListener_first_sighting (options : UseOmronBluetoothOptions)
  (sighted : Device) (data : string) (parsed : OmronAdvertisingInfo) (st : HookState) :
  nonEmpty (manufacturerData sighted) = Some data ->
  fst (parseOmronManufacturerData options data st) = Some parsed ->
  ~ In (id sighted) (ids st) ->
  devices (scanListener options None (Some sighted) st)
  = devices st ++ [{| device_of := sighted; info_of := parsed |}].
Proof.
  intros Hdata Hparsed Hfresh. unfold scanListener. rewrite Hdata.
  unfold parseOmronManufacturerData in *.
  destruct (parseOmronManufacturerData_try _) as [[info|]|];
    cbn [fst] in Hparsed; try discriminate.
  injection Hparsed as ->.
  rewrite (find_id_fresh _ _ Hfresh). reflexivity.
Qed.

(** What one scan result does to the registry: nothing, or one entry more
    at the end, under an id the registry did not hold, carrying the device
    and the decoded advertisement of this result. *)
Lemma scanListener_devices (options : UseOmronBluetoothOptions)
  (error : option Error) (device : option Device) (st : HookState) :
  devices (scanListener options error device st) = devices st
  \/ exists (sighted : Device) (data : string) (parsed : OmronAdvertisingInfo),
       device = Some sighted
       /\ nonEmpty (manufacturerData sighted) = Some data
       /\ fst (parseOmronManufacturerData options data st) = Some parsed
       /\ ~ In (id sighted) (ids st)
       /\ devices (scanListener options error device st)
          = devices st ++ [{| device_of := sighted; info_of := parsed |}].
Proof.
  unfold scanListener.
  destruct error; [left; reflexivity|].
  destruct device as [sighted|]; [|left; reflexivity].
  destruct (nonEmpty (manufacturerData sighted)) as [data|] eqn:Hdata; [|left; reflexivity].
  assert (Hst : devices (snd (parseOmronManufacturerData options data st)) = devices st)
    by (unfold parseOmronManufacturerData;
        destruct (parseOmronManufacturerData_try _); reflexivity).
  destruct (parseOmronManufacturerData options data st) as [[parsed|] st1] eqn:Hparse;
    cbn [snd fst] in *; [|left; exact Hst].
  destruct (find _ (devices st1)) eqn:Hfind; [left; exact Hst|].
  right. exists sighted, data, parsed.
  rewrite Hst in Hfind. apply find_id_none in Hfind.
  split; [reflexivity|]. split; [exact Hdata|].
  split; [rewrite Hparse; reflexivity|]. split; [exact Hfind|].
  cbn [devices setDevices]. rewrite Hst. reflexivity.
Qed.

Lemma step_devices {engine : Engine}
  (options : UseOmronBluetoothOptions) (st : HookState) (ev : Event) :
  devices (step options st ev) = devices st
  \/ devices (step options st ev) = []
  \/ exists d, ~ In (id (device_of d)) (ids st)
               /\ devices (step options st ev) = devices st ++ [d].
Proof.
  destruct ev; cbn [step].
  - rewrite scanDevices_devices. destruct (managerRef st); auto.
  - destruct (scanListener_devices options error device st)
      as [H | (sighted & data & parsed & _ & _ & _ & Hfresh & H)]; [auto|].
    right. right. eexists. split; [|exact H]. exact Hfresh.
  - left. unfold scanTimeoutExpired. cbn -[stopScan]. apply (stopScan_effect st).
  - left. apply connectToDevice_begin_devices.
  - left. apply connectToDevice_settle_devices.
  - left. apply notificationListener_devices.
  - left. apply racpListener_devices.
  - left. apply disconnect_devices.
  - unfold stateChangeListener. destruct (_ && _); [|auto].
    rewrite scanDevices_devices. destruct (managerRef st); auto.
  - left. apply (effectCleanup_devices options).
Qed.

Lemma run_ids_unique {engine : Engine} (options : UseOmronBluetoothOptions) (events : list Event) :
  forall st : HookState, NoDup (ids st) -> NoDup (ids (run options events st)).
Proof.
  induction events as [|ev rest IH]; intros st Hst; [exact Hst|].
  cbn [run fold_left]. apply IH. unfold ids in *.
  destruct (step_devices options st ev) as [H | [H | (d & Hfresh & H)]]; rewrite H.
  - exact Hst.
  - constructor.
  - rewrite map_app. cbn [map].
    apply NoDup_app; [exact Hst|repeat constructor; intros []|].
    intros x Hx [<-|[]]. exact (Hfresh Hx).
Qed.

(** C6, as stated, at a second sighting: the monitor advertises a new
    sequence number and record count under the id the registry already
    holds, and the registry keeps the record of the first sighting. *)
Lemma resighting_keeps_first_advertisement :
  let st0 := scanDevices DEFAULT_OPTIONS (mount Sample.manager) in
  let st1 := scanListener DEFAULT_OPTIONS None (Some Sample.monitorA) st0 in
  let st2 := scanListener DEFAULT_OPTIONS None (Some Sample.monitorA_later) st1 in
  id Sample.monitorA_later = id Sample.monitorA
  /\ fst (parseOmronManufacturerData DEFAULT_OPTIONS "DgIBCQYABAIAAQ==" st1)
     = Some Sample.info_later
  /\ map info_of (devices st2) = [Sample.info]
  /\ map info_of (devices st2) <> [Sample.info_later].
Proof.
  cbv zeta. repeat split. vm_compute. discriminate.
Qed.

(** C6 (amended).  In every state a mounted hook can reach, no two
    entries of the device registry have the same id.  A scan result either
    leaves the registry as it is or adds one entry at its end, for a device
    whose id the registry did not hold, with the advertisement decoded from
    that result, and it does add it when the id is new and the
    advertisement decodes; a result for an id the registry holds leaves
    every entry as it is, so an entry keeps the advertisement of its first
    sighting.  Starting a scan with a manager at hand empties the
    registry. *)
Theorem registry_ids_never_duplicated {engine : Engine}
  (options : UseOmronBluetoothOptions) (manager : BleManager) (events : list Event) :
  let st := run options events (mount manager) in
  NoDup (ids st)
  /\ (forall (error : option Error) (device : option Device),
        let st' := scanListener options error device st in
        (forall sighted : Device,
            device = Some sighted -> In (id sighted) (ids st) -> devices st' = devices st)
        /\ (devices st' = devices st
            \/ exists (sighted : Device) (data : string) (parsed : OmronAdvertisingInfo),
                 device = Some sighted
                 /\ nonEmpty (manufacturerData sighted) = Some data
                 /\ fst (parseOmronManufacturerData options data st) = Some parsed
                 /\ ~ In (id sighted) (ids st)
                 /\ devices st' = devices st ++ [{| device_of := sighted; info_of := parsed |}]))
  /\ (forall (sighted : Device) (data : string) (parsed : OmronAdvertisingInfo),
        nonEmpty (manufacturerData sighted) = Some data ->
        fst (parseOmronManufacturerData options data st) = Some parsed ->
        ~ In (id sighted) (ids st) ->
        devices (scanListener options None (Some sighted) st)
        = devices st ++ [{| device_of := sighted; info_of := parsed |}])
  /\ (managerRef st <> None -> devices (scanDevices options st) = []).
Proof.
  cbv zeta. split; [apply run_ids_unique; constructor|]. split.
  - intros error device.
    pose proof (scanListener_devices options error device
                  (run options events (mount manager))) as H.
    split; [|exact H].
    intros sighted Hdev Hin.
    destruct H as [H | (sighted' & _ & _ & Hdev' & _ & _ & Hfresh & _)]; [exact H|].
    rewrite Hdev in Hdev'. injection Hdev' as <-. contradiction.
  - split; [intros sighted data parsed; apply scanListener_first_sighting|].
    intros Hm. rewrite scanDevices_devices.
    destruct (managerRef _); [reflexivity|contradiction].
Qed.

Lemma registry_ids_never_duplicated_witness :
  let st := run (engine := Engines.correctly_rounded) DEFAULT_OPTIONS
              [EvScanDevices;
               EvScanResult None (Some Sample.monitorA);
               EvScanResult None (Some Sample.monitorB);
               EvScanResult None (Some Sample.monitorA_later)]
              (mount Sample.manager) in
  ids st = ["A0:11"; "B0:22"]
  /\ NoDup (ids st)
  /\ devices (scanListener DEFAULT_OPTIONS None (Some Sample.monitorA_later) st) = devices st
  /\ devices (scanDevices DEFAULT_OPTIONS st) = [].
Proof.
  cbv zeta. split; [reflexivity|].
  destruct (registry_ids_never_duplicated (engine := Engines.correctly_rounded)
              DEFAULT_OPTIONS Sample.manager
              [EvScanDevices;
               EvScanResult None (Some Sample.monitorA);
               EvScanResult None (Some Sample.monitorB);
               EvScanResult None (Some Sample.monitorA_later)])
    as (Hnodup & Hscan & _ & Hclear).
  split; [exact Hnodup|]. split.
  - apply (proj1 (Hscan None (Some Sample.monitorA_later)) Sample.monitorA_later eq_refl).
    vm_compute. left. reflexivity.
  - apply Hclear. discriminate.
Defined.

(** ** Advertising data: every payload is answered *)

Lemma readUsers_ok (buffer : Buffer.t) (count : nat) :
  forall i offset : Z,
    0 <= offset -> offset + 3 * Z.of_nat count <= Buffer.length buffer ->
    exists us, readUsers buffer count i offset = Ok us /\ List.length us = count.
Proof.
  induction count as [|count IH]; intros i offset H0 Hlen.
  - exists []. split; reflexivity.
  - rewrite Nat2Z.inj_succ in Hlen.
    cbn [readUsers]. rewrite readUInt16LE_ok, readUInt8_ok by lia. cbn [bind].
    assert (H3 : 0 <= offset + 3) by lia.
    assert (Hrest : offset + 3 + 3 * Z.of_nat count <= Buffer.length buffer) by lia.
    destruct (IH (i + 1) (offset + 3) H3 Hrest) as (us & -> & Hus).
    cbn [bind]. eexists. split; [reflexivity|]. cbn [List.length]. rewrite Hus. reflexivity.
Qed.

Lemma readUsers_throw (buffer : Buffer.t) (count : nat) :
  forall i offset : Z,
    0 <= offset <= Buffer.length buffer ->
    Buffer.length buffer < offset + 3 * Z.of_nat count ->
    readUsers buffer count i offset = Throw RangeError.
Proof.
  induction count as [|count IH]; intros i offset H0 Hlen; [cbn in Hlen; lia|].
  rewrite Nat2Z.inj_succ in Hlen.
  cbn [readUsers].
  destruct (Z.ltb_spec (Buffer.length buffer) (offset + 2)).
  - rewrite readUInt16LE_throw by lia. reflexivity.
  - rewrite readUInt16LE_ok by lia. cbn [bind].
    destruct (Z.ltb_spec (Buffer.length buffer) (offset + 3)).
    + rewrite readUInt8_throw by lia. reflexivity.
    + rewrite readUInt8_ok by lia. cbn [bind].
      rewrite IH by lia. reflexivity.
Qed.

Lemma header_test (buffer : Buffer.t) :
  negb (le16 buffer 0 =? OMRON_COMPANY_ID) || negb (Buffer.get buffer 2 =? 0x01)
  = negb (omronHeader buffer).
Proof.
  unfold omronHeader, le16, OMRON_COMPANY_ID.
  pose proof (get_range buffer 0). pose proof (get_range buffer (0 + 1)).
  change (0 + 1) with 1 in *.
  destruct (Z.eqb_spec (Buffer.get buffer 0 + 256 * Buffer.get buffer 1) 0x020e),
           (Z.eqb_spec (Buffer.get buffer 0) 0x0e),
           (Z.eqb_spec (Buffer.get buffer 1) 0x02),
           (Z.eqb_spec (Buffer.get buffer 2) 0x01); cbn; lia || reflexivity.
Qed.

(** The body of the [try], case by case. *)
Lemma parseOmronManufacturerData_try_cases (buffer : Buffer.t) :
  if Buffer.length buffer <? 3 then
    parseOmronManufacturerData_try buffer = Throw RangeError
  else if negb (omronHeader buffer) then
    parseOmronManufacturerData_try buffer = Ok None
  else if Buffer.length buffer <? announcedLength buffer then
    parseOmronManufacturerData_try buffer = Throw RangeError
  else
    exists us,
      parseOmronManufacturerData_try buffer
      = Ok (Some {| pairable := Z.testbit (Buffer.get buffer 3) 3;
                    timeNotConfigured := Z.testbit (Buffer.get buffer 3) 2;
                    numberOfUsers := Buffer.get buffer 3 mod 4 + 1;
                    users := us |})
      /\ Z.of_nat (List.length us) = Buffer.get buffer 3 mod 4 + 1.
Proof.
  unfold parseOmronManufacturerData_try.
  pose proof (length_nonneg buffer) as Hnn.
  destruct (Z.ltb_spec (Buffer.length buffer) 3) as [Hshort|Hlong].
  - destruct (Z.ltb_spec (Buffer.length buffer) 2).
    + rewrite readUInt16LE_throw by lia. reflexivity.
    + rewrite readUInt16LE_ok, readUInt8_throw by lia. reflexivity.
  - rewrite readUInt16LE_ok, readUInt8_ok by lia. cbn [bind].
    rewrite header_test.
    destruct (negb (omronHeader buffer)); [reflexivity|].
    unfold announcedLength.
    pose proof (get_range buffer 3) as Hflags.
    assert (Hn : Z.land (Buffer.get buffer 3) 3 = Buffer.get buffer 3 mod 4)
      by (change 3 with (2 ^ 2 - 1) at 2; rewrite land_ones_mod by lia; reflexivity).
    destruct (Z.ltb_spec (Buffer.length buffer) (4 + 3 * (Buffer.get buffer 3 mod 4 + 1)))
      as [Htrunc|Hfull].
    + destruct (Z.ltb_spec (Buffer.length buffer) 4).
      * rewrite readUInt8_throw by lia. reflexivity.
      * rewrite readUInt8_ok by lia. cbn [bind]. rewrite Hn.
        rewrite readUsers_throw by lia. reflexivity.
    + rewrite readUInt8_ok by lia. cbn [bind]. rewrite Hn.
      destruct (readUsers_ok buffer (Z.to_nat (Buffer.get buffer 3 mod 4 + 1)) 0 4
                  ltac:(lia) ltac:(lia)) as (us & -> & Hus).
      cbn [bind]. exists us. split; [|lia].
      change 8 with (2 ^ 3). change 4 with (2 ^ 2) at 1.
      rewrite <- !truthy_land_pow2 by lia. reflexivity.
Qed.

(** C7, as stated, at an advertisement of another vendor: the result is
    absent, and nothing is logged. *)
Lemma foreign_advertisement_is_not_logged :
  let st := scanDevices DEFAULT_OPTIONS (mount Sample.manager) in
  let r := parseOmronManufacturerData DEFAULT_OPTIONS "TAACFQ==" st in
  Buffer.from_base64 "TAACFQ==" = [x4c; x00; x02; x15]
  /\ fst r = None
  /\ snd r = st
  /\ logs (snd r) = [LogStartingScan]
  /\ (forall e, ~ In (LogParseError e) (logs (snd r))).
Proof.
  cbv zeta. repeat split.
  intros e [H|[]]. discriminate H.
Qed.

(** C7 (amended).  [parseOmronManufacturerData] answers every string, and
    never by raising.  Where the decoded bytes are fewer than three, or
    bear the Omron header and are fewer than the flags byte announces, the
    result is absent and one entry, the range error, is added to the log.
    Where three bytes or more do not bear the Omron header the result is
    absent and the state, the log included, is left as it was.  Otherwise
    the result is present.  A scan result whose advertisement gives an
    absent result leaves the registry as it was. *)
Theorem parseOmronManufacturerData_answers_every_payload
  (options : UseOmronBluetoothOptions) (base64Data : string) (st : HookState) :
  let buffer := Buffer.from_base64 base64Data in
  let r := parseOmronManufacturerData options base64Data st in
  (if Buffer.length buffer <? 3 then
     r = (None, addLog options (LogParseError RangeError) st)
   else if negb (omronHeader buffer) then
     r = (None, st)
   else if Buffer.length buffer <? announcedLength buffer then
     r = (None, addLog options (LogParseError RangeError) st)
   else
     exists info,
       r = (Some info, st)
       /\ numberOfUsers info = Buffer.get buffer 3 mod 4 + 1
       /\ Z.of_nat (List.length (users info)) = numberOfUsers info)
  /\ (fst r = None ->
      forall device : Device,
        nonEmpty (manufacturerData device) = Some base64Data ->
        devices (scanListener options None (Some device) st) = devices st).
Proof.
  cbv zeta. split.
  - unfold parseOmronManufacturerData.
    pose proof (parseOmronManufacturerData_try_cases (Buffer.from_base64 base64Data)) as H.
    destruct (Buffer.length _ <? 3); [rewrite H; reflexivity|].
    destruct (negb (omronHeader _)); [rewrite H; reflexivity|].
    destruct (Buffer.length _ <? announcedLength _); [rewrite H; reflexivity|].
    destruct H as (us & -> & Hus). eexists. split; [reflexivity|]. split; [reflexivity|exact Hus].
  - intros Hnone device Hdata.
    unfold scanListener. rewrite Hdata.
    assert (Hst : devices (snd (parseOmronManufacturerData options base64Data st)) = devices st)
      by (unfold parseOmronManufacturerData;
          destruct (parseOmronManufacturerData_try _); reflexivity).
    destruct (parseOmronManufacturerData options base64Data st) as [[parsed|] st1];
      cbn [fst snd] in *; [discriminate|exact Hst].
Qed.

Lemma parseOmronManufacturerData_answers_every_payload_witness :
  let st := scanDevices DEFAULT_OPTIONS (mount Sample.manager) in
  Buffer.from_base64 "DgIBCQUAAwIA" = [x0e; x02; x01; x09; x05; x00; x03; x02; x00]
  /\ parseOmronManufacturerData DEFAULT_OPTIONS "DgIBCQUAAwIA" st
     = (None, addLog DEFAULT_OPTIONS (LogParseError RangeError) st)
  /\ devices (scanListener DEFAULT_OPTIONS None
                (Some {| id := "A0:11"; name := None;
                         manufacturerData := Some "DgIBCQUAAwIA";
                         services := Ok [];
                         discoverAllServicesAndCharacteristics := Ok tt |}) st)
     = devices st.
Proof.
  cbv zeta. split; [reflexivity|].
  destruct (parseOmronManufacturerData_answers_every_payload DEFAULT_OPTIONS "DgIBCQUAAwIA"
              (scanDevices DEFAULT_OPTIONS (mount Sample.manager))) as (Hcases & Hregistry).
  split; [exact Hcases|].
  apply Hregistry; reflexivity.
Defined.

(** ** Measurement payloads *)

Lemma readSFloat_ok {engine : Engine} (buffer : Buffer.t) (offset : Z) :
  0 <= offset -> offset + 2 <= Buffer.length buffer ->
  readSFloat buffer offset = Ok (sfloat_value (le16 buffer offset), offset + 2).
Proof.
  intros H0 H1. apply readSFloat_value, readUInt16LE_ok; assumption.
Qed.

Lemma readSFloat_throw {engine : Engine} (buffer : Buffer.t) (offset : Z) :
  Buffer.length buffer < offset + 2 ->
  readSFloat buffer offset = Throw RangeError.
Proof.
  intros H. unfold readSFloat. rewrite readUInt16LE_throw by exact H. reflexivity.
Qed.

(** Decide the next read of a decoder by the length of the buffer. *)
Ltac read_step :=
  match goal with
  | |- context [Buffer.readUInt8 ?b ?k] =>
      destruct (Z.ltb_spec (Buffer.length b) (k + 1));
      [ rewrite (readUInt8_throw b k) by lia
      | rewrite (readUInt8_ok b k) by lia ]
  | |- context [Buffer.readUInt16LE ?b ?k] =>
      destruct (Z.ltb_spec (Buffer.length b) (k + 2));
      [ rewrite (readUInt16LE_throw b k) by lia
      | rewrite (readUInt16LE_ok b k) by lia ]
  | |- context [readSFloat ?b ?k] =>
      destruct (Z.ltb_spec (Buffer.length b) (k + 2));
      [ rewrite (readSFloat_throw b k) by lia
      | rewrite (readSFloat_ok b k) by lia ]
  end;
  cbn [bind fst snd].

Lemma readDateTime_cases (buffer : Buffer.t) (offset : Z) :
  0 <= offset ->
  readDateTime buffer offset
  = if Buffer.length buffer <? offset + 7 then Throw RangeError
    else Ok (DateOf (le16 buffer offset)
                    (Buffer.get buffer (offset + 2) - 1)
                    (Buffer.get buffer (offset + 3))
                    (Buffer.get buffer (offset + 4))
                    (Buffer.get buffer (offset + 5))
                    (Buffer.get buffer (offset + 6))).
Proof.
  intros H0. unfold readDateTime.
  destruct (Z.ltb_spec (Buffer.length buffer) (offset + 7));
    repeat (read_step; try lia; try reflexivity).
Qed.

Lemma truthy_bit0 (flags : Z) : truthy (Z.land flags 0x01) = Z.testbit flags 0.
Proof. exact (truthy_land_pow2 flags 0 ltac:(lia)). Qed.

Lemma truthy_bit1 (flags : Z) : truthy (Z.land flags 0x02) = Z.testbit flags 1.
Proof. exact (truthy_land_pow2 flags 1 ltac:(lia)). Qed.

Lemma truthy_bit2 (flags : Z) : truthy (Z.land flags 0x04) = Z.testbit flags 2.
Proof. exact (truthy_land_pow2 flags 2 ltac:(lia)). Qed.

Lemma truthy_bit5 (flags : Z) : truthy (Z.land flags 0x20) = Z.testbit flags 5.
Proof. exact (truthy_land_pow2 flags 5 ltac:(lia)). Qed.

(** Decide the length test on the right of a decoder's equation. *)
Ltac need_step :=
  match goal with
  | |- _ = (if ?l <? ?n then _ else _) => destruct (Z.ltb_spec l n)
  end.

(** What [parseBloodPressureData] answers, for every buffer. *)
Lemma parseBloodPressureData_cases {engine : Engine} (buffer : Buffer.t) (now : Z) :
  let flags := Buffer.get buffer 0 in
  let hasTime := Z.testbit flags 1 in
  let hasPulse := Z.testbit flags 2 in
  parseBloodPressureData buffer now
  = if Buffer.length buffer <? 7 + (if hasTime then 7 else 0) + (if hasPulse then 2 else 0)
    then Throw RangeError
    else Ok {| systolic := sfloat_value (le16 buffer 1);
               diastolic := sfloat_value (le16 buffer 3);
               meanArterialPressure := sfloat_value (le16 buffer 5);
               pulse := if hasPulse
                        then Some (sfloat_value (le16 buffer (if hasTime then 14 else 7)))
                        else None;
               bp_timestamp :=
                 if hasTime
                 then DateOf (le16 buffer 7) (Buffer.get buffer 9 - 1) (Buffer.get buffer 10)
                             (Buffer.get buffer 11) (Buffer.get buffer 12) (Buffer.get buffer 13)
                 else DateNow now;
               bp_unit := mmHg |}.
Proof.
  cbv zeta. unfold parseBloodPressureData.
  destruct (Z.ltb_spec (Buffer.length buffer) 1) as [Hempty|Hflags].
  - rewrite readUInt8_throw by lia. cbn [bind].
    need_step; [reflexivity|].
    destruct (Z.testbit _ 1), (Z.testbit _ 2); lia.
  - rewrite readUInt8_ok by lia. cbn [bind].
    rewrite truthy_bit1, truthy_bit2.
    do 3 (read_step;
          [need_step; [reflexivity|destruct (Z.testbit _ 1), (Z.testbit _ 2); lia]|]).
    destruct (Z.testbit (Buffer.get buffer 0) 1), (Z.testbit (Buffer.get buffer 0) 2);
      rewrite ?readDateTime_cases by lia;
      need_step;
      repeat match goal with
             | |- context [if ?l <? ?n then _ else _] => destruct (Z.ltb_spec l n); try lia
             end;
      cbn [bind fst snd];
      repeat (read_step; try lia); try lia; reflexivity.
Qed.

Lemma readFloatLE_ok (buffer : Buffer.t) (offset : Z) :
  0 <= offset -> offset + 4 <= Buffer.length buffer ->
  Buffer.readFloatLE buffer offset = Ok (Buffer.float_of_bits32 (le32 buffer offset)).
Proof.
  intros H0 H1. unfold Buffer.readFloatLE, le32.
  rewrite checkOffset_ok by assumption. cbn [bind]. do 2 f_equal.
  pose proof (get_range buffer offset). pose proof (get_range buffer (offset + 1)).
  pose proof (get_range buffer (offset + 2)). pose proof (get_range buffer (offset + 3)).
  rewrite (lor_shiftl_add _ _ 8) by lia.
  rewrite !Z.shiftl_mul_pow2 by lia.
  rewrite (Z.lor_comm (_ * 2 ^ 16)).
  rewrite (lor_disjoint_add _ (Buffer.get buffer (offset + 2) * 2 ^ 16) 24) by lia.
  rewrite Z.lor_comm.
  rewrite (lor_disjoint_add _ (Buffer.get buffer offset + Buffer.get buffer (offset + 1) * 2 ^ 8) 16)
    by lia.
  lia.
Qed.

Lemma readFloatLE_throw (buffer : Buffer.t) (offset : Z) :
  Buffer.length buffer < offset + 4 ->
  Buffer.readFloatLE buffer offset = Throw RangeError.
Proof.
  intros. unfold Buffer.readFloatLE. rewrite checkOffset_throw by assumption. reflexivity.
Qed.

(** *** Binary32

    [readFloatLE] builds its result from the three fields of the word by
    [Z.ldexp]; the library's specification of the double operations gives
    the number that result stands for, which is compared with the reading
    of the word that IEEE 754 prescribes. *)

Lemma digits2_pos_iter (m p : positive) :
  digits2_pos (Pos.iter xO m p) = (digits2_pos m + p)%positive.
Proof.
  induction p as [|p IH] using Pos.peano_ind.
  - cbn. lia.
  - rewrite Pos.iter_succ. cbn [digits2_pos]. rewrite IH. lia.
Qed.

Lemma Zpos_iter (m p : positive) : Zpos (Pos.iter xO m p) = Zpos m * 2 ^ Zpos p.
Proof.
  induction p as [|p IH] using Pos.peano_ind.
  - cbn. lia.
  - rewrite Pos.iter_succ, Pos2Z.inj_succ, Z.pow_succ_r by lia.
    rewrite Pos2Z.inj_xO, IH. lia.
Qed.

Lemma digits2_pos_bound (m : positive) (k : Z) :
  0 <= k -> Zpos m < 2 ^ k -> Zpos (digits2_pos m) <= k.
Proof.
  revert k. induction m as [m IH|m IH|]; intros k Hk Hm.
  - assert (k <> 0) by (intros ->; cbn in Hm; lia).
    cbn [digits2_pos]. rewrite Pos2Z.inj_succ.
    specialize (IH (k - 1) ltac:(lia)).
    replace k with (Z.succ (k - 1)) in Hm by lia. rewrite Z.pow_succ_r in Hm by lia.
    lia.
  - assert (k <> 0) by (intros ->; cbn in Hm; lia).
    cbn [digits2_pos]. rewrite Pos2Z.inj_succ.
    specialize (IH (k - 1) ltac:(lia)).
    replace k with (Z.succ (k - 1)) in Hm by lia. rewrite Z.pow_succ_r in Hm by lia.
    lia.
  - assert (k <> 0) by (intros ->; cbn in Hm; lia). cbn. lia.
Qed.

Lemma fexp_normal (x : Z) : -1074 <= x - 53 -> fexp prec emax x = x - 53.
Proof. intros H. unfold fexp, SpecFloat.emin, prec, emax. lia. Qed.

Lemma binary_round_aux_canonical (s : bool) (m : positive) (e : Z) :
  Zpos (digits2_pos m) = 53 -> -1074 <= e <= 971 ->
  binary_round_aux prec emax s (Zpos m) e loc_Exact = S754_finite s m e.
Proof.
  intros Hd He.
  assert (Hs : shr_fexp prec emax (Zpos m) e loc_Exact
               = ({| shr_m := Zpos m; shr_r := false; shr_s := false |}, e)).
  { unfold shr_fexp. cbn [Zdigits2]. rewrite Hd, fexp_normal by lia.
    replace (53 + e - 53 - e) with 0 by lia. reflexivity. }
  unfold binary_round_aux. rewrite Hs. cbn [shr_m loc_of_shr_record round_nearest_even].
  rewrite Hs. cbn [shr_m].
  destruct (Z.leb_spec e (emax - prec)) as [_|H]; [reflexivity|].
  unfold emax, prec in H. lia.
Qed.

Lemma binary_round_exact (s : bool) (m : positive) (e : Z) :
  let d := Zpos (digits2_pos m) in
  d <= 53 -> -1074 <= d + e - 53 -> d + e <= 1024 ->
  exists mz, binary_round prec emax s m e = S754_finite s mz (d + e - 53)
             /\ Zpos mz = Zpos m * 2 ^ (53 - d)
             /\ Zpos (digits2_pos mz) = 53.
Proof.
  intros d Hd Hlo Hhi. unfold binary_round.
  fold d. rewrite fexp_normal by lia. unfold shl_align.
  destruct (d + e - 53 - e) as [|p|p] eqn:E.
  - exists m. rewrite binary_round_aux_canonical by (fold d; lia).
    replace (53 - d) with 0 by lia. replace (d + e - 53) with e by lia.
    repeat split; fold d; lia.
  - lia.
  - exists (Pos.iter xO m p).
    assert (Hdig : Zpos (digits2_pos (Pos.iter xO m p)) = 53)
      by (rewrite digits2_pos_iter, Pos2Z.inj_add; fold d; lia).
    rewrite binary_round_aux_canonical by (try exact Hdig; lia).
    repeat split; [|exact Hdig].
    rewrite Zpos_iter. f_equal. f_equal. lia.
Qed.

(** The double [m * 2^e], for a mantissa of at most 24 bits and an
    exponent in the range of binary32: it is finite, positive, and the
    library reads it as a 53-bit mantissa [m * 2^k] with the exponent
    [e - k]. *)
Lemma Prim2SF_ldexp (m : positive) (e : Z) :
  Zpos m < 2 ^ 24 -> -149 <= e <= 104 ->
  exists mz k, Prim2SF (Z.ldexp (number_of_Z (Zpos m)) e) = S754_finite false mz (e - k)
               /\ Zpos mz = Zpos m * 2 ^ k /\ 0 <= k <= 53.
Proof.
  intros Hm He.
  pose proof (digits2_pos_bound m 24 ltac:(lia) Hm) as Hd.
  pose proof (Pos2Z.is_pos (digits2_pos m)) as Hd0.
  unfold number_of_Z. change (Zpos m <? 0) with false. cbv iota.
  rewrite Z_ldexp_spec, of_uint63_spec, Uint63.of_Z_spec.
  rewrite Z.mod_small by (change wB with (2 ^ 63); change (2 ^ 24) with 16777216 in Hm;
                          change (2 ^ 63) with 9223372036854775808; lia).
  cbn [binary_normalize].
  destruct (binary_round_exact false m 0) as (m1 & E1 & V1 & D1); try lia.
  rewrite E1. cbn [SFldexp].
  destruct (binary_round_exact false m1 (Z.pos (digits2_pos m) + 0 - 53 + e))
    as (m2 & E2 & V2 & D2); try lia.
  rewrite E2. exists m2, (53 - Zpos (digits2_pos m)). split; [|split; [|lia]].
  - f_equal. lia.
  - rewrite V2, V1, D1. replace (53 - 53) with 0 by lia. lia.
Qed.

Lemma exact_value_ldexp (negative : bool) (mant e : Z) :
  0 < mant < 2 ^ 24 -> -149 <= e <= 104 ->
  let f := Z.ldexp (number_of_Z mant) e in
  same_number (exact_value (if negative then PrimFloat.opp f else f))
              (Fraction ((if negative then - mant else mant) * 2 ^ (e + 150)) (2 ^ 150))
  = true.
Proof.
  intros Hmant He. cbv zeta.
  destruct mant as [|m|m]; try lia.
  destruct (Prim2SF_ldexp m e (proj2 Hmant) He) as (mz & k & Hf & Hmz & Hk).
  assert (Hsf : Prim2SF (if negative then PrimFloat.opp (Z.ldexp (number_of_Z (Zpos m)) e)
                         else Z.ldexp (number_of_Z (Zpos m)) e)
                = S754_finite negative mz (e - k)).
  { destruct negative; [rewrite FloatAxioms.opp_spec, Hf; reflexivity|exact Hf]. }
  unfold exact_value. rewrite Hsf.
  assert (Hn : (if negative then Z.neg mz else Z.pos mz)
               = (if negative then - Zpos m else Zpos m) * 2 ^ k).
  { destruct negative; [rewrite <- Pos2Z.opp_pos|]; lia. }
  rewrite Hn. generalize (if negative then - Zpos m else Zpos m). intros n.
  destruct (Z.leb_spec 0 (e - k)); cbn [same_number]; apply Z.eqb_eq.
  - rewrite Z.mul_1_r, <- !Z.mul_assoc, <- !Z.pow_add_r by lia.
    do 2 f_equal. lia.
  - rewrite <- !Z.mul_assoc, <- !Z.pow_add_r by lia.
    do 2 f_equal. lia.
Qed.

Lemma testbit_31 (w : Z) :
  0 <= w < 2 ^ 32 -> ((w / 2 ^ 31) mod 2 =? 1) = Z.testbit w 31.
Proof.
  intros Hw. rewrite <- (Z.testbit_spec' w 31) by lia.
  destruct (Z.testbit w 31); reflexivity.
Qed.

(** The double that [readFloatLE] builds from a word is the number that
    IEEE 754 gives the word as a binary32. *)
Lemma float_of_bits32_binary32 (w : Z) :
  0 <= w < 2 ^ 32 ->
  same_number (exact_value (Buffer.float_of_bits32 w)) (binary32 w) = true.
Proof.
  intros Hw. unfold Buffer.float_of_bits32, binary32. cbv zeta.
  rewrite testbit_31 by exact Hw.
  set (E := (w / 2 ^ 23) mod 2 ^ 8). set (T := w mod 2 ^ 23).
  replace (Z.land (Z.shiftr w 23) 255) with E
    by (rewrite Z.shiftr_div_pow2 by lia; symmetry; apply (land_ones_mod _ 8); lia).
  replace (Z.land w 8388607) with T by (symmetry; apply (land_ones_mod _ 23); lia).
  assert (HE : 0 <= E < 256) by (subst E; change (2 ^ 8) with 256; lia).
  assert (HT : 0 <= T < 8388608) by (subst T; change (2 ^ 23) with 8388608; lia).
  clearbody E T. change (2 ^ 23) with 8388608.
  destruct (Z.eqb_spec E 255) as [_|HE255].
  - destruct (Z.eqb_spec T 0) as [_|_]; destruct (Z.testbit w 31); reflexivity.
  - destruct (Z.eqb_spec E 0) as [HE0|HE0].
    + destruct (Z.eqb_spec T 0) as [->|HT0].
      * destruct (Z.testbit w 31); reflexivity.
      * pose proof (exact_value_ldexp (Z.testbit w 31) T (-149)
                      ltac:(change (2 ^ 24) with 16777216; lia) ltac:(lia)) as H.
        cbv zeta in H. cbn [same_number] in *.
        destruct (exact_value _) as [| | |a b]; try discriminate.
        apply Z.eqb_eq in H. apply Z.eqb_eq.
        change (-149 + 150) with 1 in H. change (2 ^ 150) with (2 * 2 ^ 149) in H.
        destruct (Z.testbit w 31); lia.
    + pose proof (exact_value_ldexp (Z.testbit w 31) (8388608 + T) (E - 150)
                    ltac:(change (2 ^ 24) with 16777216; lia) ltac:(lia)) as H.
      cbv zeta in H. replace (E - 150 + 150) with E in H by lia.
      destruct (Z.testbit w 31); rewrite ?Z.mul_opp_l in H; exact H.
Qed.

Lemma le32_range (buffer : Buffer.t) (offset : Z) : 0 <= le32 buffer offset < 2 ^ 32.
Proof.
  unfold le32. change (2 ^ 32) with 4294967296.
  pose proof (get_range buffer offset). pose proof (get_range buffer (offset + 1)).
  pose proof (get_range buffer (offset + 2)). pose proof (get_range buffer (offset + 3)).
  lia.
Qed.

(** What [parseBodyCompositionData] answers, for every buffer. *)
Lemma parseBodyCompositionData_cases (buffer : Buffer.t) (now : Z) :
  let flags := le16 buffer 0 in
  let hasFat := Z.testbit flags 1 in
  let hasMuscle := Z.testbit flags 5 in
  parseBodyCompositionData buffer now
  = if Buffer.length buffer <? 2 + (if hasFat then 2 else 0) + (if hasMuscle then 2 else 0)
    then Throw RangeError
    else Ok {| bc_timestamp := DateNow now;
               bodyFatPercentage :=
                 if hasFat
                 then Some (PrimFloat.div (number_of_Z (le16 buffer 2)) 10%float)
                 else None;
               muscleMass :=
                 if hasMuscle
                 then Some (PrimFloat.div
                              (number_of_Z (le16 buffer (if hasFat then 4 else 2))) 10%float)
                 else None |}.
Proof.
  cbv zeta. unfold parseBodyCompositionData.
  destruct (Z.ltb_spec (Buffer.length buffer) 2) as [Hshort|Hflags].
  - rewrite readUInt16LE_throw by lia. cbn [bind].
    need_step; [reflexivity|].
    destruct (Z.testbit _ 1), (Z.testbit _ 5); lia.
  - rewrite readUInt16LE_ok by lia. cbn [bind].
    rewrite truthy_bit1, truthy_bit5.
    destruct (Z.testbit (le16 buffer 0) 1), (Z.testbit (le16 buffer 0) 5);
      need_step; cbn [bind fst snd];
      repeat (read_step; try lia); try lia; reflexivity.
Qed.

(** C8.  In a decoded measurement an optional field is present exactly
    when its flag bit is set in the payload, and is read where the fields
    before it, each present by its own bit, have left the offset: the
    blood-pressure pulse is there iff bit 2 of the flags byte is set and is
    the SFLOAT after the three pressures and after the timestamp that bit 1
    announces; the body-fat percentage is there iff bit 1 of the 16-bit
    flags is set and is the word at offset 2 over ten; the muscle mass is
    there iff bit 5 is set and is the next word over ten. *)
Theorem optional_fields_follow_flag_bits {engine : Engine} (buffer : Buffer.t) (now : Z) :
  (forall m : BloodPressureMeasurement,
      parseBloodPressureData buffer now = Ok m ->
      let flags := Buffer.get buffer 0 in
      (pulse m <> None <-> Z.testbit flags 2 = true)
      /\ pulse m
         = if Z.testbit flags 2
           then Some (sfloat_value (le16 buffer (if Z.testbit flags 1 then 14 else 7)))
           else None)
  /\ (forall m : BodyCompositionMeasurement,
         parseBodyCompositionData buffer now = Ok m ->
         let flags := le16 buffer 0 in
         (bodyFatPercentage m <> None <-> Z.testbit flags 1 = true)
         /\ (muscleMass m <> None <-> Z.testbit flags 5 = true)
         /\ bodyFatPercentage m
            = (if Z.testbit flags 1
               then Some (PrimFloat.div (number_of_Z (le16 buffer 2)) 10%float)
               else None)
         /\ muscleMass m
            = (if Z.testbit flags 5
               then Some (PrimFloat.div
                            (number_of_Z (le16 buffer (if Z.testbit flags 1 then 4 else 2)))
                            10%float)
               else None)).
Proof.
  split.
  - intros m Hm. rewrite parseBloodPressureData_cases in Hm. cbv zeta in *.
    destruct (Z.testbit (Buffer.get buffer 0) 1), (Z.testbit (Buffer.get buffer 0) 2);
      (destruct (Buffer.length buffer <? _); [discriminate|]);
      injection Hm as Hm; subst m; cbn [pulse];
      repeat split; congruence.
  - intros m Hm. rewrite parseBodyCompositionData_cases in Hm. cbv zeta in *.
    destruct (Z.testbit (le16 buffer 0) 1), (Z.testbit (le16 buffer 0) 5);
      (destruct (Buffer.length buffer <? _); [discriminate|]);
      injection Hm as Hm; subst m; cbn [bodyFatPercentage muscleMass];
      repeat split; congruence.
Qed.

Lemma optional_fields_follow_flag_bits_witness :
  (exists m, parseBloodPressureData (engine := Engines.correctly_rounded)
               Sample.bloodPressurePayload 1000 = Ok m
             /\ pulse m = Some 72%float)
  /\ (exists m, parseBodyCompositionData [x20; x00; x2c; x01] 1000 = Ok m
                /\ bodyFatPercentage m = None
                /\ muscleMass m = Some 30%float).
Proof.
  split.
  - eexists. split; [reflexivity|].
    exact (proj2 (proj1 (optional_fields_follow_flag_bits
                           (engine := Engines.correctly_rounded)
                           Sample.bloodPressurePayload 1000)
                    _ eq_refl)).
  - eexists. split; [reflexivity|].
    pose proof (proj2 (optional_fields_follow_flag_bits
                         (engine := Engines.correctly_rounded) [x20; x00; x2c; x01] 1000)
                  _ eq_refl) as (_ & _ & Hfat & Hmuscle).
    split; [exact Hfat|exact Hmuscle].
Defined.

(** C9.  For every buffer, [parseTemperatureData] reads the flags at byte
    0 and the binary32 value of the little-endian word at bytes 1 to 4:
    the double it takes as the raw value is the number that IEEE 754 gives
    that word, sign, biased exponent and trailing significand, or the
    infinity or NaN the word encodes.  With bit 0 of the flags set the
    value is stored as it is, with bit 0 clear it is stored as
    (raw - 32) * 5 / 9 in double arithmetic, and the unit is Celsius either
    way.  With bit 1 set the seven bytes from offset 5 are read as the
    timestamp (year as a little-endian word, the month turned into a month
    index), with bit 1 clear the timestamp is the capture time.  A buffer
    shorter than the five bytes, or the twelve with a timestamp, makes the
    decoder throw the range error. *)
Theorem parseTemperatureData_decodes (buffer : Buffer.t) (now : Z) :
  let flags := Buffer.get buffer 0 in
  let word := le32 buffer 1 in
  let raw := Buffer.float_of_bits32 word in
  parseTemperatureData buffer now
  = (if Buffer.length buffer <? (if Z.testbit flags 1 then 12 else 5)
     then Throw RangeError
     else Ok {| temperature :=
                  if Z.testbit flags 0 then raw
                  else PrimFloat.div (PrimFloat.mul (PrimFloat.sub raw 32%float) 5%float)
                                     9%float;
                temperature_timestamp :=
                  if Z.testbit flags 1
                  then DateOf (le16 buffer 5) (Buffer.get buffer 7 - 1) (Buffer.get buffer 8)
                              (Buffer.get buffer 9) (Buffer.get buffer 10) (Buffer.get buffer 11)
                  else DateNow now;
                temperature_unit := degC |})
  /\ same_number (exact_value raw) (binary32 word) = true.
Proof.
  cbv zeta. split; [|apply float_of_bits32_binary32, le32_range].
  unfold parseTemperatureData.
  destruct (Z.ltb_spec (Buffer.length buffer) 1) as [Hempty|Hflags].
  - rewrite readUInt8_throw by lia. cbn [bind].
    need_step; [reflexivity|]. destruct (Z.testbit _ 1); lia.
  - rewrite readUInt8_ok by lia. cbn [bind].
    rewrite truthy_bit0, truthy_bit1.
    destruct (Z.ltb_spec (Buffer.length buffer) 5) as [Hshort|Hraw].
    + rewrite readFloatLE_throw by lia. cbn [bind].
      need_step; [reflexivity|]. destruct (Z.testbit _ 1); lia.
    + rewrite readFloatLE_ok by lia. cbn [bind].
      destruct (Z.testbit (Buffer.get buffer 0) 1);
        rewrite ?readDateTime_cases by lia;
        need_step;
        repeat match goal with
               | |- context [if ?l <? ?n then _ else _] => destruct (Z.ltb_spec l n); try lia
               end;
        cbn [bind]; try lia; reflexivity.
Qed.

Lemma parseTemperatureData_decodes_witness :
  le32 [x00; x33; x33; xc5; x42] 1 = 0x42c53333
  /\ same_number (binary32 0x42c53333) (Fraction 12923699 (2 ^ 17)) = true
  /\ same_number (exact_value (Buffer.float_of_bits32 0x42c53333)) (binary32 0x42c53333)
     = true
  /\ parseTemperatureData [x00; x33; x33; xc5; x42] 1000
     = Ok {| temperature := 0x1.27ffff8e38e39p+5%float;
             temperature_timestamp := DateNow 1000;
             temperature_unit := degC |}
  /\ parseTemperatureData [x03; x00; x00; x14; x42; xe8; x07; x0b; x03; x09; x1e; x00] 1000
     = Ok {| temperature := 37%float;
             temperature_timestamp := DateOf 2024 10 3 9 30 0;
             temperature_unit := degC |}.
Proof.
  destruct (parseTemperatureData_decodes [x00; x33; x33; xc5; x42] 1000)
    as [Hfahrenheit Hnumber].
  split; [reflexivity|]. split; [reflexivity|]. split; [exact Hnumber|].
  split; [exact Hfahrenheit|].
  exact (proj1 (parseTemperatureData_decodes
                  [x03; x00; x00; x14; x42; xe8; x07; x0b; x03; x09; x1e; x00] 1000)).
Defined.

(** ** The spot-check characteristic *)

Lemma spot_check_dispatch {engine : Engine}
  (characteristicUUID : string) (buffer : Buffer.t) (now : Z) :
  toUpperCase characteristicUUID = CHARACTERISTICS.OMRON_PLX_SPOT_CHECK ->
  parseMeasurementData_try characteristicUUID buffer now = Ok None.
Proof.
  intros Hu. unfold parseMeasurementData_try. rewrite Hu. reflexivity.
Qed.

(** C10.  For a characteristic whose UUID, in upper case, is the
    spot-check UUID: the subscription filter accepts it, so that service
    discovery attaches a notification handler to it; the dispatcher has no
    branch for it and answers every payload with an absent result, without
    a log entry; and whatever a notification on it carries, the accumulated
    measurements stay as they were. *)
Theorem spot_check_notifications_add_nothing {engine : Engine}
  (options : UseOmronBluetoothOptions) (characteristic : Characteristic) (st : HookState) :
  toUpperCase (uuid characteristic) = CHARACTERISTICS.OMRON_PLX_SPOT_CHECK ->
  isMeasurementCharacteristic (uuid characteristic) = true
  /\ trace (snd (subscribeServices options [{| characteristics := Ok [characteristic] |}] st))
     = trace st ++ [CallMonitor (uuid characteristic)]
  /\ (forall (payload : string) (now : Z),
         parseMeasurementData options (uuid characteristic) payload now st = (None, st))
  /\ (forall (error : option Error) (value : option string) (now : Z),
         measurementData (notificationListener options characteristic error value now st)
         = measurementData st).
Proof.
  intros Hu.
  assert (Hfilter : isMeasurementCharacteristic (uuid characteristic) = true)
    by (unfold isMeasurementCharacteristic; rewrite Hu; reflexivity).
  assert (Hparse : forall payload now s,
             parseMeasurementData options (uuid characteristic) payload now s = (None, s))
    by (intros; unfold parseMeasurementData; rewrite spot_check_dispatch by exact Hu;
        reflexivity).
  split; [exact Hfilter|]. split; [|split].
  - cbn [subscribeServices characteristics fold_left]. rewrite Hfilter.
    unfold setupNotification. cbv zeta.
    destruct (monitor characteristic); reflexivity.
  - intros payload now. apply Hparse.
  - intros error value now. unfold notificationListener.
    destruct error; [reflexivity|].
    destruct (nonEmpty value); [|reflexivity].
    rewrite Hparse. reflexivity.
Qed.

Lemma spot_check_notifications_add_nothing_witness :
  let st := connectToDevice DEFAULT_OPTIONS Sample.monitorA (mount Sample.manager) in
  isMeasurementCharacteristic (uuid Sample.spotCheckChar) = true
  /\ In (CallMonitor (uuid Sample.spotCheckChar)) (trace st)
  /\ measurementData
       (notificationListener (engine := Engines.correctly_rounded)
          DEFAULT_OPTIONS Sample.spotCheckChar None
          (Some "BngAUABdAOgHCwMJAABIAA==") 1000 st) = [].
Proof.
  cbv zeta.
  destruct (spot_check_notifications_add_nothing (engine := Engines.correctly_rounded)
              DEFAULT_OPTIONS Sample.spotCheckChar
              (connectToDevice DEFAULT_OPTIONS Sample.monitorA (mount Sample.manager))
              eq_refl) as (Hfilter & _ & _ & Hdata).
  split; [exact Hfilter|]. split.
  - vm_compute. tauto.
  - rewrite Hdata. reflexivity.
Defined.

(** ** The properties at concrete inputs *)

Lemma parseOmronManufacturerData_encode_roundtrip_witness :
  validAdvertisingInfo Sample.info = true
  /\ encodeAdvertising Sample.info = Sample.advertisement
  /\ Buffer.toString_base64 Sample.advertisement = "DgIBCQUAAwIAAQ=="
  /\ parseOmronManufacturerData DEFAULT_OPTIONS
       (Buffer.toString_base64 (encodeAdvertising Sample.info)) (mount Sample.manager)
     = (Some Sample.info, mount Sample.manager).
Proof.
  split; [reflexivity|]. split; [reflexivity|]. split; [reflexivity|].
  exact (proj2 (parseOmronManufacturerData_encode_roundtrip DEFAULT_OPTIONS Sample.info
                  (mount Sample.manager) eq_refl)).
Defined.

Lemma handleRACPResponse_number_of_stored_records_witness :
  let st := connectToDevice DEFAULT_OPTIONS Sample.monitorA (mount Sample.manager) in
  Buffer.from_base64 "BQADAA==" = [x05; x00; x03; x00]
  /\ trace (handleRACPResponse DEFAULT_OPTIONS Sample.monitorA "BQADAA==" Sample.racpChar st)
     = trace st ++ [CallWriteWithResponse (uuid Sample.racpChar) "AQE="]
  /\ Buffer.from_base64 "BQAAAA==" = [x05; x00; x00; x00]
  /\ handleRACPResponse DEFAULT_OPTIONS Sample.monitorA "BQAAAA==" Sample.racpChar st
     = addLog DEFAULT_OPTIONS (LogDeviceHasRecords 0) st.
Proof.
  cbv zeta. split; [reflexivity|]. split; [|split; [reflexivity|]].
  - refine (proj1 (proj1 (proj2 (handleRACPResponse_number_of_stored_records
                                   DEFAULT_OPTIONS Sample.monitorA "BQADAA==" Sample.racpChar
                                   _ eq_refl _)) _)).
    + vm_compute. discriminate.
    + reflexivity.
  - refine (proj1 (proj2 (proj2 (handleRACPResponse_number_of_stored_records
                                   DEFAULT_OPTIONS Sample.monitorA "BQAAAA==" Sample.racpChar
                                   _ eq_refl _)) _)).
    + vm_compute. discriminate.
    + reflexivity.
Defined.

(** The worked values of section 8 of the specification. *)

Example weight_raw_14500 :
  Buffer.readUInt16LE [x00; xa4; x38] 1 = Ok 14500
  /\ parseWeightData [x00; xa4; x38] 1000
     = Ok {| weight := 72.5%float; weight_timestamp := DateNow 1000; weight_unit := kg |}.
Proof. split; reflexivity. Qed.

Example temperature_98_6_fahrenheit :
  exists m,
    parseTemperatureData [x00; x33; x33; xc5; x42] 1000 = Ok m
    /\ temperature_unit m = degC
    /\ PrimFloat.ltb 36.9375%float (temperature m) = true
    /\ PrimFloat.ltb (temperature m) 37.0625%float = true.
Proof. eexists. repeat split. Qed.

Example binary32_words :
  Buffer.float_of_bits32 0x3f800000 = 1%float
  /\ Buffer.float_of_bits32 0xc0200000 = (-2.5)%float
  /\ Buffer.float_of_bits32 0x42140000 = 37%float
  /\ Buffer.float_of_bits32 0x00000001 = 0x1p-149%float
  /\ Buffer.float_of_bits32 0x7f800000 = PrimFloat.infinity
  /\ Buffer.float_of_bits32 0xff800000 = PrimFloat.neg_infinity
  /\ Buffer.float_of_bits32 0x7fc00000 = PrimFloat.nan.
Proof. repeat split. Qed.

(** The same words, read as IEEE 754 prescribes. *)
Example binary32_numbers :
  same_number (binary32 0x3f800000) (Fraction 1 1) = true
  /\ same_number (binary32 0xc0200000) (Fraction (-5) 2) = true
  /\ same_number (binary32 0x42140000) (Fraction 37 1) = true
  /\ same_number (binary32 0x00000001) (Fraction 1 (2 ^ 149)) = true
  /\ binary32 0x80000000 = Zero true
  /\ binary32 0x7f800000 = Infinite false
  /\ binary32 0xff800000 = Infinite true
  /\ binary32 0x7fc00000 = NotANumber.
Proof. repeat split. Qed.

(** Count response of three, three blood-pressure notifications, then the
    response code: three measurements accumulated, and the bulk request is
    the last write. *)
Example session_with_three_records :
  let st :=
    run (engine := Engines.correctly_rounded) DEFAULT_OPTIONS
      [ EvScanDevices;
        EvScanResult None (Some Sample.monitorA);
        EvConnectBegin Sample.monitorA;
        EvConnectSettle Sample.manager Sample.monitorA;
        EvRacpIndication Sample.monitorA Sample.racpChar None (Some "BQADAA==");
        EvNotification Sample.bloodPressureChar None (Some "BngAUABdAOgHCwMJAABIAA==") 1000;
        EvNotification Sample.bloodPressureChar None (Some "BngAUABdAOgHCwMJAABIAA==") 1001;
        EvNotification Sample.bloodPressureChar None (Some "BngAUABdAOgHCwMJAABIAA==") 1002;
        EvRacpIndication Sample.monitorA Sample.racpChar None (Some "BgABAQ==") ]
      (mount Sample.manager) in
  List.length (measurementData st) = 3%nat
  /\ connectionState st = "Connected"
  /\ last (trace st) CallDestroy
     = CallWriteWithResponse "00002a52-0000-1000-8000-00805f9b34fb" "AQE=".
Proof. cbv zeta. repeat split. Qed.

(** A second [disconnect] in a row is a no-op. *)
Example disconnect_twice :
  let st := disconnect DEFAULT_OPTIONS
              (connectToDevice DEFAULT_OPTIONS Sample.monitorA (mount Sample.manager)) in
  connectionState st = "Disconnected"
  /\ disconnect DEFAULT_OPTIONS st = st.
Proof. cbv zeta. split; vm_compute; reflexivity. Qed.

(** * Further properties of the hook *)

(** ** The activity log and the connection state *)

Lemma slice_from_end_length {A : Type} (k : Z) (l : list A) :
  0 < k -> Z.of_nat (List.length (slice_from_end k l)) <= k.
Proof.
  intros Hk. unfold slice_from_end.
  destruct (Z.eqb_spec k 0); [lia|]. rewrite length_skipn. lia.
Qed.

Lemma addLog_bounded (options : UseOmronBluetoothOptions) (message : LogMessage)
  (st : HookState) :
  2 <= logLimit options ->
  Z.of_nat (List.length (logs (addLog options message st))) <= logLimit options.
Proof.
  intros H2. unfold addLog. cbn [logs setLogs].
  rewrite List.length_app. cbn [List.length].
  pose proof (slice_from_end_length (Z.max (logLimit options - 1) 0) (logs st)) as H.
  lia.
Qed.

(** Projections through the setters, stopping at [addLog]. *)
Ltac through_setters :=
  cbn [logs connectionState setDevices setConnectedDevice setConnectionState
       setMeasurementData setManagerRef setScanTimeoutRef setSubscriptionsRef call].

Lemma addLog_connectionState (options : UseOmronBluetoothOptions) (message : LogMessage)
  (st : HookState) :
  connectionState (addLog options message st) = connectionState st.
Proof. reflexivity. Qed.

(** A state reached from one that satisfies the invariant by setters that
    leave the connection state alone and by [addLog]. *)
Ltac keep_invariant H :=
  destruct H as [Hlogs Hstate];
  split;
  [ intros H2; through_setters;
    first [ apply addLog_bounded; exact H2 | exact (Hlogs H2) ]
  | through_setters; rewrite ?addLog_connectionState; through_setters;
    rewrite ?addLog_connectionState; through_setters;
    first [ exact Hstate | cbn; tauto ] ].

Lemma addLog_invariant (options : UseOmronBluetoothOptions) (message : LogMessage)
  (st : HookState) :
  hookInvariant options st -> hookInvariant options (addLog options message st).
Proof. intros H. keep_invariant H. Qed.

Lemma stopScan_invariant (options : UseOmronBluetoothOptions) (st : HookState) :
  hookInvariant options st -> hookInvariant options (stopScan st).
Proof.
  intros [Hlogs Hstate]. destruct (stopScan_effect st) as (_ & _ & _ & Hc & _ & Hl & _).
  split; [rewrite Hl; exact Hlogs|rewrite Hc; exact Hstate].
Qed.

Lemma removeAllSubscriptions_invariant (options : UseOmronBluetoothOptions) (st : HookState) :
  hookInvariant options st -> hookInvariant options (removeAllSubscriptions st).
Proof.
  intros [Hlogs Hstate].
  destruct (removeAllSubscriptions_effect st) as (_ & _ & _ & _ & Hc & _ & Hl & _).
  split; [rewrite Hl; exact Hlogs|rewrite Hc; exact Hstate].
Qed.

Lemma scanDevices_invariant (options : UseOmronBluetoothOptions) (st : HookState) :
  hookInvariant options st -> hookInvariant options (scanDevices options st).
Proof.
  intros H. unfold scanDevices. destruct (managerRef st); [|exact H]. cbv zeta.
  assert (H1 : hookInvariant options
                 (stopScan (setDevices [] (addLog options LogStartingScan st))))
    by (apply stopScan_invariant; keep_invariant H).
  keep_invariant H1.
Qed.

Lemma parseOmronManufacturerData_invariant (options : UseOmronBluetoothOptions)
  (base64Data : string) (st : HookState) :
  hookInvariant options st ->
  hookInvariant options (snd (parseOmronManufacturerData options base64Data st)).
Proof.
  intros H. unfold parseOmronManufacturerData.
  destruct (parseOmronManufacturerData_try _); cbn [snd]; [exact H|keep_invariant H].
Qed.

Lemma scanListener_invariant (options : UseOmronBluetoothOptions)
  (error : option Error) (device : option Device) (st : HookState) :
  hookInvariant options st -> hookInvariant options (scanListener options error device st).
Proof.
  intros H. unfold scanListener.
  destruct error; [keep_invariant H|].
  destruct device as [sighted|]; [|exact H].
  destruct (nonEmpty (manufacturerData sighted)) as [data|]; [|exact H].
  pose proof (parseOmronManufacturerData_invariant options data st H) as H1.
  destruct (parseOmronManufacturerData options data st) as [[parsed|] st1];
    cbn [snd] in H1; [|exact H1].
  destruct (find _ (devices st1)); [exact H1|]. keep_invariant H1.
Qed.

Lemma parseMeasurementData_invariant {engine : Engine} (options : UseOmronBluetoothOptions)
  (characteristicUUID base64Value : string) (now : Z) (st : HookState) :
  hookInvariant options st ->
  hookInvariant options
    (snd (parseMeasurementData options characteristicUUID base64Value now st)).
Proof.
  intros H. unfold parseMeasurementData.
  destruct (parseMeasurementData_try _ _ _); cbn [snd]; [exact H|keep_invariant H].
Qed.

Lemma notificationListener_invariant {engine : Engine} (options : UseOmronBluetoothOptions)
  (characteristic : Characteristic) (error : option Error) (value : option string)
  (now : Z) (st : HookState) :
  hookInvariant options st ->
  hookInvariant options (notificationListener options characteristic error value now st).
Proof.
  intros H. unfold notificationListener.
  destruct error; [keep_invariant H|].
  destruct (nonEmpty value) as [v|]; [|exact H].
  pose proof (parseMeasurementData_invariant options (uuid characteristic) v now st H) as H1.
  destruct (parseMeasurementData options (uuid characteristic) v now st) as [[data|] st1];
    cbn [snd] in H1; [|exact H1].
  keep_invariant H1.
Qed.

Lemma requestAllStoredRecords_invariant (options : UseOmronBluetoothOptions)
  (device : Device) (racpChar : Characteristic) (st : HookState) :
  hookInvariant options st ->
  hookInvariant options (requestAllStoredRecords options device racpChar st).
Proof.
  intros H. unfold requestAllStoredRecords.
  change (racpCommand _ _) with (Ok [x01; x01]). cbv beta iota zeta.
  destruct (writeWithResponse racpChar _); keep_invariant H.
Qed.

Lemma handleRACPResponse_invariant (options : UseOmronBluetoothOptions)
  (device : Device) (base64Value : string) (racpChar : Characteristic) (st : HookState) :
  hookInvariant options st ->
  hookInvariant options (handleRACPResponse options device base64Value racpChar st).
Proof.
  intros H. unfold handleRACPResponse. cbv zeta.
  destruct (Buffer.readUInt8 _ 0) as [opCode|]; [|keep_invariant H].
  destruct (opCode =? _).
  - destruct (Buffer.readUInt16LE _ 2) as [n|]; [|keep_invariant H].
    destruct (n >? 0); [|keep_invariant H].
    apply requestAllStoredRecords_invariant. keep_invariant H.
  - destruct (opCode =? _); [|exact H].
    destruct (Buffer.readUInt8 _ 2); [|keep_invariant H].
    destruct (Buffer.readUInt8 _ 3); keep_invariant H.
Qed.

Lemma racpListener_invariant (options : UseOmronBluetoothOptions)
  (device : Device) (racpChar : Characteristic) (error : option Error)
  (value : option string) (st : HookState) :
  hookInvariant options st ->
  hookInvariant options (racpListener options device racpChar error value st).
Proof.
  intros H. unfold racpListener. destruct error; [keep_invariant H|].
  destruct (nonEmpty value); [apply handleRACPResponse_invariant; exact H|exact H].
Qed.

Lemma setupNotification_invariant (options : UseOmronBluetoothOptions)
  (characteristic : Characteristic) (st : HookState) :
  hookInvariant options st ->
  hookInvariant options (setupNotification options characteristic st).
Proof.
  intros H. unfold setupNotification. cbv zeta.
  destruct (monitor characteristic); keep_invariant H.
Qed.

Lemma subscribeServices_invariant (options : UseOmronBluetoothOptions)
  (services : list Service) :
  forall st : HookState,
    hookInvariant options st ->
    hookInvariant options (snd (subscribeServices options services st)).
Proof.
  induction services as [|service rest IH]; intros st H; [exact H|].
  cbn [subscribeServices].
  destruct (characteristics service) as [chars|]; [|exact H].
  apply IH. clear IH. revert st H.
  induction chars as [|char chars IHc]; intros st H; [exact H|].
  cbn [fold_left]. apply IHc.
  destruct (isMeasurementCharacteristic (uuid char));
    [apply setupNotification_invariant; exact H|exact H].
Qed.

Lemma requestStoredRecords_invariant (options : UseOmronBluetoothOptions)
  (device : Device) (st : HookState) :
  hookInvariant options st ->
  hookInvariant options (requestStoredRecords options device st).
Proof.
  intros H. unfold requestStoredRecords. cbv zeta.
  change (racpCommand _ _) with (Ok [x04; x01]). cbv beta iota.
  destruct (_ <- services device ;; _) as [[racpChar|]|]; try keep_invariant H.
  destruct (monitor racpChar); [|keep_invariant H].
  destruct (writeWithResponse racpChar _); keep_invariant H.
Qed.

Lemma setupDataTransfer_invariant (options : UseOmronBluetoothOptions)
  (device : Device) (st : HookState) :
  hookInvariant options st ->
  hookInvariant options (setupDataTransfer options device st).
Proof.
  intros H. unfold setupDataTransfer.
  destruct (services device) as [services|]; [|keep_invariant H].
  pose proof (subscribeServices_invariant options services st H) as H1.
  destruct (subscribeServices options services st) as [[?|?] st1]; cbn [snd] in H1.
  - apply requestStoredRecords_invariant. exact H1.
  - keep_invariant H1.
Qed.

Lemma connectToDevice_begin_invariant (options : UseOmronBluetoothOptions)
  (device : Device) (st : HookState) :
  hookInvariant options st ->
  hookInvariant options (connectToDevice_begin options device st).
Proof.
  intros H. unfold connectToDevice_begin. destruct (managerRef st); [|exact H].
  cbv zeta.
  assert (H1 : hookInvariant options (removeAllSubscriptions (stopScan st)))
    by (apply removeAllSubscriptions_invariant, stopScan_invariant; exact H).
  keep_invariant H1.
Qed.

Lemma connectToDevice_settle_invariant (options : UseOmronBluetoothOptions)
  (manager : BleManager) (device : Device) (st : HookState) :
  hookInvariant options st ->
  hookInvariant options (connectToDevice_settle options manager device st).
Proof.
  intros H. unfold connectToDevice_settle, connectionFailed. cbv zeta.
  destruct (connectToDevice_ manager _ _) as [connectedDev|]; [|keep_invariant H].
  destruct (discoverAllServicesAndCharacteristics connectedDev); [|keep_invariant H].
  apply setupDataTransfer_invariant. keep_invariant H.
Qed.

Lemma disconnect_invariant (options : UseOmronBluetoothOptions) (st : HookState) :
  hookInvariant options st -> hookInvariant options (disconnect options st).
Proof.
  intros H. unfold disconnect.
  destruct (managerRef st) as [manager|]; [|exact H].
  destruct (connectedDevice st) as [connected|]; [|exact H].
  cbv zeta.
  pose proof (removeAllSubscriptions_invariant options st H) as H1.
  destruct (cancelDeviceConnection manager (id connected)); cbn [try_catch bind];
    keep_invariant H1.
Qed.

Lemma effectCleanup_invariant (options : UseOmronBluetoothOptions) (st : HookState) :
  hookInvariant options st -> hookInvariant options (effectCleanup st).
Proof.
  intros H. unfold effectCleanup. cbv zeta.
  assert (H1 : hookInvariant options (removeAllSubscriptions (stopScan st)))
    by (apply removeAllSubscriptions_invariant, stopScan_invariant; exact H).
  destruct (managerRef _); [keep_invariant H1|exact H1].
Qed.

Lemma step_invariant {engine : Engine}
  (options : UseOmronBluetoothOptions) (st : HookState) (ev : Event) :
  hookInvariant options st -> hookInvariant options (step options st ev).
Proof.
  intros H. destruct ev; cbn [step].
  - apply scanDevices_invariant, H.
  - apply scanListener_invariant, H.
  - unfold scanTimeoutExpired. apply addLog_invariant, stopScan_invariant, H.
  - apply connectToDevice_begin_invariant, H.
  - apply connectToDevice_settle_invariant, H.
  - apply notificationListener_invariant, H.
  - apply racpListener_invariant, H.
  - apply disconnect_invariant, H.
  - unfold stateChangeListener. destruct (_ && _); [apply scanDevices_invariant, H|exact H].
  - apply effectCleanup_invariant, H.
Qed.

Lemma run_invariant {engine : Engine} (options : UseOmronBluetoothOptions) (events : list Event) :
  forall st : HookState,
    hookInvariant options st -> hookInvariant options (run options events st).
Proof.
  induction events as [|ev rest IH]; intros st H; [exact H|].
  cbn [run fold_left]. apply IH, step_invariant, H.
Qed.

Lemma mount_invariant (options : UseOmronBluetoothOptions) (manager : BleManager) :
  hookInvariant options (mount manager).
Proof. split; [intros H2; cbn; lia|left; reflexivity]. Qed.

(** X1.  With a log limit of two or more, whatever happens to a mounted
    hook, the activity log never holds more than [logLimit] entries. *)
Theorem log_never_exceeds_limit {engine : Engine}
  (options : UseOmronBluetoothOptions) (manager : BleManager) (events : list Event) :
  2 <= logLimit options ->
  Z.of_nat (List.length (logs (run options events (mount manager)))) <= logLimit options.
Proof.
  intros H2.
  exact (proj1 (run_invariant options events _ (mount_invariant options manager)) H2).
Qed.

Lemma log_never_exceeds_limit_witness :
  List.length (logs (run (engine := Engines.correctly_rounded) DEFAULT_OPTIONS
                       (repeat (EvScanResult (Some RangeError) None) 25)
                       (mount Sample.manager))) = 20%nat
  /\ Z.of_nat (List.length (logs (run (engine := Engines.correctly_rounded) DEFAULT_OPTIONS
                                    (repeat (EvScanResult (Some RangeError) None) 25)
                                    (mount Sample.manager)))) <= 20.
Proof.
  split; [vm_compute; reflexivity|].
  apply (log_never_exceeds_limit DEFAULT_OPTIONS Sample.manager
           (repeat (EvScanResult (Some RangeError) None) 25)).
  vm_compute. discriminate.
Defined.

(** X2.  With a log limit of one or zero nothing is ever dropped from the
    log: [prev.slice(-0)] is the whole array, so a run of scan errors adds
    one entry per error to the log as it was. *)
Theorem log_with_small_limit_keeps_everything {engine : Engine}
  (options : UseOmronBluetoothOptions) (errors : list Error) (st : HookState) :
  logLimit options <= 1 ->
  logs (run options (map (fun e => EvScanResult (Some e) None) errors) st)
  = logs st ++ map LogScanError errors.
Proof.
  intros H1. revert st.
  induction errors as [|e rest IH]; intros st; [cbn; rewrite app_nil_r; reflexivity|].
  cbn [map run fold_left step scanListener].
  fold (run options (map (fun e => EvScanResult (Some e) None) rest)
          (addLog options (LogScanError e) st)).
  rewrite IH. unfold addLog. cbn [logs setLogs]. unfold slice_from_end.
  replace (Z.max (logLimit options - 1) 0) with 0 by lia.
  cbn [Z.eqb]. rewrite <- app_assoc. reflexivity.
Qed.

Lemma log_with_small_limit_keeps_everything_witness :
  List.length
    (logs (run (engine := Engines.correctly_rounded)
             {| autoScanOnBluetoothOn := true; scanTimeoutMs := 10000;
                requestMtu := 150; logLimit := 1 |}
             (map (fun e => EvScanResult (Some e) None) (repeat RangeError 25))
             (mount Sample.manager))) = 25%nat.
Proof.
  rewrite (log_with_small_limit_keeps_everything
             {| autoScanOnBluetoothOn := true; scanTimeoutMs := 10000;
                requestMtu := 150; logLimit := 1 |}
             (repeat RangeError 25) (mount Sample.manager)).
  - reflexivity.
  - vm_compute. discriminate.
Defined.

(** X3.  Whatever happens to a mounted hook, the connection state is one
    of Disconnected, Connecting, Connected and Connection Failed. *)
Theorem connection_state_is_always_known {engine : Engine}
  (options : UseOmronBluetoothOptions) (manager : BleManager) (events : list Event) :
  In (connectionState (run options events (mount manager))) knownConnectionStates.
Proof.
  exact (proj2 (run_invariant options events _ (mount_invariant options manager))).
Qed.

(** ** Advertising data: what a decoded record looks like *)

Lemma readUInt8_value (buffer : Buffer.t) (offset v : Z) :
  Buffer.readUInt8 buffer offset = Ok v -> 0 <= v < 256.
Proof.
  unfold Buffer.readUInt8. destruct (Buffer.checkOffset offset 1 buffer); [|discriminate].
  cbn [bind]. intros H. injection H as <-. apply get_range.
Qed.

Lemma readUsers_valid (buffer : Buffer.t) (count : nat) :
  forall (i offset : Z) (us : list OmronUserInfo),
    readUsers buffer count i offset = Ok us ->
    validUsers i us = true /\ List.length us = count.
Proof.
  induction count as [|count IH]; intros i offset us H.
  - cbn in H. injection H as <-. split; reflexivity.
  - cbn [readUsers] in H.
    destruct (Buffer.readUInt16LE buffer offset) as [seq|] eqn:Hseq; [|discriminate].
    destruct (Buffer.readUInt8 buffer (offset + 2)) as [recs|] eqn:Hrec; [|discriminate].
    destruct (readUsers buffer count (i + 1) (offset + 3)) as [rest|] eqn:Hrest;
      [|discriminate].
    cbn [bind] in H. injection H as <-.
    apply IH in Hrest as [Hvalid Hlen].
    apply readUInt16LE_inv in Hseq as (-> & _ & _).
    apply readUInt8_value in Hrec.
    pose proof (le16_range buffer offset) as Hr.
    split; [|cbn [List.length]; rewrite Hlen; reflexivity].
    cbn [validUsers index lastSequenceNumber numberOfRecords].
    rewrite Hvalid, Z.eqb_refl.
    rewrite !(proj2 (Z.leb_le _ _)) by lia. reflexivity.
Qed.

(** The decoder builds its record from bytes and from a count of one to
    four, which bounds every field. *)
Lemma parsed_info_is_valid
  (buffer : Buffer.t) (info : OmronAdvertisingInfo) :
  parseOmronManufacturerData_try buffer = Ok (Some info) ->
  validAdvertisingInfo info = true.
Proof.
  unfold parseOmronManufacturerData_try. intros H.
  destruct (Buffer.readUInt16LE buffer 0); [|discriminate].
  destruct (Buffer.readUInt8 buffer 2); [|discriminate]. cbn [bind] in H.
  destruct (negb _ || negb _); [discriminate|].
  destruct (Buffer.readUInt8 buffer 3) as [flags|] eqn:Hflags; [|discriminate].
  cbn [bind] in H.
  destruct (readUsers buffer _ 0 4) as [us|] eqn:Hus; [|discriminate].
  cbn [bind] in H. injection H as <-.
  apply readUInt8_value in Hflags.
  apply readUsers_valid in Hus as [Hvalid Hlen].
  assert (Hn : Z.land flags 3 = flags mod 4)
    by (change 3 with (2 ^ 2 - 1); rewrite land_ones_mod by lia; reflexivity).
  unfold validAdvertisingInfo. cbn [numberOfUsers users].
  rewrite Hvalid, Hlen, Hn.
  rewrite !(proj2 (Z.leb_le _ _)) by lia.
  rewrite (proj2 (Z.eqb_eq _ _)) by lia. reflexivity.
Qed.

(** X4.  Every record the advertisement decoder returns is well formed:
    one to four users, as many slots as users, indexed from 1 in layout
    order, sequence numbers within 0..65535 and record counts within
    0..255. *)
Theorem decoded_advertisement_is_well_formed
  (buffer : Buffer.t) (info : OmronAdvertisingInfo) :
  parseOmronManufacturerData_try buffer = Ok (Some info) ->
  validAdvertisingInfo info = true.
Proof. exact (parsed_info_is_valid buffer info). Qed.

Lemma decoded_advertisement_is_well_formed_witness :
  parseOmronManufacturerData_try Sample.advertisement = Ok (Some Sample.info)
  /\ validAdvertisingInfo Sample.info = true.
Proof.
  split; [reflexivity|].
  exact (decoded_advertisement_is_well_formed Sample.advertisement Sample.info eq_refl).
Defined.

Lemma encodeFlags_with_reserved (info : OmronAdvertisingInfo) (reserved : Z) :
  1 <= numberOfUsers info <= 4 -> 0 <= reserved < 16 ->
  let flags := encodeFlags info + 16 * reserved in
  0 <= flags < 256
  /\ negb (Z.land flags 8 =? 0) = pairable info
  /\ negb (Z.land flags 4 =? 0) = timeNotConfigured info
  /\ Z.land flags 3 + 1 = numberOfUsers info.
Proof.
  intros Hn Hr. cbv zeta.
  destruct (encodeFlags_fields info Hn) as (Hf & Hp & Ht & Hu).
  assert (Hbit : forall k, 0 <= k < 4 ->
            Z.testbit (encodeFlags info + 16 * reserved) k = Z.testbit (encodeFlags info) k).
  { intros k Hk.
    rewrite <- (Z.mod_pow2_bits_low (encodeFlags info + 16 * reserved) 4 k) by lia.
    rewrite <- (Z.mod_pow2_bits_low (encodeFlags info) 4 k) by lia.
    f_equal. change (2 ^ 4) with 16. lia. }
  split; [lia|].
  change 8 with (2 ^ 3). change 4 with (2 ^ 2) at 1.
  change (negb (Z.land ?f ?p =? 0)) with (truthy (Z.land f p)) in *.
  rewrite !truthy_land_pow2, !Hbit by lia.
  change 8 with (2 ^ 3) in Hp. change 4 with (2 ^ 2) in Ht.
  rewrite truthy_land_pow2 in Hp, Ht by lia.
  split; [exact Hp|]. split; [exact Ht|].
  rewrite <- Hu. f_equal.
  change 3 with (2 ^ 2 - 1). rewrite !land_ones_mod by lia.
  change (2 ^ 2) with 4. lia.
Qed.

(** X5.  The advertisement decoder reads the header, the low four bits of
    the flags byte and one slot per announced user, and nothing else: bits
    4 to 7 of the flags byte and any bytes after the last slot do not
    change the record it returns. *)
Theorem advertisement_ignores_reserved_bits_and_trailing_bytes
  (info : OmronAdvertisingInfo) (reserved : Z) (extra : Buffer.t) :
  validAdvertisingInfo info = true ->
  0 <= reserved < 16 ->
  parseOmronManufacturerData_try
    ([x0e; x02; x01; Buffer.byte_of_Z (encodeFlags info + 16 * reserved)]
     ++ flat_map encodeUser (users info) ++ extra)
  = Ok (Some info).
Proof.
  intros Hvalid Hr. unfold validAdvertisingInfo in Hvalid.
  apply andb_prop in Hvalid as [Hvalid Husers].
  apply andb_prop in Hvalid as [Hvalid Hlen].
  apply andb_prop in Hvalid as [Hlo Hhi].
  apply Z.leb_le in Hlo, Hhi. apply Z.eqb_eq in Hlen.
  destruct (encodeFlags_with_reserved info reserved (conj Hlo Hhi) Hr)
    as (Hflags & Hp & Ht & Hn).
  pose proof (readUsers_encode (users info)
                [x0e; x02; x01; Buffer.byte_of_Z (encodeFlags info + 16 * reserved)]
                extra 0 Husers) as Hread.
  change (Buffer.length [x0e; x02; x01; Buffer.byte_of_Z (encodeFlags info + 16 * reserved)])
    with 4 in Hread.
  unfold parseOmronManufacturerData_try.
  set (buffer := [x0e; x02; x01; Buffer.byte_of_Z (encodeFlags info + 16 * reserved)]
                 ++ flat_map encodeUser (users info) ++ extra) in *.
  assert (Hbuf : 4 <= Buffer.length buffer).
  { unfold buffer. rewrite length_app. change (Buffer.length [_; _; _; _]) with 4.
    pose proof (length_nonneg (flat_map encodeUser (users info) ++ extra)). lia. }
  rewrite readUInt16LE_ok, !readUInt8_ok by lia. cbn [bind].
  change (le16 buffer 0) with OMRON_COMPANY_ID.
  change (Buffer.get buffer 2) with 1.
  rewrite !Z.eqb_refl. change (negb true || negb true) with false. cbv iota.
  assert (Hget3 : Buffer.get buffer 3 = encodeFlags info + 16 * reserved)
    by (unfold buffer; cbn [app]; rewrite get_at_3; apply byteZ_byte_of_Z; lia).
  rewrite !Hget3, Hp, Ht, Hn.
  replace (Z.to_nat (numberOfUsers info)) with (List.length (users info)) by lia.
  rewrite Hread. cbn [bind]. destruct info; reflexivity.
Qed.

Lemma advertisement_ignores_reserved_bits_and_trailing_bytes_witness :
  parseOmronManufacturerData_try
    [x0e; x02; x01; xa9; x05; x00; x03; x02; x00; x01; xff; xff]
  = Ok (Some Sample.info).
Proof.
  apply (advertisement_ignores_reserved_bits_and_trailing_bytes Sample.info 10 [xff; xff]).
  - reflexivity.
  - split; [vm_compute; discriminate|reflexivity].
Defined.

(** ** Measurement payloads, continued *)

(** X6.  For every buffer, [parseWeightData] reads the flags at byte 0 and
    the little-endian word at bytes 1 and 2, and returns that word times
    0.005 as kilograms.  With bit 1 of the flags set the seven bytes from
    offset 3 are the timestamp, otherwise the timestamp is the capture
    time.  A buffer shorter than three bytes, or ten with a timestamp,
    makes the decoder throw the range error. *)
Theorem parseWeightData_decodes (buffer : Buffer.t) (now : Z) :
  let flags := Buffer.get buffer 0 in
  parseWeightData buffer now
  = if Buffer.length buffer <? (if Z.testbit flags 1 then 10 else 3)
    then Throw RangeError
    else Ok {| weight := PrimFloat.mul (number_of_Z (le16 buffer 1))
                                       0x1.47ae147ae147bp-8%float;
               weight_timestamp :=
                 if Z.testbit flags 1
                 then DateOf (le16 buffer 3) (Buffer.get buffer 5 - 1) (Buffer.get buffer 6)
                             (Buffer.get buffer 7) (Buffer.get buffer 8) (Buffer.get buffer 9)
                 else DateNow now;
               weight_unit := kg |}.
Proof.
  cbv zeta. unfold parseWeightData.
  destruct (Z.ltb_spec (Buffer.length buffer) 1) as [Hempty|Hflags].
  - rewrite readUInt8_throw by lia. cbn [bind].
    need_step; [reflexivity|]. destruct (Z.testbit _ 1); lia.
  - rewrite readUInt8_ok by lia. cbn [bind]. rewrite truthy_bit1.
    destruct (Z.ltb_spec (Buffer.length buffer) 3) as [Hshort|Hraw].
    + rewrite readUInt16LE_throw by lia. cbn [bind].
      need_step; [reflexivity|]. destruct (Z.testbit _ 1); lia.
    + rewrite readUInt16LE_ok by lia. cbn [bind].
      destruct (Z.testbit (Buffer.get buffer 0) 1);
        rewrite ?readDateTime_cases by lia;
        need_step;
        repeat match goal with
               | |- context [if ?l <? ?n then _ else _] => destruct (Z.ltb_spec l n); try lia
               end;
        cbn [bind]; try lia; reflexivity.
Qed.

(** X7.  [parseBloodPressureData] needs seven bytes, seven more when bit 1
    of the flags announces a timestamp and two more when bit 2 announces a
    pulse.  With fewer it throws the range error.  With enough it returns
    the SFLOATs at offsets 1, 3 and 5 as systolic, diastolic and mean
    arterial pressure in mmHg, and the timestamp read at offset 7 (month
    turned into a month index) or else the capture time. *)
Theorem parseBloodPressureData_needs_its_fields {engine : Engine} (buffer : Buffer.t) (now : Z) :
  let flags := Buffer.get buffer 0 in
  let need := 7 + (if Z.testbit flags 1 then 7 else 0) + (if Z.testbit flags 2 then 2 else 0) in
  (Buffer.length buffer < need -> parseBloodPressureData buffer now = Throw RangeError)
  /\ (need <= Buffer.length buffer ->
      exists m,
        parseBloodPressureData buffer now = Ok m
        /\ systolic m = sfloat_value (le16 buffer 1)
        /\ diastolic m = sfloat_value (le16 buffer 3)
        /\ meanArterialPressure m = sfloat_value (le16 buffer 5)
        /\ bp_unit m = mmHg
        /\ bp_timestamp m
           = if Z.testbit flags 1
             then DateOf (le16 buffer 7) (Buffer.get buffer 9 - 1) (Buffer.get buffer 10)
                         (Buffer.get buffer 11) (Buffer.get buffer 12) (Buffer.get buffer 13)
             else DateNow now).
Proof.
  cbv zeta. rewrite parseBloodPressureData_cases. cbv zeta. split; intros H.
  - rewrite (proj2 (Z.ltb_lt _ _)) by exact H. reflexivity.
  - rewrite (proj2 (Z.ltb_ge _ _)) by exact H.
    eexists. split; [reflexivity|]. repeat split.
Qed.

Lemma parseBloodPressureData_needs_its_fields_witness :
  parseBloodPressureData (engine := Engines.correctly_rounded)
    [x06; x78; x00; x50; x00; x5d; x00] 1000 = Throw RangeError
  /\ exists m,
       parseBloodPressureData (engine := Engines.correctly_rounded)
         Sample.bloodPressurePayload 1000 = Ok m
       /\ systolic m = 120%float /\ diastolic m = 80%float
       /\ bp_timestamp m = DateOf 2024 10 3 9 0 0.
Proof.
  split.
  - apply (proj1 (parseBloodPressureData_needs_its_fields
                    [x06; x78; x00; x50; x00; x5d; x00] 1000)).
    reflexivity.
  - destruct (proj2 (parseBloodPressureData_needs_its_fields
                       (engine := Engines.correctly_rounded)
                       Sample.bloodPressurePayload 1000))
      as (m & Hm & Hs & Hd & _ & _ & Ht); [vm_compute; discriminate|].
    exists m. split; [exact Hm|]. split; [exact Hs|]. split; [exact Hd|exact Ht].
Defined.

(** X8.  Whatever the dispatcher decodes, the subscription filter lets
    through: a characteristic for which [parseMeasurementData] can return a
    measurement is one that [isMeasurementCharacteristic] accepts, so no
    decoder is out of reach of service discovery. *)
Theorem decodable_characteristic_passes_filter {engine : Engine}
  (characteristicUUID : string) (buffer : Buffer.t) (now : Z) (data : OmronMeasurement) :
  parseMeasurementData_try characteristicUUID buffer now = Ok (Some data) ->
  isMeasurementCharacteristic characteristicUUID = true.
Proof.
  unfold parseMeasurementData_try, isMeasurementCharacteristic. cbv zeta.
  cbn [existsb].
  change (toUpperCase CHARACTERISTICS.BLOOD_PRESSURE_MEASUREMENT)
    with CHARACTERISTICS.BLOOD_PRESSURE_MEASUREMENT.
  change (toUpperCase CHARACTERISTICS.WEIGHT_MEASUREMENT)
    with CHARACTERISTICS.WEIGHT_MEASUREMENT.
  change (toUpperCase CHARACTERISTICS.BODY_COMPOSITION_MEASUREMENT)
    with CHARACTERISTICS.BODY_COMPOSITION_MEASUREMENT.
  change (toUpperCase CHARACTERISTICS.TEMPERATURE_MEASUREMENT)
    with CHARACTERISTICS.TEMPERATURE_MEASUREMENT.
  destruct (includes _ CHARACTERISTICS.BLOOD_PRESSURE_MEASUREMENT); [reflexivity|].
  destruct (includes _ CHARACTERISTICS.WEIGHT_MEASUREMENT); [reflexivity|].
  destruct (includes _ CHARACTERISTICS.TEMPERATURE_MEASUREMENT);
    [intros _; rewrite orb_true_r; reflexivity|].
  destruct (includes _ CHARACTERISTICS.BODY_COMPOSITION_MEASUREMENT); [reflexivity|].
  discriminate.
Qed.

Lemma decodable_characteristic_passes_filter_witness :
  isMeasurementCharacteristic "00002a9d-0000-1000-8000-00805f9b34fb" = true.
Proof.
  apply (decodable_characteristic_passes_filter (engine := Engines.correctly_rounded)
           "00002a9d-0000-1000-8000-00805f9b34fb"
           [x00; xa4; x38] 1000
           (weight_ {| weight := 72.5%float; weight_timestamp := DateNow 1000;
                       weight_unit := kg |})).
  reflexivity.
Defined.

(** ** Notifications *)

Lemma parseMeasurementData_result {engine : Engine} (options : UseOmronBluetoothOptions)
  (characteristicUUID base64Value : string) (now : Z) (st : HookState) :
  fst (parseMeasurementData options characteristicUUID base64Value now st)
  = match parseMeasurementData_try characteristicUUID (Buffer.from_base64 base64Value) now with
    | Ok r => r
    | Throw _ => None
    end
  /\ measurementData (snd (parseMeasurementData options characteristicUUID base64Value now st))
     = measurementData st.
Proof.
  unfold parseMeasurementData.
  destruct (parseMeasurementData_try _ _ _); split; reflexivity.
Qed.

Lemma deliver_measurementData {engine : Engine} (options : UseOmronBluetoothOptions)
  (st : HookState) (n : Notification) :
  measurementData (deliver options st n) = measurementData st ++ carried n.
Proof.
  unfold deliver, carried, notificationListener.
  destruct (with_error n); [cbn; rewrite app_nil_r; reflexivity|].
  destruct (nonEmpty (with_value n)) as [value|]; [|rewrite app_nil_r; reflexivity].
  destruct (parseMeasurementData_result options (uuid (on_characteristic n)) value
              (at_time n) st) as [Hfst Hsnd].
  destruct (parseMeasurementData options _ value (at_time n) st) as [r st1].
  cbn [fst snd] in *. subst r.
  destruct (parseMeasurementData_try _ _ _) as [[data|]|];
    cbn [measurementData setMeasurementData]; rewrite ?app_nil_r; try exact Hsnd.
  rewrite <- Hsnd. reflexivity.
Qed.

(** X9.  Notifications only ever add to the accumulated measurements, at
    the end and in arrival order: after any sequence of deliveries the list
    is the list as it was followed by the measurements the deliveries
    carried, one for each delivery without error whose payload decodes and
    none for the others. *)
Theorem notifications_accumulate_in_order {engine : Engine}
  (options : UseOmronBluetoothOptions) (deliveries : list Notification) (st : HookState) :
  measurementData (fold_left (deliver options) deliveries st)
  = measurementData st ++ flat_map carried deliveries.
Proof.
  revert st. induction deliveries as [|n rest IH]; intros st.
  - cbn. rewrite app_nil_r. reflexivity.
  - cbn [fold_left flat_map]. rewrite IH, deliver_measurementData, app_assoc. reflexivity.
Qed.

(** ** The control point *)

(** What [handleRACPResponse] does, for every indication. *)
Lemma handleRACPResponse_cases (options : UseOmronBluetoothOptions)
  (device : Device) (base64Value : string) (racpChar : Characteristic) (st : HookState) :
  let buffer := Buffer.from_base64 base64Value in
  let opCode := Buffer.get buffer 0 in
  let failed := addLog options (LogRACPResponseError RangeError) st in
  handleRACPResponse options device base64Value racpChar st
  = if Buffer.length buffer <? 1 then failed
    else if opCode =? RACP_OPCODES.NUMBER_OF_STORED_RECORDS_RESPONSE then
      if Buffer.length buffer <? 4 then failed
      else
        let counted := addLog options (LogDeviceHasRecords (le16 buffer 2)) st in
        if le16 buffer 2 >? 0
        then requestAllStoredRecords options device racpChar counted
        else counted
    else if opCode =? RACP_OPCODES.RESPONSE_CODE then
      if Buffer.length buffer <? 4 then failed
      else addLog options (LogRACPResponse (Buffer.get buffer 2) (Buffer.get buffer 3)) st
    else st.
Proof.
  cbv zeta. unfold handleRACPResponse. cbv zeta.
  set (buffer := Buffer.from_base64 base64Value).
  destruct (Z.ltb_spec (Buffer.length buffer) 1).
  - rewrite readUInt8_throw by lia. reflexivity.
  - rewrite readUInt8_ok by lia.
    destruct (Buffer.get buffer 0 =? _).
    + destruct (Z.ltb_spec (Buffer.length buffer) 4).
      * rewrite readUInt16LE_throw by lia. reflexivity.
      * rewrite readUInt16LE_ok by lia. reflexivity.
    + destruct (Buffer.get buffer 0 =? _); [|reflexivity].
      destruct (Z.ltb_spec (Buffer.length buffer) 4).
      * destruct (Z.ltb_spec (Buffer.length buffer) 3).
        -- rewrite readUInt8_throw by lia. reflexivity.
        -- rewrite readUInt8_ok, readUInt8_throw by lia. reflexivity.
      * rewrite !readUInt8_ok by lia. reflexivity.
Qed.

(** X10.  An indication makes [handleRACPResponse] write to the control
    point in one case only: opcode 0x05, at least four bytes, and a record
    count above zero; the write is then the single request for all stored
    records.  No indication, whatever its bytes, changes the accumulated
    measurements, the subscriptions, the connection state or the device
    registry. *)
Theorem handleRACPResponse_writes_only_for_a_positive_count
  (options : UseOmronBluetoothOptions) (device : Device) (base64Value : string)
  (racpChar : Characteristic) (st : HookState) :
  let buffer := Buffer.from_base64 base64Value in
  let st' := handleRACPResponse options device base64Value racpChar st in
  trace st'
  = trace st
    ++ (if (4 <=? Buffer.length buffer)
           && (Buffer.get buffer 0 =? RACP_OPCODES.NUMBER_OF_STORED_RECORDS_RESPONSE)
           && (0 <? le16 buffer 2)
        then [CallWriteWithResponse (uuid racpChar) "AQE="]
        else [])
  /\ measurementData st' = measurementData st
  /\ subscriptionsRef st' = subscriptionsRef st
  /\ connectionState st' = connectionState st
  /\ devices st' = devices st.
Proof.
  cbv zeta. rewrite handleRACPResponse_cases. cbv zeta.
  set (buffer := Buffer.from_base64 base64Value).
  rewrite Z.gtb_ltb.
  destruct (Z.ltb_spec (Buffer.length buffer) 1);
    [rewrite (proj2 (Z.leb_gt 4 _)) by lia; cbn; rewrite app_nil_r; repeat split|].
  destruct (Buffer.get buffer 0 =? RACP_OPCODES.NUMBER_OF_STORED_RECORDS_RESPONSE).
  - destruct (Z.ltb_spec (Buffer.length buffer) 4).
    + rewrite (proj2 (Z.leb_gt 4 _)) by lia. cbn. rewrite app_nil_r. repeat split.
    + rewrite (proj2 (Z.leb_le 4 _)) by lia. cbn [andb].
      destruct (0 <? le16 buffer 2).
      * destruct (requestAllStoredRecords_effect options device racpChar
                    (addLog options (LogDeviceHasRecords (le16 buffer 2)) st))
          as (Ht & Hm & Hs & Hc).
        rewrite Ht, Hm, Hs, Hc. repeat split.
        unfold requestAllStoredRecords.
        change (racpCommand _ _) with (Ok [x01; x01]). cbv beta iota zeta.
        destruct (writeWithResponse racpChar _); reflexivity.
      * cbn. rewrite app_nil_r. repeat split.
  - rewrite andb_false_r. cbn [andb]. rewrite app_nil_r.
    destruct (Buffer.get buffer 0 =? RACP_OPCODES.RESPONSE_CODE); [|repeat split].
    destruct (Buffer.length buffer <? 4); repeat split.
Qed.

(** X11.  A response-code indication (opcode 0x06) of four bytes or more is
    only logged, with the request opcode of byte 2 and the response value
    of byte 3, whatever that value is.  An indication with any opcode other
    than 0x05 and 0x06 leaves the state as it was.  An empty indication, or
    one with opcode 0x05 or 0x06 and fewer than four bytes, is only logged
    as a range error. *)
Theorem handleRACPResponse_other_indications
  (options : UseOmronBluetoothOptions) (device : Device) (base64Value : string)
  (racpChar : Characteristic) (st : HookState) :
  let buffer := Buffer.from_base64 base64Value in
  let opCode := Buffer.get buffer 0 in
  let st' := handleRACPResponse options device base64Value racpChar st in
  (4 <= Buffer.length buffer -> opCode = RACP_OPCODES.RESPONSE_CODE ->
   st' = addLog options (LogRACPResponse (Buffer.get buffer 2) (Buffer.get buffer 3)) st)
  /\ (1 <= Buffer.length buffer ->
      opCode <> RACP_OPCODES.NUMBER_OF_STORED_RECORDS_RESPONSE ->
      opCode <> RACP_OPCODES.RESPONSE_CODE ->
      st' = st)
  /\ (Buffer.length buffer < 1
      \/ (Buffer.length buffer < 4
          /\ (opCode = RACP_OPCODES.NUMBER_OF_STORED_RECORDS_RESPONSE
              \/ opCode = RACP_OPCODES.RESPONSE_CODE)) ->
      st' = addLog options (LogRACPResponseError RangeError) st).
Proof.
  cbv zeta. rewrite handleRACPResponse_cases. cbv zeta.
  set (buffer := Buffer.from_base64 base64Value).
  unfold RACP_OPCODES.NUMBER_OF_STORED_RECORDS_RESPONSE, RACP_OPCODES.RESPONSE_CODE.
  split; [|split].
  - intros Hlen Hop. rewrite Hop.
    rewrite (proj2 (Z.ltb_ge _ 1)), (proj2 (Z.ltb_ge _ 4)) by lia. reflexivity.
  - intros Hlen H5 H6.
    rewrite (proj2 (Z.ltb_ge _ 1)) by lia.
    rewrite (proj2 (Z.eqb_neq _ 5)), (proj2 (Z.eqb_neq _ 6)) by assumption. reflexivity.
  - intros [Hempty | [Hshort [Hop | Hop]]].
    + rewrite (proj2 (Z.ltb_lt _ 1)) by lia. reflexivity.
    + rewrite Hop, (proj2 (Z.ltb_lt _ 4)) by lia.
      destruct (Buffer.length buffer <? 1); reflexivity.
    + rewrite Hop, (proj2 (Z.ltb_lt _ 4)) by lia.
      destruct (Buffer.length buffer <? 1); reflexivity.
Qed.

Lemma handleRACPResponse_other_indications_witness :
  let st := connectToDevice DEFAULT_OPTIONS Sample.monitorA (mount Sample.manager) in
  Buffer.from_base64 "BgABAQ==" = [x06; x00; x01; x01]
  /\ handleRACPResponse DEFAULT_OPTIONS Sample.monitorA "BgABAQ==" Sample.racpChar st
     = addLog DEFAULT_OPTIONS (LogRACPResponse 1 1) st
  /\ Buffer.from_base64 "BwA=" = [x07; x00]
  /\ handleRACPResponse DEFAULT_OPTIONS Sample.monitorA "BwA=" Sample.racpChar st = st
  /\ Buffer.from_base64 "BQA=" = [x05; x00]
  /\ handleRACPResponse DEFAULT_OPTIONS Sample.monitorA "BQA=" Sample.racpChar st
     = addLog DEFAULT_OPTIONS (LogRACPResponseError RangeError) st.
Proof.
  cbv zeta.
  split; [reflexivity|]. split; [|split; [reflexivity|split; [|split; [reflexivity|]]]].
  - apply (proj1 (handleRACPResponse_other_indications DEFAULT_OPTIONS Sample.monitorA
                    "BgABAQ==" Sample.racpChar _)).
    + vm_compute. discriminate.
    + reflexivity.
  - apply (proj1 (proj2 (handleRACPResponse_other_indications DEFAULT_OPTIONS Sample.monitorA
                           "BwA=" Sample.racpChar _))).
    + vm_compute. discriminate.
    + vm_compute. discriminate.
    + vm_compute. discriminate.
  - apply (proj2 (proj2 (handleRACPResponse_other_indications DEFAULT_OPTIONS Sample.monitorA
                           "BQA=" Sample.racpChar _))).
    right. split; [reflexivity|left; reflexivity].
Defined.

(** ** Service discovery *)

(** X12.  The search for the control point returns a characteristic only
    if its UUID, in upper case, contains 2A52 and a listed service holds
    it; it returns none only if every service listed its characteristics
    and none of them passes that test; and it fails only with the error of
    a service that did not list its characteristics. *)
Theorem findRacpChar_finds_the_control_point (services : list Service) :
  match findRacpChar services with
  | Ok (Some racpChar) =>
      isRacpCharacteristic racpChar = true
      /\ exists service cs,
           In service services /\ characteristics service = Ok cs /\ In racpChar cs
  | Ok None =>
      forall service, In service services ->
        exists cs, characteristics service = Ok cs
                   /\ forall c, In c cs -> isRacpCharacteristic c = false
  | Throw e =>
      exists service, In service services /\ characteristics service = Throw e
  end.
Proof.
  induction services as [|service rest IH]; cbn [findRacpChar].
  - intros service [].
  - destruct (characteristics service) as [cs|e] eqn:Hcs; cbn [bind].
    + fold (isRacpCharacteristic).
      destruct (find isRacpCharacteristic cs) as [racpChar|] eqn:Hfind.
      * apply find_some in Hfind as [Hin Hracp].
        split; [exact Hracp|]. exists service, cs. split; [left; reflexivity|]. split; assumption.
      * destruct (findRacpChar rest) as [[racpChar|]|e].
        -- destruct IH as (Hracp & s & cs' & Hs & Hcs' & Hin).
           split; [exact Hracp|]. exists s, cs'. split; [right; exact Hs|]. split; assumption.
        -- intros s [<-|Hs]; [|exact (IH s Hs)].
           exists cs. split; [exact Hcs|]. intros c Hc. exact (find_none _ _ Hfind c Hc).
        -- destruct IH as (s & Hs & He). exists s. split; [right; exact Hs|exact He].
    + exists service. split; [left; reflexivity|exact Hcs].
Qed.

(** X13.  [requestStoredRecords], once the search has found the control
    point: it asks the transport to monitor it; if that call throws,
    nothing is subscribed and nothing is written; otherwise the
    subscription is added to those held and the two bytes [0x04; 0x01]
    (REPORT_NUMBER_OF_STORED_RECORDS, ALL_RECORDS) are written to it, once,
    and the subscription stays held whether the write resolves or rejects.
    Where the search finds no control point the state is left as it was but
    for the log entry that says so. *)
Theorem requestStoredRecords_starts_the_session
  (options : UseOmronBluetoothOptions) (device : Device) (st : HookState)
  (listed : list Service) :
  services device = Ok listed ->
  let st' := requestStoredRecords options device st in
  match findRacpChar listed with
  | Ok (Some racpChar) =>
      match monitor racpChar with
      | Ok sub =>
          subscriptionsRef st' = subscriptionsRef st ++ [sub]
          /\ trace st' = trace st ++ [CallMonitor (uuid racpChar);
                                      CallWriteWithResponse (uuid racpChar) "BAE="]
          /\ Buffer.from_base64 "BAE="
             = [Buffer.byte_of_Z RACP_OPCODES.REPORT_NUMBER_OF_STORED_RECORDS;
                Buffer.byte_of_Z RACP_OPERATORS.ALL_RECORDS]
      | Throw e =>
          subscriptionsRef st' = subscriptionsRef st
          /\ trace st' = trace st ++ [CallMonitor (uuid racpChar)]
      end
  | Ok None => st' = addLog options LogRACPNotFound st
  | Throw e => st' = addLog options (LogRACPRequestFailed e) st
  end.
Proof.
  intros Hservices. cbv zeta. unfold requestStoredRecords. rewrite Hservices. cbn [bind].
  change (racpCommand _ _) with (Ok [x04; x01]). cbv beta iota zeta.
  change (Buffer.toString_base64 [x04; x01]) with "BAE=".
  destruct (findRacpChar listed) as [[racpChar|]|e]; try reflexivity.
  destruct (monitor racpChar) as [sub|e].
  - destruct (writeWithResponse racpChar "BAE=");
      (split; [reflexivity|split; [|vm_compute; reflexivity]]);
      cbn [trace addLog setLogs call setSubscriptionsRef];
      rewrite <- app_assoc; reflexivity.
  - split; reflexivity.
Qed.

Lemma requestStoredRecords_starts_the_session_witness :
  let st := mount Sample.manager in
  let st' := requestStoredRecords DEFAULT_OPTIONS Sample.monitorA st in
  findRacpChar [Sample.service] = Ok (Some Sample.racpChar)
  /\ subscriptionsRef st' = subscriptionsRef st ++ [Sample.subscription 3]
  /\ trace st' = trace st ++ [CallMonitor (uuid Sample.racpChar);
                              CallWriteWithResponse (uuid Sample.racpChar) "BAE="].
Proof.
  cbv zeta. split; [reflexivity|].
  pose proof (requestStoredRecords_starts_the_session DEFAULT_OPTIONS Sample.monitorA
                (mount Sample.manager) [Sample.service] eq_refl) as H.
  cbv zeta in H.
  change (findRacpChar [Sample.service]) with (Ok (Some Sample.racpChar)) in H.
  cbv beta iota in H.
  change (monitor Sample.racpChar) with (Ok (Sample.subscription 3)) in H.
  cbv beta iota in H.
  destruct H as (Hs & Ht & _). split; assumption.
Defined.

Lemma sameSession_refl (st : HookState) : sameSession st st.
Proof. repeat split. Qed.

Lemma sameSession_trans (st1 st2 st3 : HookState) :
  sameSession st1 st2 -> sameSession st2 st3 -> sameSession st1 st3.
Proof.
  unfold sameSession. intros (? & ? & ? & ? & ? & ?) (? & ? & ? & ? & ? & ?).
  repeat split; congruence.
Qed.

Lemma setupNotification_effect (options : UseOmronBluetoothOptions)
  (characteristic : Characteristic) (st : HookState) :
  let st' := setupNotification options characteristic st in
  trace st' = trace st ++ [CallMonitor (uuid characteristic)]
  /\ subscriptionsRef st' = subscriptionsRef st ++ granted [characteristic]
  /\ sameSession st st'.
Proof.
  unfold setupNotification, granted. cbv zeta. cbn [flat_map].
  destruct (monitor characteristic); cbn [app]; rewrite ?app_nil_r; repeat split.
Qed.

Lemma granted_cons (c : Characteristic) (cs : list Characteristic) :
  granted (c :: cs) = granted [c] ++ granted cs.
Proof. unfold granted. cbn [flat_map]. rewrite app_nil_r. reflexivity. Qed.

Lemma subscribe_characteristics_effect (options : UseOmronBluetoothOptions)
  (cs : list Characteristic) :
  forall st : HookState,
    let wanted := filter (fun c => isMeasurementCharacteristic (uuid c)) cs in
    let st' := fold_left
                 (fun st char =>
                    if isMeasurementCharacteristic (uuid char)
                    then setupNotification options char st
                    else st) cs st in
    trace st' = trace st ++ map (fun c => CallMonitor (uuid c)) wanted
    /\ subscriptionsRef st' = subscriptionsRef st ++ granted wanted
    /\ sameSession st st'.
Proof.
  induction cs as [|c cs IH]; intros st; cbv zeta.
  - cbn. rewrite !app_nil_r. repeat split.
  - cbn [fold_left filter].
    destruct (isMeasurementCharacteristic (uuid c)).
    + destruct (IH (setupNotification options c st)) as (Ht & Hs & Hsame).
      destruct (setupNotification_effect options c st) as (Ht1 & Hs1 & Hsame1).
      cbv zeta in *. rewrite Ht, Hs, Ht1, Hs1.
      rewrite (granted_cons c (filter _ cs)).
      cbn [map]. rewrite <- !app_assoc.
      split; [reflexivity|]. split; [reflexivity|].
      exact (sameSession_trans _ _ _ Hsame1 Hsame).
    + exact (IH st).
Qed.

(** What the loops of [setupDataTransfer] do to a state. *)
Lemma subscribeServices_effect
  (options : UseOmronBluetoothOptions) (listed : list Service) (st : HookState) :
  let wanted := filter (fun c => isMeasurementCharacteristic (uuid c))
                       (reachedCharacteristics listed) in
  let st' := snd (subscribeServices options listed st) in
  trace st' = trace st ++ map (fun c => CallMonitor (uuid c)) wanted
  /\ subscriptionsRef st' = subscriptionsRef st ++ granted wanted
  /\ sameSession st st'.
Proof.
  cbv zeta. revert st.
  induction listed as [|service rest IH]; intros st;
    cbn [subscribeServices reachedCharacteristics].
  - cbn. rewrite !app_nil_r. repeat split.
  - destruct (characteristics service) as [cs|e].
    + destruct (subscribe_characteristics_effect options cs st) as (Ht1 & Hs1 & Hsame1).
      cbv zeta in Ht1, Hs1, Hsame1.
      match goal with
      | |- context [subscribeServices options rest ?s] =>
          destruct (IH s) as (Ht & Hs & Hsame)
      end.
      rewrite Ht, Hs, Ht1, Hs1.
      rewrite filter_app, map_app. unfold granted. rewrite flat_map_app.
      rewrite <- !app_assoc.
      split; [reflexivity|]. split; [reflexivity|].
      exact (sameSession_trans _ _ _ Hsame1 Hsame).
    + cbn. rewrite !app_nil_r. repeat split.
Qed.

(** X14.  Service discovery subscribes to exactly the characteristics the
    filter accepts, in the order the services list them, up to the first
    service that fails to list its characteristics: each gets one call to
    [monitor], the subscriptions handed out are added to those held in the
    same order, a characteristic whose [monitor] throws adds none and stops
    nothing, and neither the connection state, the connected device, the
    accumulated measurements nor the registry change. *)
Theorem subscribeServices_subscribes_the_accepted
  (options : UseOmronBluetoothOptions) (listed : list Service) (st : HookState) :
  let wanted := filter (fun c => isMeasurementCharacteristic (uuid c))
                       (reachedCharacteristics listed) in
  let st' := snd (subscribeServices options listed st) in
  trace st' = trace st ++ map (fun c => CallMonitor (uuid c)) wanted
  /\ subscriptionsRef st' = subscriptionsRef st ++ granted wanted
  /\ sameSession st st'.
Proof. exact (subscribeServices_effect options listed st). Qed.

Lemma requestStoredRecords_sameSession (options : UseOmronBluetoothOptions)
  (device : Device) (st : HookState) :
  sameSession st (requestStoredRecords options device st)
  /\ exists added, subscriptionsRef (requestStoredRecords options device st)
                   = subscriptionsRef st ++ added.
Proof.
  unfold requestStoredRecords. cbv zeta.
  change (racpCommand _ _) with (Ok [x04; x01]). cbv beta iota.
  destruct (_ <- services device ;; _) as [[racpChar|]|];
    try (split; [repeat split|exists []; cbn; rewrite app_nil_r; reflexivity]).
  destruct (monitor racpChar) as [sub|];
    [|split; [repeat split|exists []; cbn; rewrite app_nil_r; reflexivity]].
  destruct (writeWithResponse racpChar _);
    (split; [repeat split|exists [sub]; reflexivity]).
Qed.

Lemma setupDataTransfer_sameSession (options : UseOmronBluetoothOptions)
  (device : Device) (st : HookState) :
  sameSession st (setupDataTransfer options device st)
  /\ exists added, subscriptionsRef (setupDataTransfer options device st)
                   = subscriptionsRef st ++ added.
Proof.
  unfold setupDataTransfer.
  destruct (services device) as [listed|];
    [|split; [repeat split|exists []; cbn; rewrite app_nil_r; reflexivity]].
  destruct (subscribeServices_effect options listed st) as (_ & Hs & Hsame).
  cbv zeta in Hs, Hsame.
  destruct (subscribeServices options listed st) as [[?|?] st1]; cbn [snd] in *.
  - destruct (requestStoredRecords_sameSession options device st1) as (Hsame2 & added & Hs2).
    split; [exact (sameSession_trans _ _ _ Hsame Hsame2)|].
    eexists. rewrite Hs2, Hs, <- app_assoc. reflexivity.
  - split.
    + destruct Hsame as (? & ? & ? & ? & ? & ?). repeat split; assumption.
    + eexists. cbn [subscriptionsRef addLog setLogs]. exact Hs.
Qed.

(** What [disconnect] leaves, with a manager and a connected device at
    hand. *)
Lemma disconnect_teardown_shape (options : UseOmronBluetoothOptions) (st : HookState) :
  match managerRef st, connectedDevice st with
  | Some manager, Some connected =>
      trace (disconnect options st)
      = trace st ++ map (fun sub => CallRemove (subId sub)) (subscriptionsRef st)
                 ++ [CallCancelDeviceConnection (id connected)]
      /\ connectionState (disconnect options st) = "Disconnected"
  | _, _ => True
  end.
Proof.
  unfold disconnect.
  destruct (managerRef st) as [manager|]; [|exact I].
  destruct (connectedDevice st) as [connected|]; [|exact I].
  cbv zeta. destruct (removeAllSubscriptions_effect st) as (_ & Ht & _).
  destruct (cancelDeviceConnection manager (id connected));
    cbn -[removeAllSubscriptions]; rewrite Ht, <- app_assoc; split; reflexivity.
Qed.

(** ** Connecting *)

(** X15.  When the transport rejects the connection, [connectToDevice]
    sets the state to Connection Failed, logs the error and does nothing
    else: no further transport call is made (no retry) and the connected
    device, the subscriptions and the measurements are as they were.  When
    the connection resolves but discovery is rejected, the state is
    Connection Failed as well, yet the connected device is held, so that a
    [disconnect] that follows cancels that connection and ends in
    Disconnected. *)
Theorem connectToDevice_failures
  (options : UseOmronBluetoothOptions) (manager : BleManager) (device : Device)
  (st : HookState) :
  let st' := connectToDevice_settle options manager device st in
  match connectToDevice_ manager (id device) (requestMtu options) with
  | Throw e =>
      st' = setConnectionState "Connection Failed" (addLog options (LogConnectionFailed e) st)
      /\ trace st' = trace st
  | Ok connectedDev =>
      match discoverAllServicesAndCharacteristics connectedDev with
      | Throw e =>
          connectionState st' = "Connection Failed"
          /\ connectedDevice st' = Some connectedDev
          /\ subscriptionsRef st' = subscriptionsRef st
          /\ trace st' = trace st ++ [CallDiscoverAll (id connectedDev)]
          /\ (managerRef st <> None ->
              connectionState (disconnect options st') = "Disconnected"
              /\ last (trace (disconnect options st')) CallDestroy
                 = CallCancelDeviceConnection (id connectedDev))
      | Ok _ => True
      end
  end.
Proof.
  cbv zeta. unfold connectToDevice_settle, connectionFailed. cbv zeta.
  destruct (connectToDevice_ manager _ _) as [connectedDev|e]; [|split; reflexivity].
  destruct (discoverAllServicesAndCharacteristics connectedDev) as [|e]; [exact I|].
  split; [reflexivity|]. split; [reflexivity|]. split; [reflexivity|]. split; [reflexivity|].
  intros Hm.
  match goal with |- context [disconnect options ?s] => set (failed := s) end.
  pose proof (disconnect_teardown_shape options failed) as H.
  assert (Hm' : managerRef failed = managerRef st) by reflexivity.
  assert (Hc' : connectedDevice failed = Some connectedDev) by reflexivity.
  rewrite Hm', Hc' in H. destruct (managerRef st); [|contradiction].
  destruct H as (Ht & Hstate). split; [exact Hstate|].
  rewrite Ht, app_assoc. apply last_last.
Qed.

Lemma connectToDevice_failures_witness :
  let rejected := connectToDevice DEFAULT_OPTIONS Sample.monitorA (mount Faulty.outOfRange) in
  let undiscovered :=
    connectToDevice DEFAULT_OPTIONS Faulty.undiscoverable (mount Faulty.manager) in
  connectionState rejected = "Connection Failed"
  /\ connectedDevice rejected = None
  /\ connectionState undiscovered = "Connection Failed"
  /\ connectionState (disconnect DEFAULT_OPTIONS undiscovered) = "Disconnected".
Proof.
  cbv zeta. split; [reflexivity|]. split; [reflexivity|]. split; [reflexivity|].
  pose proof (connectToDevice_failures DEFAULT_OPTIONS Faulty.manager Faulty.undiscoverable
                (connectToDevice_begin DEFAULT_OPTIONS Faulty.undiscoverable
                   (mount Faulty.manager))) as H.
  cbv zeta in H.
  change (connectToDevice_ Faulty.manager (id Faulty.undiscoverable)
            (requestMtu DEFAULT_OPTIONS)) with (Ok Faulty.undiscoverable) in H.
  cbv beta iota in H.
  change (discoverAllServicesAndCharacteristics Faulty.undiscoverable)
    with (@Throw unit (BleError "Device disconnected")) in H.
  cbv beta iota in H.
  destruct H as (_ & _ & _ & _ & H).
  apply H. discriminate.
Defined.

(** X16.  Once the connection has resolved and discovery has succeeded,
    the state is Connected and stays so through the rest of
    [connectToDevice]: a service that cannot be listed, a [monitor] that
    throws, a missing control point or a rejected write are logged and
    change neither the connection state nor the connected device.  The
    accumulated measurements and the registry are untouched, and the
    subscriptions held before are still held, in front of those added. *)
Theorem connectToDevice_connected_whatever_setup_does
  (options : UseOmronBluetoothOptions) (manager : BleManager) (device : Device)
  (st : HookState) (connectedDev : Device) :
  connectToDevice_ manager (id device) (requestMtu options) = Ok connectedDev ->
  discoverAllServicesAndCharacteristics connectedDev = Ok tt ->
  let st' := connectToDevice_settle options manager device st in
  connectionState st' = "Connected"
  /\ connectedDevice st' = Some connectedDev
  /\ measurementData st' = measurementData st
  /\ devices st' = devices st
  /\ exists added, subscriptionsRef st' = subscriptionsRef st ++ added.
Proof.
  intros Hconnect Hdiscover. cbv zeta.
  unfold connectToDevice_settle. rewrite Hconnect. cbv zeta. rewrite Hdiscover.
  match goal with
  | |- context [setupDataTransfer options connectedDev ?s] =>
      destruct (setupDataTransfer_sameSession options connectedDev s)
        as ((Hd & Hc & Hs & Hm & _) & added & Hsubs)
  end.
  rewrite Hd, Hc, Hs, Hm, Hsubs. repeat split. exists added. reflexivity.
Qed.

Lemma connectToDevice_connected_whatever_setup_does_witness :
  let st := connectToDevice DEFAULT_OPTIONS Faulty.unlisted (mount Faulty.manager) in
  connectionState st = "Connected"
  /\ last (logs st) LogDisconnected = LogSetupFailed (BleError "Services not discovered")
  /\ subscriptionsRef st = [].
Proof.
  cbv zeta.
  split; [|split; reflexivity].
  exact (proj1 (connectToDevice_connected_whatever_setup_does DEFAULT_OPTIONS Faulty.manager
                  Faulty.unlisted
                  (connectToDevice_begin DEFAULT_OPTIONS Faulty.unlisted (mount Faulty.manager))
                  Faulty.unlisted eq_refl eq_refl)).
Defined.

(** ** Scanning and unmounting *)

(** X17.  Starting a scan with a manager at hand empties the registry,
    stops the scan in progress, cancels the timer of that scan if one is
    pending, starts the new scan and arms one timer of [scanTimeoutMs]; so
    a scan restarted before its timer fired is not stopped by the old
    timer.  The connection state, the connected device, the subscriptions
    and the accumulated measurements are not touched. *)
Theorem scanDevices_restarts_the_timer
  (options : UseOmronBluetoothOptions) (st : HookState) (manager : BleManager) :
  managerRef st = Some manager ->
  let st' := scanDevices options st in
  devices st' = []
  /\ scanTimeoutRef st' = true
  /\ trace st'
     = trace st
       ++ CallStopDeviceScan :: (if scanTimeoutRef st then [CallClearTimeout] else [])
       ++ [CallStartDeviceScan; CallSetTimeout (scanTimeoutMs options)]
  /\ connectionState st' = connectionState st
  /\ connectedDevice st' = connectedDevice st
  /\ subscriptionsRef st' = subscriptionsRef st
  /\ measurementData st' = measurementData st.
Proof.
  intros Hm. cbv zeta. unfold scanDevices. rewrite Hm. cbv zeta.
  match goal with
  | |- context [stopScan ?s] =>
      destruct (stopScan_effect s) as (Hs & Hd & Hc & Hstate & Hdata & _ & _ & Ht)
  end.
  cbn -[stopScan] in *. rewrite Hm in Ht.
  rewrite Hs, Hd, Hc, Hstate, Hdata, Ht, <- !app_assoc. repeat split.
Qed.

Lemma scanDevices_restarts_the_timer_witness :
  let st := scanDevices DEFAULT_OPTIONS
              (scanListener DEFAULT_OPTIONS None (Some Sample.monitorA)
                 (scanDevices DEFAULT_OPTIONS (mount Sample.manager))) in
  devices st = []
  /\ trace st = [CallStopDeviceScan; CallStartDeviceScan; CallSetTimeout 10000;
                 CallStopDeviceScan; CallClearTimeout;
                 CallStartDeviceScan; CallSetTimeout 10000].
Proof.
  cbv zeta.
  destruct (scanDevices_restarts_the_timer DEFAULT_OPTIONS
              (scanListener DEFAULT_OPTIONS None (Some Sample.monitorA)
                 (scanDevices DEFAULT_OPTIONS (mount Sample.manager)))
              Sample.manager eq_refl) as (Hd & _ & Ht & _).
  split; [exact Hd|]. rewrite Ht. vm_compute. reflexivity.
Defined.

(** X18.  The effect's cleanup removes every subscription held and drops
    the manager, and from then on the hook's operations are inert:
    starting or stopping a scan, connecting and disconnecting leave the
    state as it is and reach the transport no more. *)
Theorem operations_are_inert_after_cleanup
  (options : UseOmronBluetoothOptions) (st : HookState) (device : Device) :
  let st' := effectCleanup st in
  managerRef st' = None
  /\ subscriptionsRef st' = []
  /\ (forall sub, In sub (subscriptionsRef st) -> In (CallRemove (subId sub)) (trace st'))
  /\ scanDevices options st' = st'
  /\ stopScan st' = st'
  /\ connectToDevice options device st' = st'
  /\ disconnect options st' = st'.
Proof.
  cbv zeta.
  assert (Hm : managerRef (effectCleanup st) = None).
  { unfold effectCleanup. cbv zeta.
    destruct (managerRef (removeAllSubscriptions (stopScan st))) eqn:E;
      [reflexivity|exact E]. }
  split; [exact Hm|].
  destruct (removeAllSubscriptions_effect (stopScan st)) as (Hs & Ht & _).
  destruct (stopScan_effect st) as (Hs0 & _).
  split; [|split].
  - unfold effectCleanup. cbv zeta.
    destruct (managerRef (removeAllSubscriptions (stopScan st)));
      [cbn -[removeAllSubscriptions stopScan]|]; exact Hs.
  - intros sub Hin.
    assert (Hin' : In (CallRemove (subId sub)) (trace (removeAllSubscriptions (stopScan st)))).
    { rewrite Ht, Hs0. apply in_or_app. right.
      apply in_map_iff. exists sub. split; [reflexivity|exact Hin]. }
    unfold effectCleanup. cbv zeta.
    destruct (managerRef (removeAllSubscriptions (stopScan st))); [|exact Hin'].
    cbn -[removeAllSubscriptions stopScan]. apply in_or_app. left. exact Hin'.
  - unfold scanDevices, stopScan, connectToDevice, disconnect. rewrite Hm. repeat split.
Qed.

Lemma operations_are_inert_after_cleanup_witness :
  let st := connectToDevice DEFAULT_OPTIONS Sample.monitorA (mount Sample.manager) in
  subscriptionsRef st = [Sample.subscription 1; Sample.stuckSubscription 2;
                         Sample.subscription 3]
  /\ In (CallRemove 2) (trace (effectCleanup st))
  /\ connectToDevice DEFAULT_OPTIONS Sample.monitorB (effectCleanup st) = effectCleanup st.
Proof.
  cbv zeta. split; [reflexivity|].
  destruct (operations_are_inert_after_cleanup DEFAULT_OPTIONS
              (connectToDevice DEFAULT_OPTIONS Sample.monitorA (mount Sample.manager))
              Sample.monitorB) as (_ & _ & Hremoved & _ & _ & Hconnect & _).
  split; [|exact Hconnect].
  apply (Hremoved (Sample.stuckSubscription 2)). right. left. reflexivity.
Defined.

(** ** Measurement payloads, the remaining decoders *)

(** X19.  [parseBodyCompositionData] needs the two flag bytes, two bytes
    more when bit 1 of the flags announces the body fat and two more when
    bit 5 announces the muscle mass; with fewer it throws the range error.
    Bits other than 1 and 5 announce nothing it reads, and the timestamp it
    returns is always the capture time. *)
Theorem parseBodyCompositionData_needs_its_fields (buffer : Buffer.t) (now : Z) :
  let flags := le16 buffer 0 in
  let need := 2 + (if Z.testbit flags 1 then 2 else 0) + (if Z.testbit flags 5 then 2 else 0) in
  (Buffer.length buffer < need -> parseBodyCompositionData buffer now = Throw RangeError)
  /\ (need <= Buffer.length buffer ->
      exists m, parseBodyCompositionData buffer now = Ok m /\ bc_timestamp m = DateNow now).
Proof.
  cbv zeta. rewrite parseBodyCompositionData_cases. cbv zeta. split; intros H.
  - rewrite (proj2 (Z.ltb_lt _ _)) by exact H. reflexivity.
  - rewrite (proj2 (Z.ltb_ge _ _)) by exact H. eexists. split; reflexivity.
Qed.

Lemma parseBodyCompositionData_needs_its_fields_witness :
  parseBodyCompositionData [x22; x00; xff; x00] 1000 = Throw RangeError
  /\ exists m, parseBodyCompositionData [xdd; xff] 1000 = Ok m
               /\ bc_timestamp m = DateNow 1000.
Proof.
  split.
  - apply (proj1 (parseBodyCompositionData_needs_its_fields [x22; x00; xff; x00] 1000)).
    reflexivity.
  - apply (proj2 (parseBodyCompositionData_needs_its_fields [xdd; xff] 1000)).
    vm_compute. discriminate.
Defined.

(** X20.  Every pair of a mantissa in -2048..2047 and an exponent in -8..7
    is read back by [readSFloat] from the two little-endian bytes of its
    word: the result is the double product of that mantissa and the
    engine's [Math.pow(10, exponent)].  It is the mantissa itself when the
    exponent is zero, on every engine; on an engine whose power is accurate
    it is exactly the integer mantissa times ten to the exponent when the
    exponent is not negative, and mantissa over ten to the opposite
    exponent up to a relative error of [2^-51] when it is. *)
Theorem readSFloat_reads_back_every_field_pair {engine : Engine} (m e : Z) :
  -2048 <= m < 2048 -> -8 <= e < 8 ->
  let word := sfloat_word m e in
  let value := PrimFloat.mul (number_of_Z m) (Math_pow 10%float (number_of_Z e)) in
  readSFloat [Buffer.byte_of_Z (word mod 256); Buffer.byte_of_Z (word / 256)] 0
  = Ok (value, 2)
  /\ (e = 0 -> is_fraction (exact_value value) m 1 = true)
  /\ (accurate_powers_of_ten engine ->
      if e <? 0
      then near_fraction 51 (exact_value value) m (10 ^ (- e)) = true
      else is_fraction (exact_value value) (m * 10 ^ e) 1 = true).
Proof.
  intros Hm He. cbv zeta.
  split; [|split;
           [intros ->; apply sfloat_product_at_exponent_zero, Hm
           |intros Haccurate; apply sfloat_product_on_accurate_engine; assumption]].
  set (word := sfloat_word m e).
  assert (Hw : 0 <= word < 65536) by (unfold word, sfloat_word; lia).
  assert (Hread : Buffer.readUInt16LE
                    [Buffer.byte_of_Z (word mod 256); Buffer.byte_of_Z (word / 256)] 0
                  = Ok word).
  { rewrite readUInt16LE_ok by (cbn; lia). f_equal. unfold le16.
    change (0 + 1) with 1. rewrite get_at_0, get_at_1, !byteZ_byte_of_Z by lia. lia. }
  rewrite (readSFloat_value _ _ _ Hread). unfold sfloat_value.
  destruct (sfloat_fields word Hw) as (Hm' & He' & Hword).
  assert (Hfields : sfloat_mantissa word = m /\ sfloat_exponent word = e).
  { assert (Hdef : word = (e mod 16) * 4096 + m mod 4096) by reflexivity.
    clearbody word. unfold sfloat_word in Hword.
    generalize dependent (sfloat_mantissa word).
    generalize dependent (sfloat_exponent word).
    intros e' He' m' Hm' Hword. clear Hread.
    assert (He16 : e' mod 16 = e mod 16) by lia.
    assert (Hm4096 : m' mod 4096 = m mod 4096) by lia.
    lia. }
  destruct Hfields as [-> ->]. reflexivity.
Qed.

Lemma readSFloat_reads_back_every_field_pair_witness :
  sfloat_word (-15) (-4) = 0xcff1
  /\ accurate_powers_of_ten Engines.below_at_4_and_5
  /\ readSFloat (engine := Engines.below_at_4_and_5) [xf1; xcf] 0
     = Ok ((-0x1.89374bc6a7ef9p-10)%float, 2)
  /\ near_fraction 51 (exact_value (-0x1.89374bc6a7ef9p-10)%float) (-15) (10 ^ 4) = true.
Proof.
  destruct (readSFloat_reads_back_every_field_pair (engine := Engines.below_at_4_and_5)
              (-15) (-4)) as (Hread & _ & Hnear);
    [split; [vm_compute; discriminate|reflexivity]..|].
  split; [reflexivity|]. split; [exact below_at_4_and_5_is_accurate|].
  split; [exact Hread|].
  exact (Hnear below_at_4_and_5_is_accurate).
Defined.

(** ** The device registry, continued *)

Lemma parsed_fst (options : UseOmronBluetoothOptions) (data : string) (st : HookState)
  (parsed : OmronAdvertisingInfo) :
  fst (parseOmronManufacturerData options data st) = Some parsed ->
  parseOmronManufacturerData_try (Buffer.from_base64 data) = Ok (Some parsed).
Proof.
  unfold parseOmronManufacturerData.
  destruct (parseOmronManufacturerData_try _) as [[info|]|]; cbn [fst]; intros H;
    try discriminate.
  injection H as ->. reflexivity.
Qed.

Lemma step_entries {engine : Engine}
  (options : UseOmronBluetoothOptions) (st : HookState) (ev : Event) :
  Forall decodedFromOwnAdvertisement (devices st) ->
  Forall decodedFromOwnAdvertisement (devices (step options st ev)).
Proof.
  intros H.
  assert (Hkeep : forall st', devices st' = devices st ->
                              Forall decodedFromOwnAdvertisement (devices st'))
    by (intros st' ->; exact H).
  destruct ev; cbn [step].
  - rewrite scanDevices_devices. destruct (managerRef st); [constructor|exact H].
  - destruct (scanListener_devices options error device st)
      as [Hsame | (sighted & data & parsed & _ & Hdata & Hparsed & _ & Hadd)];
      [exact (Hkeep _ Hsame)|].
    rewrite Hadd. apply Forall_app. split; [exact H|].
    constructor; [|constructor].
    exists data. split; [exact Hdata|]. exact (parsed_fst _ _ _ _ Hparsed).
  - apply Hkeep. unfold scanTimeoutExpired. cbn -[stopScan]. apply (stopScan_effect st).
  - apply Hkeep, connectToDevice_begin_devices.
  - apply Hkeep, connectToDevice_settle_devices.
  - apply Hkeep, notificationListener_devices.
  - apply Hkeep, racpListener_devices.
  - apply Hkeep, disconnect_devices.
  - unfold stateChangeListener. destruct (_ && _); [|exact H].
    rewrite scanDevices_devices. destruct (managerRef st); [constructor|exact H].
  - apply Hkeep, (effectCleanup_devices options).
Qed.

Lemma run_entries {engine : Engine} (options : UseOmronBluetoothOptions) (events : list Event) :
  forall st : HookState,
    Forall decodedFromOwnAdvertisement (devices st) ->
    Forall decodedFromOwnAdvertisement (devices (run options events st)).
Proof.
  induction events as [|ev rest IH]; intros st H; [exact H|].
  cbn [run fold_left]. apply IH, step_entries, H.
Qed.

(** X21.  Whatever happens to a mounted hook, every entry of the device
    registry holds the advertisement decoded from the manufacturer data of
    its own device object, and that advertisement is well formed: the
    registry never holds a device whose data failed to decode, nor a record
    from another device's data. *)
Theorem registry_entries_are_decoded_advertisements {engine : Engine}
  (options : UseOmronBluetoothOptions) (manager : BleManager) (events : list Event)
  (d : OmronDiscoveredDevice) :
  In d (devices (run options events (mount manager))) ->
  decodedFromOwnAdvertisement d /\ validAdvertisingInfo (info_of d) = true.
Proof.
  intros Hin.
  pose proof (run_entries options events (mount manager) (Forall_nil _)) as Hall.
  rewrite Forall_forall in Hall. specialize (Hall d Hin).
  split; [exact Hall|].
  destruct Hall as (data & _ & Hparse). exact (parsed_info_is_valid _ _ Hparse).
Qed.

Lemma registry_entries_are_decoded_advertisements_witness :
  let st := run (engine := Engines.correctly_rounded) DEFAULT_OPTIONS
              [EvScanDevices;
               EvScanResult None (Some Sample.beacon);
               EvScanResult None (Some Sample.monitorA)]
              (mount Sample.manager) in
  devices st = [{| device_of := Sample.monitorA; info_of := Sample.info |}]
  /\ validAdvertisingInfo Sample.info = true.
Proof.
  cbv zeta. split; [reflexivity|].
  refine (proj2 (registry_entries_are_decoded_advertisements
                   (engine := Engines.correctly_rounded) DEFAULT_OPTIONS Sample.manager
                   [EvScanDevices;
                    EvScanResult None (Some Sample.beacon);
                    EvScanResult None (Some Sample.monitorA)]
                   {| device_of := Sample.monitorA; info_of := Sample.info |} _)).
  vm_compute. left. reflexivity.
Defined.

(** X22.  The subscription to the adapter's state, which the effect put
    among the subscriptions at mount, is removed by the first connection
    attempt along with every other subscription held: whatever happened
    before, once [connectToDevice] has begun to run with a manager at hand
    every subscription held until then has been asked to remove itself and
    none is held. *)
Theorem connecting_removes_every_subscription_held
  (options : UseOmronBluetoothOptions) (manager : BleManager) (device : Device)
  (st : HookState) (sub : Subscription) :
  managerRef st = Some manager ->
  In sub (subscriptionsRef st) ->
  In (CallRemove (subId sub)) (trace (connectToDevice_begin options device st))
  /\ subscriptionsRef (connectToDevice_begin options device st) = []
  /\ subscriptionsRef (mount manager) = [onStateChange manager].
Proof.
  intros Hm Hin. unfold connectToDevice_begin. rewrite Hm. cbv zeta.
  destruct (stopScan_effect st) as (Hs1 & _).
  destruct (removeAllSubscriptions_effect (stopScan st)) as (Hs2 & Ht2 & _).
  cbn -[removeAllSubscriptions stopScan].
  rewrite Hs2, Ht2, Hs1. split; [|split; reflexivity].
  apply in_or_app. left. apply in_or_app. right.
  apply in_map_iff. exists sub. split; [reflexivity|exact Hin].
Qed.

Lemma connecting_removes_every_subscription_held_witness :
  In (CallRemove (subId (onStateChange Sample.manager)))
     (trace (connectToDevice_begin DEFAULT_OPTIONS Sample.monitorA (mount Sample.manager))).
Proof.
  refine (proj1 (connecting_removes_every_subscription_held DEFAULT_OPTIONS Sample.manager
                   Sample.monitorA (mount Sample.manager) (onStateChange Sample.manager)
                   eq_refl _)).
  left. reflexivity.
Defined.

Lemma findRacpChar_finds_the_control_point_witness :
  findRacpChar [Sample.service] = Ok (Some Sample.racpChar)
  /\ isRacpCharacteristic Sample.racpChar = true
  /\ findRacpChar [{| characteristics := Ok [Sample.bloodPressureChar] |}] = Ok None
  /\ isRacpCharacteristic Sample.bloodPressureChar = false.
Proof.
  split; [reflexivity|].
  pose proof (findRacpChar_finds_the_control_point [Sample.service]) as Hfound.
  pose proof (findRacpChar_finds_the_control_point
                [{| characteristics := Ok [Sample.bloodPressureChar] |}]) as Hnone.
  change (findRacpChar [Sample.service]) with (Ok (Some Sample.racpChar)) in Hfound.
  change (findRacpChar [{| characteristics := Ok [Sample.bloodPressureChar] |}])
    with (@Ok (option Characteristic) None) in Hnone.
  cbv beta iota in Hfound, Hnone.
  split; [exact (proj1 Hfound)|]. split; [reflexivity|].
  destruct (Hnone _ (or_introl eq_refl)) as (cs & Hcs & Hall).
  injection Hcs as <-. apply Hall. left. reflexivity.
Defined.

(** ** What each event can change *)

Lemma scanDevices_session (options : UseOmronBluetoothOptions) (st : HookState) :
  connectionState (scanDevices options st) = connectionState st
  /\ connectedDevice (scanDevices options st) = connectedDevice st
  /\ measurementData (scanDevices options st) = measurementData st.
Proof.
  unfold scanDevices. destruct (managerRef st); [|repeat split]. cbv zeta.
  match goal with
  | |- context [stopScan ?s] =>
      destruct (stopScan_effect s) as (_ & _ & Hc & Hstate & Hdata & _)
  end.
  cbn -[stopScan] in *. rewrite Hc, Hstate, Hdata. repeat split.
Qed.

Lemma scanListener_session (options : UseOmronBluetoothOptions)
  (error : option Error) (device : option Device) (st : HookState) :
  connectionState (scanListener options error device st) = connectionState st
  /\ connectedDevice (scanListener options error device st) = connectedDevice st
  /\ measurementData (scanListener options error device st) = measurementData st.
Proof.
  unfold scanListener, parseOmronManufacturerData.
  destruct error; [repeat split|].
  destruct device as [sighted|]; [|repeat split].
  destruct (nonEmpty (manufacturerData sighted)); [|repeat split].
  destruct (parseOmronManufacturerData_try _) as [[parsed|]|];
    [|repeat split|repeat split].
  destruct (find _ _); repeat split.
Qed.

Lemma handleRACPResponse_session (options : UseOmronBluetoothOptions)
  (device : Device) (base64Value : string) (racpChar : Characteristic) (st : HookState) :
  connectionState (handleRACPResponse options device base64Value racpChar st)
  = connectionState st
  /\ connectedDevice (handleRACPResponse options device base64Value racpChar st)
     = connectedDevice st
  /\ measurementData (handleRACPResponse options device base64Value racpChar st)
     = measurementData st.
Proof.
  rewrite handleRACPResponse_cases. cbv zeta.
  unfold requestAllStoredRecords.
  change (racpCommand _ _) with (Ok [x01; x01]). cbv beta iota zeta.
  destruct (_ <? 1); [repeat split|].
  destruct (_ =? _).
  - destruct (_ <? 4); [repeat split|].
    destruct (_ >? 0); [|repeat split].
    destruct (writeWithResponse racpChar _); repeat split.
  - destruct (_ =? _); [|repeat split].
    destruct (_ <? 4); repeat split.
Qed.

Lemma effectCleanup_session (st : HookState) :
  connectionState (effectCleanup st) = connectionState st
  /\ connectedDevice (effectCleanup st) = connectedDevice st
  /\ measurementData (effectCleanup st) = measurementData st.
Proof.
  unfold effectCleanup. cbv zeta.
  destruct (removeAllSubscriptions_effect (stopScan st)) as (_ & _ & _ & Hc & Hs & Hm & _).
  destruct (stopScan_effect st) as (_ & _ & Hc0 & Hs0 & Hm0 & _).
  destruct (managerRef (removeAllSubscriptions (stopScan st)));
    cbn -[removeAllSubscriptions stopScan]; rewrite Hc, Hs, Hm, Hc0, Hs0, Hm0; repeat split.
Qed.

(** X23.  The accumulated measurements change in two ways only: a
    notification adds the measurement it carries at the end, and the
    beginning of a connection attempt, with a manager at hand, empties the
    list.  Scanning, control-point indications, the settling of a
    connection, disconnecting, a change of the adapter's state and the
    cleanup leave the list as it is. *)
Theorem measurements_change_by_notification_or_connect_only {engine : Engine}
  (options : UseOmronBluetoothOptions) (st : HookState) (ev : Event) :
  measurementData (step options st ev)
  = match ev with
    | EvNotification characteristic error value now =>
        measurementData st
        ++ carried {| on_characteristic := characteristic; with_error := error;
                      with_value := value; at_time := now |}
    | EvConnectBegin _ =>
        match managerRef st with
        | Some _ => []
        | None => measurementData st
        end
    | _ => measurementData st
    end.
Proof.
  destruct ev; cbn [step].
  - apply scanDevices_session.
  - apply scanListener_session.
  - unfold scanTimeoutExpired. cbn -[stopScan]. apply (stopScan_effect st).
  - unfold connectToDevice_begin. destruct (managerRef st); reflexivity.
  - unfold connectToDevice_settle, connectionFailed. cbv zeta.
    destruct (connectToDevice_ manager _ _) as [connectedDev|]; [|reflexivity].
    destruct (discoverAllServicesAndCharacteristics connectedDev); [|reflexivity].
    match goal with
    | |- context [setupDataTransfer options connectedDev ?s] =>
        destruct (setupDataTransfer_sameSession options connectedDev s)
          as ((_ & _ & _ & Hm & _) & _)
    end.
    rewrite Hm. reflexivity.
  - exact (deliver_measurementData options st
             {| on_characteristic := characteristic; with_error := error;
                with_value := value; at_time := now |}).
  - unfold racpListener. destruct error; [reflexivity|].
    destruct (nonEmpty value); [apply handleRACPResponse_session|reflexivity].
  - apply disconnect_measurementData.
  - unfold stateChangeListener. destruct (_ && _); [apply scanDevices_session|reflexivity].
  - apply effectCleanup_session.
Qed.

(** X24.  Only connecting and disconnecting change the connection state
    and the connected device: a scan, a scan result or its timer, a
    notification, a control-point indication, a change of the adapter's
    state and the cleanup leave both as they are, whatever errors they meet
    and log. *)
Theorem connection_changes_by_connect_or_disconnect_only {engine : Engine}
  (options : UseOmronBluetoothOptions) (st : HookState) (ev : Event) :
  match ev with
  | EvConnectBegin _ | EvConnectSettle _ _ | EvDisconnect => True
  | _ =>
      connectionState (step options st ev) = connectionState st
      /\ connectedDevice (step options st ev) = connectedDevice st
  end.
Proof.
  destruct ev; cbn [step]; try exact I.
  - split; apply scanDevices_session.
  - split; apply scanListener_session.
  - unfold scanTimeoutExpired. cbn -[stopScan]. split; apply (stopScan_effect st).
  - unfold notificationListener, parseMeasurementData.
    destruct error; [split; reflexivity|].
    destruct (nonEmpty value); [|split; reflexivity].
    destruct (parseMeasurementData_try _ _ _) as [[data|]|]; split; reflexivity.
  - unfold racpListener. destruct error; [split; reflexivity|].
    destruct (nonEmpty value); [split; apply handleRACPResponse_session|split; reflexivity].
  - unfold stateChangeListener.
    destruct (_ && _); [split; apply scanDevices_session|split; reflexivity].
  - split; apply effectCleanup_session.
Qed.
